(** * Email-Validator: the validation pipeline, embedded and verified

    A shallow embedding of [src/utils/emailValidator.ts] (parser, reputation
    classifier, simulated probes, the two retry loops, the per-address
    pipeline and the batch orchestrator) and of the upload handler of
    [App], followed by the theorems about them.

    Conventions of the embedding.
    - A JavaScript string is a [string]: one [ascii] per UTF-16 code unit,
      so the texts covered are those over the code units 0..255.
    - A JavaScript number that counts or measures milliseconds is a [Z];
      [maxAttempts] may be zero or negative, as the type [number] allows.
    - [async] functions are functions of a monad [M] that threads a
      [World] (the stream behind [Math.random], the clock, and a trace of
      the calls that matter) and may end in a thrown exception.
    - The npm package [validator] is not part of the repository.  The
      pipeline is parameterised by its two checks; [Module validator]
      transcribes them so that statements can be run on concrete
      addresses. *)

From Stdlib Require Import ZArith QArith List String Ascii Lia Permutation Bool.
From stdpp Require Import base gmap strings.
From Equations Require Import Equations.
Import ListNotations.

#[local] Open Scope bool_scope.
#[local] Open Scope string_scope.
#[local] Open Scope Z_scope.

(** ** JavaScript strings *)

Module JsString.

Definition code (c : ascii) : N := N_of_ascii c.

Definition between (lo hi : N) (c : ascii) : bool :=
  ((lo <=? code c) && (code c <=? hi))%N.

(** WhiteSpace and LineTerminator code units below 256: TAB, LF, VT, FF,
    CR, SP and NBSP. *)
Definition isWhiteSpace (c : ascii) : bool :=
  between 9 13 c || (code c =? 32)%N || (code c =? 160)%N.

Definition isDigit (c : ascii) : bool := between 48 57 c.
Definition isLower (c : ascii) : bool := between 97 122 c.
Definition isUpper (c : ascii) : bool := between 65 90 c.
Definition isAlnum (c : ascii) : bool := isLower c || isUpper c || isDigit c.

(** [String.prototype.toLowerCase] on one code unit: A-Z, and the Latin-1
    capitals U+00C0..U+00DE except the multiplication sign U+00D7. *)
Definition lowerChar (c : ascii) : ascii :=
  if isUpper c || between 192 214 c || between 216 222 c
  then ascii_of_N (code c + 32)
  else c.

Fixpoint toLowerCase (s : string) : string :=
  match s with
  | EmptyString => EmptyString
  | String c s' => String (lowerChar c) (toLowerCase s')
  end.

Fixpoint startsWith (s p : string) : bool :=
  match p, s with
  | EmptyString, _ => true
  | String _ _, EmptyString => false
  | String c p', String d s' => Ascii.eqb c d && startsWith s' p'
  end.

Fixpoint includes (s sub : string) : bool :=
  startsWith s sub ||
  match s with
  | EmptyString => false
  | String _ s' => includes s' sub
  end.

Fixpoint reverseOnto (acc s : string) : string :=
  match s with
  | EmptyString => acc
  | String c s' => reverseOnto (String c acc) s'
  end.

Definition reverse (s : string) : string := reverseOnto EmptyString s.

Definition endsWith (s suffix : string) : bool :=
  startsWith (reverse s) (reverse suffix).

Fixpoint trimStart (s : string) : string :=
  match s with
  | EmptyString => EmptyString
  | String c s' => if isWhiteSpace c then trimStart s' else s
  end.

Fixpoint trimEnd (s : string) : string :=
  match s with
  | EmptyString => EmptyString
  | String c s' =>
      match trimEnd s' with
      | EmptyString => if isWhiteSpace c then EmptyString else String c EmptyString
      | t => String c t
      end
  end.

Definition trim (s : string) : string := trimEnd (trimStart s).

(** [s.split(sep)] for a separator that matches exactly one code unit
    (a one-character string, or a character class such as [/[\n,]/]). *)
Fixpoint split (sep : ascii -> bool) (s : string) : list string :=
  match s with
  | EmptyString => [EmptyString]
  | String c s' =>
      if sep c then EmptyString :: split sep s'
      else match split sep s' with
           | cur :: rest => String c cur :: rest
           | [] => [String c EmptyString]
           end
  end.

(** [s.replace(/[...]/g, '')]: every code unit of the class is removed. *)
Fixpoint remove (cls : ascii -> bool) (s : string) : string :=
  match s with
  | EmptyString => EmptyString
  | String c s' => if cls c then remove cls s' else String c (remove cls s')
  end.

Fixpoint join (sep : string) (parts : list string) : string :=
  match parts with
  | [] => EmptyString
  | [p] => p
  | p :: rest => String.append p (String.append sep (join sep rest))
  end.

Definition isChar (c : ascii) : ascii -> bool := Ascii.eqb c.

End JsString.

(** ** JavaScript arrays *)

Module JsArray.

(** [Array.prototype.slice(start, end)], with its relative indices. *)
Definition slice {T} (start end_ : Z) (array : list T) : list T :=
  let len := Z.of_nat (List.length array) in
  let k := if start <? 0 then Z.max (len + start) 0 else Z.min start len in
  let final := if end_ <? 0 then Z.max (len + end_) 0 else Z.min end_ len in
  firstn (Z.to_nat (final - k)) (skipn (Z.to_nat k) array).

(** [array.push(x)], as the array it leaves. *)
Definition push {T} (array : list T) (x : T) : list T := (array ++ [x])%list.

End JsArray.

(** ** Completions: an [async] function resolves or rejects *)

Inductive Exn : Type :=
| Error (message : string)
| TypeError (message : string).

Inductive Completion (A : Type) : Type :=
| Returned (value : A)
| Threw (exn : Exn).
Arguments Returned {A} value.
Arguments Threw {A} exn.

(** ** Types of [types/email.ts] *)

(** The three literals of [status], each with its pictogram in the source:
    "Valid - Safe to Contact", "Retry Later" and "Do Not Contact". *)
Inductive Status : Type := Valid | RetryLater | DoNotContact.
Inductive Confidence : Type := High | Medium | Low.

(** [lastRetryTimestamp] is optional and never set.  [timestamp] is the
    instant [new Date()] reads, in milliseconds. *)
Record Details : Type := {
  format : bool;
  domain : bool;
  disposable : bool;
  mxRecords : bool;
  smtp : bool;
  spamTrap : bool;
  corporate : bool;
  blacklisted : bool;
  retryCount : Z;
  lastRetryTimestamp : option Z;
  verificationSteps : list string
}.

Record EmailValidationResult : Type := {
  email : string;
  status : Status;
  confidence : Confidence;
  reason : option string;
  timestamp : Z;
  retryAfter : option Z;
  details : Details
}.

Record RetryStrategy : Type := {
  maxAttempts : Z;
  backoffDelay : Z;
  timeout : Z
}.

Record ValidationOptions : Type := {
  enableRetries : bool;
  retryStrategy : RetryStrategy;
  validateSMTP : bool;
  strictMode : bool
}.

(** The part of a browser [File] the module reads. *)
Record File : Type := {
  size : Z;
  type : string;
  text : string
}.

(** ** Constants *)

Definition CHUNK_SIZE : positive := 2000.
Definition MAX_FILE_SIZE : Z := 10 * 1024 * 1024.
Definition MAX_EMAILS : Z := 40000.

Definition DEFAULT_RETRY_STRATEGY : RetryStrategy :=
  {| maxAttempts := 3; backoffDelay := 2000; timeout := 30000 |}.

Definition DEFAULT_OPTIONS : ValidationOptions :=
  {| enableRetries := true;
     retryStrategy := DEFAULT_RETRY_STRATEGY;
     validateSMTP := true;
     strictMode := false |}.

Definition ENTERPRISE_DOMAINS : gset string :=
  list_to_set
    [ "microsoft.com"; "apple.com"; "google.com"; "amazon.com";
      "facebook.com"; "oracle.com"; "ibm.com"; "intel.com";
      "cisco.com"; "hp.com"; "dell.com"; "samsung.com";
      "sony.com"; "toyota.com"; "honda.com"; "bmw.com";
      "boeing.com"; "ge.com"; "siemens.com"; "philips.com" ].

(** Iterated in insertion order by [[...TRUSTED_TLDS]]. *)
Definition TRUSTED_TLDS : list string :=
  [ "edu"; "gov"; "mil"; "ac.uk"; "gov.uk"; "edu.au";
    "gov.au"; "ac.jp"; "go.jp"; "edu.cn"; "gov.cn" ].

(** [set.has(x)] *)
Definition has (set : gset string) (x : string) : bool := bool_decide (x ∈ set).

(** ** File checks and the address parser *)

Definition validateFileSize (file : File) : bool := size file <=? MAX_FILE_SIZE.

Definition validateFileType (file : File) : bool :=
  String.eqb (type file) "text/csv" || String.eqb (type file) "text/plain".

Definition isNewlineOrComma (c : ascii) : bool :=
  JsString.isChar "010"%char c || JsString.isChar ","%char c.

Definition isQuote (c : ascii) : bool :=
  JsString.isChar "'"%char c || JsString.isChar "034"%char c.

(** The callback of [.filter]: a non-empty string that contains [@]. *)
Definition keepToken (email : string) : bool :=
  negb (String.eqb email "") && JsString.includes email "@".

Definition parseEmailFile (file : File) : Completion (list string) :=
  let text := text file in
  let emails :=
    JsArray.slice 0 MAX_EMAILS
      (map (JsString.remove isQuote)
         (List.filter keepToken
            (map JsString.trim (JsString.split isNewlineOrComma text)))) in
  if (Z.of_nat (List.length emails) =? 0)
  then Threw (Error "No valid emails found in file")
  else Returned emails.

(** ** Reputation classifier *)

Definition isEnterpriseDomain (domain : string) : bool :=
  has ENTERPRISE_DOMAINS (JsString.toLowerCase domain) ||
  existsb
    (fun tld => JsString.endsWith (JsString.toLowerCase domain) (String.append "." tld))
    TRUSTED_TLDS.

(** The three patterns of [detectSpamTrapPattern]; the [i] flag makes the
    ASCII letters of a pattern match either case. *)
Definition roleAccountPattern (email : string) : bool :=
  existsb
    (fun role => JsString.startsWith (JsString.toLowerCase email) (String.append role "@"))
    [ "abuse"; "postmaster"; "spam"; "noreply" ].

Fixpoint afterAlnumRun (s : string) (n : nat) : nat * string :=
  match s with
  | String c s' => if JsString.isAlnum c then afterAlnumRun s' (S n) else (n, s)
  | EmptyString => (n, s)
  end.

Definition longRandomPattern (email : string) : bool :=
  let '(n, rest) := afterAlnumRun email 0 in
  (20 <=? n)%nat && JsString.startsWith rest "@".

Definition trapWordPattern (email : string) : bool :=
  existsb
    (fun word => JsString.includes (JsString.toLowerCase email) word)
    [ "spam"; "trap"; "honeypot" ].

(** ** The world of an [async] run

    The trace is ghost state: the source keeps no such record.  Each
    function below that the statements count calls of adds its call to the
    trace when it is entered. *)

Inductive Event : Type :=
| EvMathRandom
| EvSetTimeout (ms : Z)
| EvCheckMXRecords (domain : string)
| EvCheckSMTP (email : string)
| EvDetectSpamTrapPattern (email : string)
| EvOnProgress (processed : Z)
| EvConsoleLog (total valid retry invalid : Z).

(** [random] is the stream [Math.random] reads, [drawn] how many values
    were read, [now] the clock in milliseconds, [trace] the calls made so
    far, oldest first. *)
Record World : Type := {
  random : nat -> Q;
  drawn : nat;
  now : Z;
  trace : list Event
}.

Definition M (A : Type) : Type := World -> Completion A * World.

Definition ret {A} (a : A) : M A := fun w => (Returned a, w).

Definition throw {A} (e : Exn) : M A := fun w => (Threw e, w).

Definition bind {A B} (m : M A) (k : A -> M B) : M B :=
  fun w =>
    match m w with
    | (Returned a, w') => k a w'
    | (Threw e, w') => (Threw e, w')
    end.

Notation "'let*' x ':=' m 'in' k" := (bind m (fun x => k))
  (at level 10, x pattern, m at level 200, k at level 200).

Definition emit (e : Event) : M unit :=
  fun w =>
    (Returned tt,
     {| random := random w; drawn := drawn w; now := now w;
        trace := (trace w ++ [e])%list |}).

(** [Math.random()] *)
Definition mathRandom : M Q :=
  fun w =>
    (Returned (random w (drawn w)),
     {| random := random w; drawn := S (drawn w); now := now w;
        trace := (trace w ++ [EvMathRandom])%list |}).

(** [await new Promise(resolve => setTimeout(resolve, ms))] *)
Definition setTimeout (ms : Z) : M unit :=
  fun w =>
    (Returned tt,
     {| random := random w; drawn := drawn w; now := now w + Z.max 0 ms;
        trace := (trace w ++ [EvSetTimeout ms])%list |}).

(** [new Date().toISOString()]: the instant, in milliseconds. *)
Definition dateNow : M Z := fun w => (Returned (now w), w).

(** [x > y] on the values of [Math.random]. *)
Definition gt (x y : Q) : bool := negb (Qle_bool x y).

(** A synchronous, pure function in the source; it is in [M] only to leave
    its call in the trace. *)
Definition detectSpamTrapPattern (email : string) : M bool :=
  let* _ := emit (EvDetectSpamTrapPattern email) in
  ret (roleAccountPattern email || longRandomPattern email || trapWordPattern email).

(** ** The simulated probes *)

Definition validDomains : gset string :=
  list_to_set
    [ "gmail.com"; "yahoo.com"; "hotmail.com"; "outlook.com";
      "aol.com"; "icloud.com"; "protonmail.com"; "zoho.com" ].

(** Nothing in the [try] block can throw on a string, so the [catch] that
    returns [false] is never entered. *)
Definition checkMXRecords (domain : string) : M bool :=
  let* _ := emit (EvCheckMXRecords domain) in
  if has validDomains (JsString.toLowerCase domain) || isEnterpriseDomain domain
  then ret true
  else let* r := mathRandom in ret (gt r (1 # 10)).

(** [const [, domain] = email.split('@')] leaves [domain] undefined when the
    address has no [@]; [domain.toLowerCase()] then throws. *)
Definition checkSMTP (email : string) : M bool :=
  let* _ := emit (EvCheckSMTP email) in
  match nth_error (JsString.split (JsString.isChar "@") email) 1 with
  | None => throw (TypeError "Cannot read properties of undefined (reading 'toLowerCase')")
  | Some domain =>
      if isEnterpriseDomain domain
      then ret true
      else let* r := mathRandom in ret (gt r (5 # 100))
  end.

(** ** The retry loop

    The two loops of [validateEmailWithRetry] (MX and SMTP) are the same
    text up to the probe they call:
<<
      while (retries < options.retryStrategy.maxAttempts) {
        try {
          ok = await probe();
          if (ok) break;
          retries++;
          if (retries < options.retryStrategy.maxAttempts) await sleep(backoffDelay);
        } catch (error) { retries++; }
      }
>>
    [retryLoop] returns the flag and the counter the loop leaves behind. *)
Equations? retryLoop (probe : M bool) (options : ValidationOptions) (retries : Z)
    (w : World) : Completion (bool * Z) * World
  by wf (Z.to_nat (maxAttempts (retryStrategy options) - retries)) lt :=
retryLoop probe options retries w
  with Z_lt_dec retries (maxAttempts (retryStrategy options)) => {
  | right _ => (Returned (false, retries), w)
  | left _ with probe w => {
    | (Returned true, w1) => (Returned (true, retries), w1)
    | (Returned false, w1)
        with Z_lt_dec (retries + 1) (maxAttempts (retryStrategy options)) => {
      | left _ =>
          retryLoop probe options (retries + 1)
            (snd (setTimeout (backoffDelay (retryStrategy options)) w1))
      | right _ => retryLoop probe options (retries + 1) w1 }
    | (Threw _, w1) => retryLoop probe options (retries + 1) w1 } }.
Proof. all: lia. Qed.

(** [chunk]: the [for] loop that pushes [array.slice(i, i + size)].  The
    loop ends because [size] is positive; [CHUNK_SIZE] is 2000. *)
Equations? chunkFrom {T} (array : list T) (size : positive) (i : Z) : list (list T)
  by wf (Z.to_nat (Z.of_nat (List.length array) - i)) lt :=
chunkFrom array size i with Z_lt_dec i (Z.of_nat (List.length array)) => {
  | left _ => JsArray.slice i (i + Z.pos size) array :: chunkFrom array size (i + Z.pos size)
  | right _ => [] }.
Proof. lia. Qed.

Definition chunk {T} (array : list T) (size : positive) : list (list T) :=
  chunkFrom array size 0.

(** ** The checks of the [validator] package

    [validator] is a dependency, not a file of the repository.  The module
    transcribes [isFQDN] and [isEmail] as in release 13 of the package, for
    the options the pipeline passes, on strings of code units below 256.
    The theorems about the pipeline hold for any pair of checks; this pair
    serves to run the pipeline on concrete addresses, none of which depends
    on a detail in which releases differ. *)

Module validator.

Import JsString.

Fixpoint every (p : ascii -> bool) (s : string) : bool :=
  match s with
  | EmptyString => true
  | String c s' => p c && every p s'
  end.

Definition isLetter (c : ascii) : bool := isLower c || isUpper c.

(** [[a-z\u00A1-\u00A8\u00AA-\uD7FF...]] with the [i] flag *)
Definition isTldChar (c : ascii) : bool :=
  isLetter c || between 161 168 c || between 170 255 c.

(** [[a-z0-9-]] with the [i] flag *)
Definition isPunycodeChar (c : ascii) : bool :=
  isLetter c || isDigit c || isChar "-" c.

(** [/^([a-z...]{2,}|xn[a-z0-9-]{2,})$/i] *)
Definition isTld (tld : string) : bool :=
  ((2 <=? String.length tld)%nat && every isTldChar tld) ||
  match tld with
  | String x (String n rest) =>
      isChar "x" (lowerChar x) && isChar "n" (lowerChar n) &&
      (2 <=? String.length rest)%nat && every isPunycodeChar rest
  | _ => false
  end.

(** [[a-z_\u00a1-\uffff0-9-]] with the [i] flag *)
Definition isLabelChar (c : ascii) : bool :=
  isLetter c || isChar "_" c || between 161 255 c || isDigit c || isChar "-" c.

Definition isLabel (part : string) : bool :=
  negb (63 <? String.length part)%nat &&
  negb (String.eqb part "") && every isLabelChar part &&
  negb (startsWith part "-") && negb (endsWith part "-") &&
  negb (includes part "_").

(** [isFQDN(str, {require_tld: true, allow_underscores: false,
    allow_trailing_dot: false})] *)
Definition isFQDN (str : string) : bool :=
  let parts := split (isChar ".") str in
  let tld := List.last parts "" in
  if (List.length parts <? 2)%nat then false
  else if negb (isTld tld) then false
  else if every isDigit tld && negb (String.eqb tld "") then false
  else forallb isLabel parts.

(** [isByteLength(str, {max})]: the length of the UTF-8 encoding *)
Fixpoint byteLength (s : string) : nat :=
  match s with
  | EmptyString => 0
  | String c s' => ((if (code c <? 128)%N then 1 else 2) + byteLength s')%nat
  end.

(** [[a-z\d!#\$%&'\*\+\-\/=\?\^_`{\|}~]] with the [i] flag *)
Definition isAtomChar (c : ascii) : bool :=
  isLetter c || isDigit c ||
  existsb (fun d => isChar d c)
    (list_ascii_of_string "!#$%&'*+-/=?^_`{|}~").

Definition emailUserPart (part : string) : bool :=
  negb (String.eqb part "") && every isAtomChar part.

(** The two alternatives of [quotedEmailUser]: a plain code unit, or a
    backslash and the code unit it escapes. *)
Definition isQuotedPlain (c : ascii) : bool :=
  isWhiteSpace c || between 1 8 c || between 11 12 c || between 14 31 c ||
  (code c =? 127)%N || (code c =? 33)%N || between 35 91 c || between 93 126 c.

Definition isQuotedEscaped (c : ascii) : bool :=
  between 1 9 c || between 11 12 c || between 13 127 c.

Fixpoint quotedEmailUser (s : string) : bool :=
  match s with
  | EmptyString => true
  | String c s' =>
      if isChar "\"%char c then
        match s' with
        | String d s'' => isQuotedEscaped d && quotedEmailUser s''
        | EmptyString => false
        end
      else isQuotedPlain c && quotedEmailUser s'
  end.

(** [user.slice(1, user.length - 1)] *)
Definition unquote (user : string) : string :=
  string_of_list_ascii
    (JsArray.slice 1 (Z.of_nat (String.length user) - 1) (list_ascii_of_string user)).

(** [isEmail(str, {allow_utf8_local_part: false, require_tld: true,
    allow_ip_domain: false})] *)
Definition isEmail (str : string) : bool :=
  if (254 <? String.length str)%nat then false
  else
    let parts := split (isChar "@") str in
    let domain := List.last parts "" in
    let user := join "@" (List.removelast parts) in
    if negb (byteLength user <=? 64)%nat || negb (byteLength domain <=? 254)%nat
    then false
    else if negb (isFQDN domain) then false
    else if startsWith user (String "034"%char "")
    then quotedEmailUser (unquote user)
    else forallb emailUserPart (split (isChar ".") user).

End validator.

(** ** The per-address pipeline and the batch orchestrator *)

Section Pipeline.

(** [validator.isEmail(email, {allow_utf8_local_part: false, require_tld:
    true, allow_ip_domain: false})] and [validator.isFQDN(domain,
    {require_tld: true, allow_underscores: false, allow_trailing_dot:
    false})], both applied to a string. *)
Variable isEmail : string -> bool.
Variable isFQDN : string -> bool.

Definition validateEmailWithRetry (email : string)
    (options : option ValidationOptions) : M EmailValidationResult :=
  let options := default DEFAULT_OPTIONS options in
  let verificationSteps : list string := [] in
  let domain := nth_error (JsString.split (JsString.isChar "@") email) 1 in
  let isValidFormat := isEmail email in
  if negb isValidFormat then
    let* timestamp := dateNow in
    ret {| email := email;
           status := DoNotContact;
           confidence := Low;
           reason := Some "Invalid email format (RFC 5322)";
           timestamp := timestamp;
           retryAfter := None;
           details :=
             {| format := false; domain := false; disposable := false;
                mxRecords := false; smtp := false; spamTrap := false;
                corporate := false; blacklisted := false; retryCount := 0;
                lastRetryTimestamp := None;
                verificationSteps := ["Format check failed"] |} |}
  else
  let verificationSteps := JsArray.push verificationSteps "Format check passed" in
  match domain with
  | None => throw (TypeError "Expected a string but received a undefined")
  | Some domain =>
  let isValidDomain := isFQDN domain in
  if negb isValidDomain then
    let* timestamp := dateNow in
    ret {| email := email;
           status := DoNotContact;
           confidence := Low;
           reason := Some "Invalid domain format";
           timestamp := timestamp;
           retryAfter := None;
           details :=
             {| format := true; domain := false; disposable := false;
                mxRecords := false; smtp := false; spamTrap := false;
                corporate := false; blacklisted := false; retryCount := 0;
                lastRetryTimestamp := None;
                verificationSteps := verificationSteps |} |}
  else
  let verificationSteps := JsArray.push verificationSteps "Domain format valid" in
  let isCorporate := isEnterpriseDomain domain in
  let verificationSteps :=
    if isCorporate then JsArray.push verificationSteps "Enterprise domain detected"
    else verificationSteps in
  let* (mxExists, mxRetries) := retryLoop (checkMXRecords domain) options 0 in
  if negb mxExists && negb isCorporate then
    let* timestamp := dateNow in
    ret {| email := email;
           status := DoNotContact;
           confidence := High;
           reason := Some "No MX records found";
           timestamp := timestamp;
           retryAfter := None;
           details :=
             {| format := true; domain := true; disposable := false;
                mxRecords := false; smtp := false; spamTrap := false;
                corporate := false; blacklisted := false;
                retryCount := mxRetries;
                lastRetryTimestamp := None;
                verificationSteps := verificationSteps |} |}
  else
  let verificationSteps := JsArray.push verificationSteps "MX records verified" in
  let* (smtpValid, smtpRetries) := retryLoop (checkSMTP email) options 0 in
  if negb smtpValid && negb isCorporate then
    if smtpRetries <? maxAttempts (retryStrategy options) then
      let* timestamp := dateNow in
      ret {| email := email;
             status := RetryLater;
             confidence := Medium;
             reason := Some "Temporary SMTP failure";
             timestamp := timestamp;
             retryAfter := Some (backoffDelay (retryStrategy options));
             details :=
               {| format := true; domain := true; disposable := false;
                  mxRecords := true; smtp := false; spamTrap := false;
                  corporate := false; blacklisted := false;
                  retryCount := smtpRetries;
                  lastRetryTimestamp := None;
                  verificationSteps := verificationSteps |} |}
    else
      let* timestamp := dateNow in
      ret {| email := email;
             status := DoNotContact;
             confidence := High;
             reason := Some "SMTP verification failed";
             timestamp := timestamp;
             retryAfter := None;
             details :=
               {| format := true; domain := true; disposable := false;
                  mxRecords := true; smtp := false; spamTrap := false;
                  corporate := false; blacklisted := false;
                  retryCount := smtpRetries;
                  lastRetryTimestamp := None;
                  verificationSteps := verificationSteps |} |}
  else
  let verificationSteps := JsArray.push verificationSteps "SMTP verification passed" in
  let* timestamp := dateNow in
  ret {| email := email;
         status := Valid;
         confidence := High;
         reason := None;
         timestamp := timestamp;
         retryAfter := None;
         details :=
           {| format := true; domain := true; disposable := false;
              mxRecords := true; smtp := true; spamTrap := false;
              corporate := isCorporate; blacklisted := false;
              retryCount := Z.max mxRetries smtpRetries;
              lastRetryTimestamp := None;
              verificationSteps := verificationSteps |} |}
  end.

Definition isStatus (s : Status) (r : EmailValidationResult) : bool :=
  match s, status r with
  | Valid, Valid | RetryLater, RetryLater | DoNotContact, DoNotContact => true
  | _, _ => false
  end.

(** The observer of a batch returns normally; it may change the world
    (the interface it repaints). [processed] is the counter the callbacks
    of [chunk.map] share (lines 313-318). *)
Section Batch.

Variable onProgress : Z -> World -> World.
Variable options : ValidationOptions.

Definition validateOne (email : string) (processed : Z)
    : M (EmailValidationResult * Z) :=
  let* result := validateEmailWithRetry email (Some options) in
  let processed := processed + 1 in
  let* _ := (fun w => (Returned tt, onProgress processed w)) in
  ret (result, processed).

Fixpoint validateChunk (chunk : list string) (processed : Z)
    : M (list EmailValidationResult * Z) :=
  match chunk with
  | [] => ret ([], processed)
  | email :: rest =>
      let* (result, processed) := validateOne email processed in
      let* (chunkResults, processed) := validateChunk rest processed in
      ret (result :: chunkResults, processed)
  end.

Fixpoint validateChunks (chunks : list (list string)) (processed : Z)
    : M (list (list EmailValidationResult) * Z) :=
  match chunks with
  | [] => ret ([], processed)
  | chunk :: rest =>
      let* (chunkResults, processed) := validateChunk chunk processed in
      let* (others, processed) := validateChunks rest processed in
      ret (chunkResults :: others, processed)
  end.

End Batch.

(** The pipelines of a batch interleave at their [await]s.  The model runs
    them one after the other on the shared world, and takes the order in
    which the chunks complete, which is the order of
    [results.push(...chunkResults)], as the list [completion] of chunk
    indices.  A rejected pipeline rejects the batch. *)
Definition validateEmailBatch (emails : list string)
    (onProgress : Z -> World -> World) (options : option ValidationOptions)
    (completion : list nat) : M (list EmailValidationResult) :=
  let options := default DEFAULT_OPTIONS options in
  let chunks := chunk emails CHUNK_SIZE in
  let* (perChunk, processed) := validateChunks onProgress options chunks 0 in
  let results := flat_map (fun i => nth i perChunk []) completion in
  if Z.of_nat (List.length results) =? 0
  then throw (Error "No results generated from validation")
  else
    let count s := Z.of_nat (List.length (List.filter (isStatus s) results)) in
    let* _ := emit (EvConsoleLog (Z.of_nat (List.length results))
                      (count Valid) (count RetryLater) (count DoNotContact)) in
    ret results.

(** ** The upload handler of [App] *)

Record AppState : Type := {
  results : list EmailValidationResult;
  processing : bool;
  error : option string
}.

Definition message (e : Exn) : string :=
  match e with Error m | TypeError m => m end.

(** The progress callback of [onDrop]: one [setProgress] per address. *)
Definition reportProgress (processed : Z) (w : World) : World :=
  snd (emit (EvOnProgress processed) w).

Definition onDrop (file : File) (completion : list nat) (state : AppState)
    : World -> AppState * World :=
  fun w =>
    if negb (validateFileSize file) then
      ({| results := results state; processing := processing state;
          error := Some "File size exceeds 10MB limit" |}, w)
    else if negb (validateFileType file) then
      ({| results := results state; processing := processing state;
          error := Some "Only CSV and TXT files are supported" |}, w)
    else
      match parseEmailFile file with
      | Threw e => ({| results := []; processing := false; error := Some (message e) |}, w)
      | Returned emails =>
          match validateEmailBatch emails reportProgress None completion w with
          | (Returned validationResults, w') =>
              ({| results := validationResults; processing := false; error := None |}, w')
          | (Threw e, w') =>
              ({| results := []; processing := false; error := Some (message e) |}, w')
          end
      end.

End Pipeline.

(** [copyValidEmails] of [App]: the text handed to
    [navigator.clipboard.writeText]. *)
Definition copyValidEmails (results : list EmailValidationResult) : string :=
  JsString.join (String "010"%char "")
    (map email (List.filter (isStatus Valid) results)).

(** [ValidationStats] of [types/email.ts], and the object [onDrop] passes to
    [setStats] once a batch has returned; [elapsed] stands for
    [Date.now() - startTime]. *)
Record ValidationStats : Type := {
  totalEmails : Z;
  validEmails : Z;
  retryEmails : Z;
  invalidEmails : Z;
  processingTime : Z;
  corporateEmailsCount : Z;
  temporaryFailuresCount : Z
}.

(** [r.reason?.includes('temporary')]: undefined, hence falsy, without a
    reason. *)
Definition mentionsTemporary (r : EmailValidationResult) : bool :=
  match reason r with
  | Some text => JsString.includes text "temporary"
  | None => false
  end.

Definition onDropStats (emails : list string)
    (validationResults : list EmailValidationResult) (elapsed : Z) : ValidationStats :=
  let count (p : EmailValidationResult -> bool) :=
    Z.of_nat (List.length (List.filter p validationResults)) in
  {| totalEmails := Z.of_nat (List.length emails);
     validEmails := count (isStatus Valid);
     retryEmails := count (isStatus RetryLater);
     invalidEmails := count (isStatus DoNotContact);
     processingTime := elapsed;
     corporateEmailsCount := count (fun r => corporate (details r));
     temporaryFailuresCount := count mentionsTemporary |}.

(** * Vocabulary of the statements *)

Definition limit (options : ValidationOptions) : Z := maxAttempts (retryStrategy options).
Definition delay (options : ValidationOptions) : Z := backoffDelay (retryStrategy options).

(** The second piece of [email.split('@')], the [domain] of the pipeline. *)
Definition domainOf (email : string) : option string :=
  nth_error (JsString.split (JsString.isChar "@") email) 1.

(** The world after one more call is recorded. *)
Definition logged (e : Event) (w : World) : World := snd (emit e w).

Definition isProbeCall (e : Event) : bool :=
  match e with
  | EvCheckMXRecords _ | EvCheckSMTP _ => true
  | _ => false
  end.

Definition isSleep (e : Event) : bool :=
  match e with
  | EvSetTimeout _ => true
  | _ => false
  end.

Definition isDetectorCall (e : Event) : bool :=
  match e with
  | EvDetectSpamTrapPattern _ => true
  | _ => false
  end.

Definition count (p : Event -> bool) (w : World) : nat :=
  List.length (List.filter p (trace w)).

(** How many times a probe was entered, and how many backoff sleeps were
    taken, in the run that led to [w]. *)
Definition probeCalls : World -> nat := count isProbeCall.
Definition sleeps : World -> nat := count isSleep.
Definition detectorCalls : World -> nat := count isDetectorCall.

(** The probe of either stage. *)
Inductive Stage : Type :=
| MX (domain : string)
| SMTP (email : string).

Definition stageProbe (stage : Stage) : M bool :=
  match stage with
  | MX domain => checkMXRecords domain
  | SMTP email => checkSMTP email
  end.

(** The world in which attempt number [i] (from 0) starts when every
    earlier attempt failed and was followed by the backoff sleep. *)
Definition afterFailedAttempt (probe : M bool) (options : ValidationOptions)
    (w : World) : World :=
  snd (setTimeout (delay options) (snd (probe w))).

Definition attemptWorld (probe : M bool) (options : ValidationOptions)
    (i : nat) (w : World) : World :=
  Nat.iter i (afterFailedAttempt probe options) w.

(** The token list of the parser, in the words of the specification: split
    on newline or comma, trim, discard the empty tokens and those without
    [@], strip the quote characters. *)
Definition candidateTokens (text : string) : list string :=
  map (JsString.remove isQuote)
    (List.filter (fun token => negb (String.eqb token "") && JsString.includes token "@")
       (map JsString.trim (JsString.split isNewlineOrComma text))).

(** Worlds to run the pipeline in: a stream that always yields [q], and a
    stream that yields [q] for the first [n] draws and [q'] afterwards. *)
Definition steadyWorld (q : Q) : World :=
  {| random := fun _ => q; drawn := 0; now := 0; trace := [] |}.

Definition switchingWorld (n : nat) (q q' : Q) : World :=
  {| random := fun i => if (i <? n)%nat then q else q'; drawn := 0; now := 0;
     trace := [] |}.

Definition csvFile (text : string) : File :=
  {| size := Z.of_nat (String.length text); type := "text/csv"; text := text |}.

Definition idle : AppState := {| results := []; processing := false; error := None |}.

(** Two probes that fail on a draw of at most one half: the first by
    returning false, the second by throwing. *)
Definition unluckyProbe : M bool :=
  let* r := mathRandom in ret (gt r (1 # 2)).

Definition faultyProbe : M bool :=
  let* r := mathRandom in
  if gt r (1 # 2) then ret true else throw (Error "network fault").

(** 2001 addresses: one full chunk and a second chunk of one address. *)
Definition twoChunks : list string :=
  (repeat "first@gmail.com" 2000 ++ [ "last@gmail.com" ])%list.

(** Options that differ from the defaults in every field the pipeline does
    not read. *)
Definition otherOptions : ValidationOptions :=
  {| enableRetries := false;
     retryStrategy := {| maxAttempts := 3; backoffDelay := 2000; timeout := 1 |};
     validateSMTP := false;
     strictMode := true |}.

(** The three reputation flags of a result are all false. *)
Definition unflagged (r : EmailValidationResult) : Prop :=
  spamTrap (details r) = false /\
  disposable (details r) = false /\
  blacklisted (details r) = false.

(** [r] is what the pipeline returns for [address] from some world. *)
Definition producedFor (isEmail isFQDN : string -> bool) (options : ValidationOptions)
    (address : string) (r : EmailValidationResult) : Prop :=
  exists w w',
    validateEmailWithRetry isEmail isFQDN address (Some options) w = (Returned r, w').

(** The values the progress observer of [App] was called with, in order. *)
Definition progressReports (w : World) : list Z :=
  flat_map (fun e => match e with EvOnProgress n => [n] | _ => [] end) (trace w).

(** How many times [checkSMTP] was entered. *)
Definition smtpCalls : World -> nat :=
  count (fun e => match e with EvCheckSMTP _ => true | _ => false end).

(** How many of the four checks a result records as passed, plus one for
    the enterprise note. *)
Definition passedChecks (d : Details) : nat :=
  (Nat.b2n (format d) + Nat.b2n (domain d) + Nat.b2n (mxRecords d) + Nat.b2n (smtp d) +
   Nat.b2n (corporate d))%nat.

(** An address with a quoted local part that holds an [@]: the format check
    accepts it, and the second piece of the split is not a domain. *)
Definition quotedAddress : string :=
  String "034"%char (String.append "a@b" (String "034"%char "@example.com")).

(** [p + 1; p + 2; ...; p + n], and [1; 2; ...; n]. *)
Fixpoint countFrom (p : Z) (n : nat) : list Z :=
  match n with
  | O => []
  | S n' => (p + 1) :: countFrom (p + 1) n'
  end.

Definition upTo (n : nat) : list Z := countFrom 0 n.

(** Every chunk but the last holds exactly [n] elements, and the last holds
    between 1 and [n]. *)
Fixpoint fullButLast {T} (n : Z) (chunks : list (list T)) : Prop :=
  match chunks with
  | [] => True
  | [c] => 1 <= Z.of_nat (List.length c) <= n
  | c :: rest => Z.of_nat (List.length c) = n /\ fullButLast n rest
  end.

(** Every code unit of [s] satisfies [p]. *)
Fixpoint allChars (p : ascii -> bool) (s : string) : bool :=
  match s with
  | EmptyString => true
  | String c s' => p c && allChars p s'
  end.

(** An address as the parser would hand it on unchanged: it holds an [@],
    no separator and no quote character, and no white space at its ends. *)
Definition clean (address : string) : Prop :=
  JsString.includes address "@" = true /\
  allChars (fun c => negb (isNewlineOrComma c)) address = true /\
  allChars (fun c => negb (isQuote c)) address = true /\
  JsString.trim address = address.

(** The results of a batch of three, the second of which is no address. *)
Definition checkedSample : list EmailValidationResult :=
  match fst (validateEmailBatch validator.isEmail validator.isFQDN
               [ "a@gmail.com"; "no-at-sign"; "b@gmail.com" ]
               reportProgress None [0%nat] (steadyWorld 1)) with
  | Returned results => results
  | Threw _ => []
  end.

(** * Verification *)

(** ** The retry loop *)

(** One unfolding of the loop, by cases on the attempt. *)
Lemma retryLoop_exit probe options retries w :
  limit options <= retries ->
  retryLoop probe options retries w = (Returned (false, retries), w).
Proof.
  unfold limit. intros Hle. simp retryLoop.
  destruct (Z_lt_dec retries (maxAttempts (retryStrategy options))) as [Hlt | Hge]; [lia | reflexivity].
Qed.

Lemma retryLoop_success probe options retries w w1 :
  retries < limit options ->
  probe w = (Returned true, w1) ->
  retryLoop probe options retries w = (Returned (true, retries), w1).
Proof.
  unfold limit. intros Hlt Hp. simp retryLoop.
  destruct (Z_lt_dec retries (maxAttempts (retryStrategy options))) as [Hlt' | Hge]; [| lia].
  cbn. rewrite Hp. reflexivity.
Qed.

Lemma retryLoop_false_backoff probe options retries w w1 :
  retries + 1 < limit options ->
  probe w = (Returned false, w1) ->
  retryLoop probe options retries w =
  retryLoop probe options (retries + 1) (snd (setTimeout (delay options) w1)).
Proof.
  unfold limit, delay. intros Hlt Hp.
  rewrite retryLoop_equation_1.
  destruct (Z_lt_dec retries (maxAttempts (retryStrategy options))) as [Hlt' | Hge]; [| lia].
  cbn. rewrite Hp. cbn.
  destruct (Z_lt_dec (retries + 1) (maxAttempts (retryStrategy options))) as [Hlt2 | Hge]; [| lia].
  reflexivity.
Qed.

Lemma retryLoop_false_last probe options retries w w1 :
  retries < limit options -> limit options <= retries + 1 ->
  probe w = (Returned false, w1) ->
  retryLoop probe options retries w = (Returned (false, retries + 1), w1).
Proof.
  intros Hlt Hge Hp.
  rewrite <- (retryLoop_exit probe options (retries + 1) w1 Hge).
  unfold limit in *.
  rewrite (retryLoop_equation_1 probe options retries).
  destruct (Z_lt_dec retries (maxAttempts (retryStrategy options))) as [Hlt' | Hge']; [| lia].
  cbn. rewrite Hp. cbn.
  destruct (Z_lt_dec (retries + 1) (maxAttempts (retryStrategy options))) as [Hlt2 | Hge2]; [lia |].
  reflexivity.
Qed.

Lemma retryLoop_threw probe options retries w w1 e :
  retries < limit options ->
  probe w = (Threw e, w1) ->
  retryLoop probe options retries w = retryLoop probe options (retries + 1) w1.
Proof.
  unfold limit. intros Hlt Hp.
  rewrite (retryLoop_equation_1 probe options retries).
  destruct (Z_lt_dec retries (maxAttempts (retryStrategy options))) as [Hlt' | Hge']; [| lia].
  cbn. rewrite Hp. reflexivity.
Qed.

(** Induction along the iterations of the loop: one case per way an
    iteration can go. *)
Lemma retryLoop_induction (probe : M bool) (options : ValidationOptions)
    (P : Z -> World -> Completion (bool * Z) * World -> Prop) :
  (forall r w, limit options <= r -> P r w (Returned (false, r), w)) ->
  (forall r w w1, r < limit options -> probe w = (Returned true, w1) ->
     P r w (Returned (true, r), w1)) ->
  (forall r w w1, r + 1 < limit options -> probe w = (Returned false, w1) ->
     let w2 := snd (setTimeout (delay options) w1) in
     P (r + 1) w2 (retryLoop probe options (r + 1) w2) ->
     P r w (retryLoop probe options (r + 1) w2)) ->
  (forall r w w1, r < limit options -> limit options <= r + 1 ->
     probe w = (Returned false, w1) -> P r w (Returned (false, r + 1), w1)) ->
  (forall r w w1 e, r < limit options -> probe w = (Threw e, w1) ->
     P (r + 1) w1 (retryLoop probe options (r + 1) w1) ->
     P r w (retryLoop probe options (r + 1) w1)) ->
  forall r w, P r w (retryLoop probe options r w).
Proof.
  intros Hexit Hsucc Hback Hlast Hthrow r.
  remember (Z.to_nat (limit options - r)) as n eqn:Hn.
  revert r Hn.
  induction n as [n IH] using lt_wf_ind. intros r Hn w.
  assert (Hnext : forall w1, r < limit options ->
            P (r + 1) w1 (retryLoop probe options (r + 1) w1)).
  { intros w1 Hlt.
    assert (Hm : (Z.to_nat (limit options - (r + 1)) < n)%nat) by lia.
    exact (IH _ Hm (r + 1) eq_refl w1). }
  destruct (Z_lt_dec r (limit options)) as [Hlt | Hge].
  - destruct (probe w) as [[[|] | e] w1] eqn:Hp.
    + rewrite (retryLoop_success _ _ _ _ _ Hlt Hp). apply Hsucc; assumption.
    + destruct (Z_lt_dec (r + 1) (limit options)) as [Hlt2 | Hge2].
      * rewrite (retryLoop_false_backoff _ _ _ _ _ Hlt2 Hp).
        apply Hback; [assumption | assumption | apply Hnext, Hlt].
      * assert (Hge3 : limit options <= r + 1) by lia.
        rewrite (retryLoop_false_last _ _ _ _ _ Hlt Hge3 Hp).
        apply Hlast; assumption.
    + rewrite (retryLoop_threw _ _ _ _ _ _ Hlt Hp).
      apply (Hthrow r w w1 e); [assumption | assumption | apply Hnext, Hlt].
  - assert (Hge' : limit options <= r) by lia.
    rewrite (retryLoop_exit _ _ _ _ Hge'). apply Hexit, Hge'.
Qed.

(** The loop always ends in a return, never in a throw; when the flag is
    false the counter has reached the limit, and when it is true the counter
    is still below it. *)
Lemma retryLoop_outcome probe options retries w :
  exists ok r' w',
    retryLoop probe options retries w = (Returned (ok, r'), w') /\
    (ok = false -> r' = Z.max retries (limit options)) /\
    (ok = true -> retries <= r' < limit options).
Proof.
  pattern retries, w, (retryLoop probe options retries w).
  apply retryLoop_induction; clear retries w.
  - intros r w Hge. exists false, r, w.
    split; [reflexivity |]. split; [lia | discriminate].
  - intros r w w1 Hlt Hp. exists true, r, w1.
    split; [reflexivity |]. split; [discriminate | lia].
  - intros r w w1 Hlt Hp w2 (ok & r' & w' & Heq & Hf & Ht).
    exists ok, r', w'. split; [exact Heq |].
    split; intros Hok; [apply Hf in Hok | apply Ht in Hok]; lia.
  - intros r w w1 Hlt Hge Hp. exists false, (r + 1), w1.
    split; [reflexivity |]. split; [lia | discriminate].
  - intros r w w1 e Hlt Hp (ok & r' & w' & Heq & Hf & Ht).
    exists ok, r', w'. split; [exact Heq |].
    split; intros Hok; [apply Hf in Hok | apply Ht in Hok]; lia.
Qed.

(** A relation between worlds that every step of the loop respects holds
    between the world the loop starts in and the one it ends in. *)
Lemma retryLoop_preserves (R : World -> World -> Prop) probe options :
  (forall w, R w w) ->
  (forall a b c, R a b -> R b c -> R a c) ->
  (forall w, R w (snd (probe w))) ->
  (forall w, R w (snd (setTimeout (delay options) w))) ->
  forall retries w, R w (snd (retryLoop probe options retries w)).
Proof.
  intros Hrefl Htrans Hprobe Hsleep retries w.
  pattern retries, w, (retryLoop probe options retries w).
  apply retryLoop_induction; clear retries w; cbn.
  - intros r w _. apply Hrefl.
  - intros r w w1 _ Hp. specialize (Hprobe w). rewrite Hp in Hprobe. exact Hprobe.
  - intros r w w1 _ Hp IH.
    specialize (Hprobe w). rewrite Hp in Hprobe. cbn in Hprobe.
    eapply Htrans; [exact Hprobe |]. eapply Htrans; [apply (Hsleep w1) | exact IH].
  - intros r w w1 _ _ Hp. specialize (Hprobe w). rewrite Hp in Hprobe. exact Hprobe.
  - intros r w w1 e _ Hp IH.
    specialize (Hprobe w). rewrite Hp in Hprobe. cbn in Hprobe.
    eapply Htrans; [exact Hprobe | exact IH].
Qed.

(** ** The probes *)

Lemma count_logged p e w :
  count p (logged e w) = (count p w + (if p e then 1 else 0))%nat.
Proof.
  unfold count, logged. cbn. rewrite List.filter_app, List.length_app. cbn.
  destruct (p e); reflexivity.
Qed.

Lemma count_setTimeout p ms w :
  count p (snd (setTimeout ms w)) =
  (count p w + (if p (EvSetTimeout ms) then 1 else 0))%nat.
Proof.
  unfold count. cbn. rewrite List.filter_app, List.length_app. cbn.
  destruct (p (EvSetTimeout ms)); reflexivity.
Qed.

Lemma count_mathRandom p w :
  count p (snd (mathRandom w)) =
  (count p w + (if p EvMathRandom then 1 else 0))%nat.
Proof.
  unfold count. cbn. rewrite List.filter_app, List.length_app. cbn.
  destruct (p EvMathRandom); reflexivity.
Qed.

(** What a call of [checkMXRecords] does, by cases on the domain. *)
Lemma checkMXRecords_known domain w :
  has validDomains (JsString.toLowerCase domain) || isEnterpriseDomain domain = true ->
  checkMXRecords domain w = (Returned true, logged (EvCheckMXRecords domain) w).
Proof.
  intros Hk. cbv [checkMXRecords bind emit logged ret snd].
  rewrite Hk. reflexivity.
Qed.

Lemma checkMXRecords_unknown domain w :
  has validDomains (JsString.toLowerCase domain) || isEnterpriseDomain domain = false ->
  checkMXRecords domain w =
  (Returned (gt (random w (drawn w)) (1 # 10)),
   snd (mathRandom (logged (EvCheckMXRecords domain) w))).
Proof.
  intros Hk. cbv [checkMXRecords bind emit logged ret snd].
  rewrite Hk. reflexivity.
Qed.

Lemma checkSMTP_undefined email w :
  domainOf email = None ->
  exists e, checkSMTP email w = (Threw e, logged (EvCheckSMTP email) w).
Proof.
  unfold domainOf. intros Hd. eexists.
  cbv [checkSMTP bind emit logged throw snd]. rewrite Hd. reflexivity.
Qed.

Lemma checkSMTP_corporate email domain w :
  domainOf email = Some domain ->
  isEnterpriseDomain domain = true ->
  checkSMTP email w = (Returned true, logged (EvCheckSMTP email) w).
Proof.
  unfold domainOf. intros Hd Hc.
  cbv [checkSMTP bind emit logged ret snd]. rewrite Hd, Hc. reflexivity.
Qed.

Lemma checkSMTP_ordinary email domain w :
  domainOf email = Some domain ->
  isEnterpriseDomain domain = false ->
  checkSMTP email w =
  (Returned (gt (random w (drawn w)) (5 # 100)),
   snd (mathRandom (logged (EvCheckSMTP email) w))).
Proof.
  unfold domainOf. intros Hd Hc.
  cbv [checkSMTP bind emit logged ret snd]. rewrite Hd, Hc. reflexivity.
Qed.

(** A call of a stage's probe adds itself to the trace, and at most one
    draw; it neither sleeps nor moves the clock. *)
Lemma stageProbe_count p stage w :
  p EvMathRandom = false ->
  count p (snd (stageProbe stage w)) =
  (count p w +
   (if p match stage with
         | MX domain => EvCheckMXRecords domain
         | SMTP email => EvCheckSMTP email
         end then 1 else 0))%nat.
Proof.
  intros Hr. destruct stage as [domain | email]; cbn [stageProbe].
  - destruct (has validDomains (JsString.toLowerCase domain) || isEnterpriseDomain domain) eqn:Hk.
    + rewrite (checkMXRecords_known _ _ Hk). cbn [snd]. apply count_logged.
    + rewrite (checkMXRecords_unknown _ _ Hk). cbn [snd].
      rewrite count_mathRandom, count_logged, Hr. lia.
  - destruct (domainOf email) as [domain |] eqn:Hd.
    + destruct (isEnterpriseDomain domain) eqn:Hc.
      * rewrite (checkSMTP_corporate _ _ _ Hd Hc). cbn [snd]. apply count_logged.
      * rewrite (checkSMTP_ordinary _ _ _ Hd Hc). cbn [snd].
        rewrite count_mathRandom, count_logged, Hr. lia.
    + destruct (checkSMTP_undefined email w Hd) as [e He]. rewrite He. cbn [snd].
      apply count_logged.
Qed.

Lemma stageProbe_now stage w : now (snd (stageProbe stage w)) = now w.
Proof.
  destruct stage as [domain | email]; cbn [stageProbe].
  - destruct (has validDomains (JsString.toLowerCase domain) || isEnterpriseDomain domain) eqn:Hk.
    + rewrite (checkMXRecords_known _ _ Hk). reflexivity.
    + rewrite (checkMXRecords_unknown _ _ Hk). reflexivity.
  - destruct (domainOf email) as [domain |] eqn:Hd.
    + destruct (isEnterpriseDomain domain) eqn:Hc.
      * rewrite (checkSMTP_corporate _ _ _ Hd Hc). reflexivity.
      * rewrite (checkSMTP_ordinary _ _ _ Hd Hc). reflexivity.
    + destruct (checkSMTP_undefined email w Hd) as [e He]. rewrite He. reflexivity.
Qed.

(** ** Retry controller: failures followed by a success *)

Lemma attemptWorld_shift probe options i w :
  attemptWorld probe options i (afterFailedAttempt probe options w) =
  attemptWorld probe options (S i) w.
Proof. unfold attemptWorld. symmetry. apply Nat.iter_succ_r. Qed.

(** When the first [k] attempts return false and the next returns true, the
    loop stops there: the counter has advanced by [k], and the world is the
    one the successful call leaves. *)
Lemma retryLoop_fails_then_succeeds probe options (k : nat) :
  forall retries w,
    retries + Z.of_nat k < limit options ->
    (forall i, (i < k)%nat ->
       fst (probe (attemptWorld probe options i w)) = Returned false) ->
    fst (probe (attemptWorld probe options k w)) = Returned true ->
    retryLoop probe options retries w =
    (Returned (true, retries + Z.of_nat k),
     snd (probe (attemptWorld probe options k w))).
Proof.
  induction k as [| k IH]; intros retries w Hlt Hfail Hsucc.
  - cbn in Hsucc. destruct (probe w) as [c w1] eqn:Hp. cbn in Hsucc. subst c.
    rewrite (retryLoop_success probe options retries w w1); [| lia | exact Hp].
    cbn. rewrite Hp, Z.add_0_r. reflexivity.
  - assert (H0 : fst (probe w) = Returned false) by (apply (Hfail 0%nat); lia).
    destruct (probe w) as [c w1] eqn:Hp. cbn in H0. subst c.
    rewrite (retryLoop_false_backoff probe options retries w w1); [| lia | exact Hp].
    replace (snd (setTimeout (delay options) w1))
      with (afterFailedAttempt probe options w)
      by (unfold afterFailedAttempt; rewrite Hp; reflexivity).
    rewrite (IH (retries + 1) (afterFailedAttempt probe options w)).
    + rewrite attemptWorld_shift. f_equal. f_equal. f_equal. lia.
    + lia.
    + intros i Hi. rewrite attemptWorld_shift. apply Hfail. lia.
    + rewrite attemptWorld_shift. exact Hsucc.
Qed.

Lemma attemptWorld_counts stage options i w :
  let w' := attemptWorld (stageProbe stage) options i w in
  probeCalls w' = (probeCalls w + i)%nat /\
  sleeps w' = (sleeps w + i)%nat /\
  now w' = now w + Z.of_nat i * Z.max 0 (delay options).
Proof.
  induction i as [| i IH]; cbn zeta.
  - cbn. repeat split; lia.
  - destruct IH as (Hc & Hs & Hn).
    change (attemptWorld (stageProbe stage) options (S i) w)
      with (afterFailedAttempt (stageProbe stage) options
              (attemptWorld (stageProbe stage) options i w)).
    set (wi := attemptWorld (stageProbe stage) options i w) in *.
    unfold afterFailedAttempt, probeCalls, sleeps in *.
    rewrite !count_setTimeout, !stageProbe_count by reflexivity.
    repeat split.
    + destruct stage; cbn [isProbeCall isSleep]; lia.
    + destruct stage; cbn [isProbeCall isSleep]; lia.
    + cbn [setTimeout snd now]. rewrite stageProbe_now. lia.
Qed.

(** C4. In the retry loop of either probe stage, a probe that returns false
    exactly [k] times, with [k] below [maxAttempts], and then returns true is
    invoked [k + 1] times in total, and the backoff sleep is taken [k]
    times (the clock moves by [k] delays); the loop leaves the flag true and
    the counter at [k]. *)
Theorem retry_invokes_probe_k_plus_1_times (stage : Stage)
    (options : ValidationOptions) (k : nat) (w : World) :
  Z.of_nat k < maxAttempts (retryStrategy options) ->
  (forall i, (i < k)%nat ->
     fst (stageProbe stage (attemptWorld (stageProbe stage) options i w)) = Returned false) ->
  fst (stageProbe stage (attemptWorld (stageProbe stage) options k w)) = Returned true ->
  exists w',
    retryLoop (stageProbe stage) options 0 w = (Returned (true, Z.of_nat k), w') /\
    probeCalls w' = (probeCalls w + (k + 1))%nat /\
    sleeps w' = (sleeps w + k)%nat /\
    now w' = now w + Z.of_nat k * Z.max 0 (backoffDelay (retryStrategy options)).
Proof.
  intros Hk Hfail Hsucc.
  exists (snd (stageProbe stage (attemptWorld (stageProbe stage) options k w))).
  split.
  - rewrite (retryLoop_fails_then_succeeds (stageProbe stage) options k 0 w);
      [reflexivity | exact Hk | exact Hfail | exact Hsucc].
  - destruct (attemptWorld_counts stage options k w) as (Hc & Hs & Hn).
    unfold probeCalls, sleeps in *.
    rewrite !stageProbe_count by reflexivity. rewrite stageProbe_now.
    repeat split.
    + destruct stage; cbn [isProbeCall isSleep]; lia.
    + destruct stage; cbn [isProbeCall isSleep]; lia.
    + exact Hn.
Qed.

Lemma retry_invokes_probe_k_plus_1_times_witness :
  exists w',
    retryLoop (stageProbe (MX "example.org")) DEFAULT_OPTIONS 0 (switchingWorld 2 0 1) =
    (Returned (true, 2), w') /\
    probeCalls w' = 3%nat /\ sleeps w' = 2%nat /\ now w' = 4000.
Proof.
  apply (retry_invokes_probe_k_plus_1_times
           (MX "example.org") DEFAULT_OPTIONS 2 (switchingWorld 2 0 1)).
  - reflexivity.
  - intros [| [| i]] Hi; [vm_compute; reflexivity | vm_compute; reflexivity | lia].
  - vm_compute. reflexivity.
Defined.

(** ** The per-address pipeline *)

Section PipelineFacts.

Variable isEmail : string -> bool.
Variable isFQDN : string -> bool.

Local Abbreviation validate := (validateEmailWithRetry isEmail isFQDN).

(** C3, as amended. An address that fails the format check gets the
    terminal verdict Do Not Contact with confidence Low and the reason
    "Invalid email format (RFC 5322)"; the world is left as it was, so no
    probe was invoked, and [verificationSteps] holds exactly one entry. *)
Theorem format_failure_is_terminal (email : string)
    (options : option ValidationOptions) (w : World) :
  isEmail email = false ->
  exists r,
    validate email options w = (Returned r, w) /\
    status r = DoNotContact /\
    confidence r = Low /\
    reason r = Some "Invalid email format (RFC 5322)" /\
    List.length (verificationSteps (details r)) = 1%nat /\
    r = {| email := email;
           status := DoNotContact;
           confidence := Low;
           reason := Some "Invalid email format (RFC 5322)";
           timestamp := now w;
           retryAfter := None;
           details :=
             {| format := false; domain := false; disposable := false;
                mxRecords := false; smtp := false; spamTrap := false;
                corporate := false; blacklisted := false; retryCount := 0;
                lastRetryTimestamp := None;
                verificationSteps := ["Format check failed"] |} |}.
Proof.
  intros Hfmt. eexists. split.
  - cbv [validateEmailWithRetry bind ret dateNow]. rewrite Hfmt. reflexivity.
  - repeat split; reflexivity.
Qed.

(** The loops of a corporate domain: the probe answers true at once, without
    a draw; with no attempt allowed the loop does not run at all. *)
Lemma mxLoop_corporate domain options w :
  isEnterpriseDomain domain = true ->
  retryLoop (checkMXRecords domain) options 0 w =
  if 0 <? limit options
  then (Returned (true, 0), logged (EvCheckMXRecords domain) w)
  else (Returned (false, 0), w).
Proof.
  intros Hc. destruct (Z.ltb_spec 0 (limit options)) as [Hlt | Hge].
  - apply retryLoop_success; [exact Hlt |].
    apply checkMXRecords_known. rewrite Hc. apply orb_true_r.
  - apply retryLoop_exit. exact Hge.
Qed.

Lemma smtpLoop_corporate email domain options w :
  domainOf email = Some domain ->
  isEnterpriseDomain domain = true ->
  retryLoop (checkSMTP email) options 0 w =
  if 0 <? limit options
  then (Returned (true, 0), logged (EvCheckSMTP email) w)
  else (Returned (false, 0), w).
Proof.
  intros Hd Hc. destruct (Z.ltb_spec 0 (limit options)) as [Hlt | Hge].
  - apply retryLoop_success; [exact Hlt |].
    apply (checkSMTP_corporate _ _ _ Hd Hc).
  - apply retryLoop_exit. exact Hge.
Qed.

(** C2, as amended. An address that passes the format and the domain check
    and whose domain is corporate is Valid with confidence High and
    [details.corporate] true, whatever the stream of the simulated network
    holds: each probe is entered at most once (not at all when
    [maxAttempts] is below 1) and answers through the enterprise override,
    so that no random outcome is drawn, no backoff sleep is taken and the
    clock does not move. *)
Theorem corporate_address_is_valid (email d : string)
    (options : option ValidationOptions) (w : World) :
  isEmail email = true ->
  domainOf email = Some d ->
  isFQDN d = true ->
  isEnterpriseDomain d = true ->
  let w' :=
    if 0 <? maxAttempts (retryStrategy (default DEFAULT_OPTIONS options))
    then logged (EvCheckSMTP email) (logged (EvCheckMXRecords d) w)
    else w in
  validate email options w =
  (Returned
     {| email := email;
        status := Valid;
        confidence := High;
        reason := None;
        timestamp := now w;
        retryAfter := None;
        details :=
          {| format := true; domain := true; disposable := false;
             mxRecords := true; smtp := true; spamTrap := false;
             corporate := true; blacklisted := false; retryCount := 0;
             lastRetryTimestamp := None;
             verificationSteps :=
               [ "Format check passed"; "Domain format valid";
                 "Enterprise domain detected"; "MX records verified";
                 "SMTP verification passed" ] |} |},
   w') /\
  drawn w' = drawn w /\ sleeps w' = sleeps w /\ now w' = now w /\
  (probeCalls w' <= probeCalls w + 2)%nat.
Proof.
  intros Hfmt Hd Hfq Hc w'. split.
  - cbv [validateEmailWithRetry bind ret dateNow throw].
    change (nth_error (JsString.split (JsString.isChar "@") email) 1)
      with (domainOf email).
    rewrite Hfmt, Hd, Hfq, Hc. cbn [negb].
    rewrite (mxLoop_corporate d _ w Hc). subst w'. unfold limit.
    destruct (0 <? maxAttempts (retryStrategy (default DEFAULT_OPTIONS options))) eqn:Hlim.
    + cbn [negb andb].
      rewrite (smtpLoop_corporate email d _ _ Hd Hc). unfold limit. rewrite Hlim.
      reflexivity.
    + rewrite andb_false_r.
      rewrite (smtpLoop_corporate email d _ _ Hd Hc). unfold limit. rewrite Hlim.
      rewrite andb_false_r. reflexivity.
  - subst w'.
    destruct (0 <? maxAttempts (retryStrategy (default DEFAULT_OPTIONS options))).
    + unfold sleeps, probeCalls. rewrite !count_logged. cbn. repeat split; lia.
    + repeat split; lia.
Qed.

(** C1. A non-corporate address that reaches the transport stage (it passed
    both checks and its MX loop ended with the flag true) and whose SMTP
    loop ends without a successful probe leaves that loop with the counter
    not below [maxAttempts]; the comparison that guards the Retry Later
    branch is false, and the result is the terminal verdict Do Not Contact
    with the reason "SMTP verification failed". *)
Theorem smtp_failure_is_terminal (email d : string)
    (options : option ValidationOptions) (w w1 w2 : World)
    (mxRetries smtpRetries : Z) :
  isEmail email = true ->
  domainOf email = Some d ->
  isFQDN d = true ->
  isEnterpriseDomain d = false ->
  retryLoop (checkMXRecords d) (default DEFAULT_OPTIONS options) 0 w =
    (Returned (true, mxRetries), w1) ->
  retryLoop (checkSMTP email) (default DEFAULT_OPTIONS options) 0 w1 =
    (Returned (false, smtpRetries), w2) ->
  maxAttempts (retryStrategy (default DEFAULT_OPTIONS options)) <= smtpRetries /\
  (smtpRetries <? maxAttempts (retryStrategy (default DEFAULT_OPTIONS options))) = false /\
  validate email options w =
  (Returned
     {| email := email;
        status := DoNotContact;
        confidence := High;
        reason := Some "SMTP verification failed";
        timestamp := now w2;
        retryAfter := None;
        details :=
          {| format := true; domain := true; disposable := false;
             mxRecords := true; smtp := false; spamTrap := false;
             corporate := false; blacklisted := false;
             retryCount := smtpRetries;
             lastRetryTimestamp := None;
             verificationSteps :=
               [ "Format check passed"; "Domain format valid";
                 "MX records verified" ] |} |},
   w2).
Proof.
  intros Hfmt Hd Hfq Hc Hmx Hsmtp.
  assert (Hge : maxAttempts (retryStrategy (default DEFAULT_OPTIONS options)) <= smtpRetries).
  { destruct (retryLoop_outcome (checkSMTP email) (default DEFAULT_OPTIONS options) 0 w1)
      as (ok & r' & w' & Heq & Hf & _).
    rewrite Hsmtp in Heq. injection Heq as <- <- <-.
    specialize (Hf eq_refl). unfold limit in Hf. lia. }
  assert (Hcmp : (smtpRetries <? maxAttempts (retryStrategy (default DEFAULT_OPTIONS options))) = false)
    by (apply Z.ltb_ge; exact Hge).
  split; [exact Hge |]. split; [exact Hcmp |].
  cbv [validateEmailWithRetry bind ret dateNow throw].
  change (nth_error (JsString.split (JsString.isChar "@") email) 1)
    with (domainOf email).
  rewrite Hfmt, Hd, Hfq, Hc. cbn [negb].
  rewrite Hmx. cbn [negb andb]. rewrite Hsmtp. cbn [negb andb].
  rewrite Hcmp. reflexivity.
Qed.

(** Case analysis along the pipeline: the checks, then the two loops with
    the outcome [retryLoop_outcome] gives them. *)
Ltac run_pipeline email options w :=
  cbv [validateEmailWithRetry bind ret dateNow throw];
  change (nth_error (JsString.split (JsString.isChar "@") email) 1)
    with (domainOf email);
  let d := fresh "d" in
  let mx := fresh "mxExists" in let mxr := fresh "mxRetries" in
  let sm := fresh "smtpValid" in let smr := fresh "smtpRetries" in
  let w1 := fresh "w1" in let w2 := fresh "w2" in
  destruct (isEmail email) eqn:Hfmt; cbn [negb];
  [ destruct (domainOf email) as [d |] eqn:Hd;
    [ destruct (isFQDN d) eqn:Hfq; cbn [negb];
      [ destruct (retryLoop_outcome (checkMXRecords d) (default DEFAULT_OPTIONS options) 0 w)
          as (mx & mxr & w1 & Hmx & Hmxf & Hmxt);
        rewrite Hmx;
        destruct (negb mx && negb (isEnterpriseDomain d)) eqn:Hmxfail;
        [ | destruct (retryLoop_outcome (checkSMTP email) (default DEFAULT_OPTIONS options) 0 w1)
              as (sm & smr & w2 & Hsm & Hsmf & Hsmt);
            rewrite Hsm;
            destruct (negb sm && negb (isEnterpriseDomain d)) eqn:Hsmtpfail;
            [ destruct (smr <? maxAttempts (retryStrategy (default DEFAULT_OPTIONS options)))
                eqn:Hcmp
            | ] ]
      | ]
    | ]
  | ].

(** The Retry Later verdict is never produced. *)
Lemma never_retry_later email options w r w' :
  validate email options w = (Returned r, w') -> status r <> RetryLater.
Proof.
  run_pipeline email options w; intros Hrun; inversion Hrun; subst; cbn; try discriminate.
  exfalso. apply andb_prop in Hsmtpfail as [Hsv _].
  apply negb_true_iff in Hsv. specialize (Hsmf Hsv).
  apply Z.ltb_lt in Hcmp. unfold limit in Hsmf. lia.
Qed.

(** Every result carries the address it was computed for. *)
Lemma validate_email_field address options w r w' :
  validate address options w = (Returned r, w') -> email r = address.
Proof.
  run_pipeline address options w; intros Hrun; inversion Hrun; subst; reflexivity.
Qed.

(** The pipeline rejects only when the format check accepts an address
    without [@]. *)
Lemma validate_returns email options w :
  (isEmail email = true -> domainOf email <> None) ->
  exists r w', validate email options w = (Returned r, w').
Proof.
  intros Hat.
  run_pipeline email options w; try (eexists; eexists; reflexivity).
  exfalso. apply Hat; reflexivity.
Qed.

Lemma retryLoop_detectorCalls stage options retries w :
  detectorCalls (snd (retryLoop (stageProbe stage) options retries w)) = detectorCalls w.
Proof.
  apply (retryLoop_preserves (fun a b => detectorCalls b = detectorCalls a)).
  - reflexivity.
  - intros a b c Hab Hbc. congruence.
  - intros w0. unfold detectorCalls. rewrite stageProbe_count by reflexivity.
    destruct stage; cbn [isDetectorCall]; lia.
  - intros w0. unfold detectorCalls. rewrite count_setTimeout. cbn [isDetectorCall]. lia.
Qed.

Lemma validate_detectorCalls address options w :
  detectorCalls (snd (validate address options w)) = detectorCalls w.
Proof.
  run_pipeline address options w; cbn [snd]; try reflexivity.
  all: pose proof (retryLoop_detectorCalls (MX d) (default DEFAULT_OPTIONS options) 0 w) as H1;
    cbn [stageProbe] in H1; rewrite Hmx in H1; cbn [snd] in H1.
  1: exact H1.
  all: pose proof (retryLoop_detectorCalls (SMTP address) (default DEFAULT_OPTIONS options) 0 w1) as H2;
    cbn [stageProbe] in H2; rewrite Hsm in H2; cbn [snd] in H2.
  all: congruence.
Qed.

Lemma validate_unflagged address options w r w' :
  validate address options w = (Returned r, w') -> unflagged r.
Proof.
  run_pipeline address options w; intros Hrun; inversion Hrun; subst;
    repeat split; reflexivity.
Qed.

(** ** What the options contribute *)

(** The loop reads the options only through [maxAttempts] and
    [backoffDelay]. *)
Lemma retryLoop_options probe o1 o2 :
  limit o1 = limit o2 -> delay o1 = delay o2 ->
  forall retries w, retryLoop probe o1 retries w = retryLoop probe o2 retries w.
Proof.
  intros Hl Hd retries w.
  pattern retries, w, (retryLoop probe o1 retries w).
  apply retryLoop_induction; clear retries w.
  - intros r w Hge. symmetry. apply retryLoop_exit. lia.
  - intros r w w1 Hlt Hp. symmetry. apply retryLoop_success; [lia | exact Hp].
  - intros r w w1 Hlt Hp w2 IH. subst w2. rewrite IH. symmetry.
    rewrite Hd. apply retryLoop_false_backoff; [lia | exact Hp].
  - intros r w w1 Hlt Hge Hp. symmetry. apply retryLoop_false_last; [lia | lia | exact Hp].
  - intros r w w1 e Hlt Hp IH. rewrite IH. symmetry.
    apply (retryLoop_threw probe o2 r w w1 e); [lia | exact Hp].
Qed.

Lemma validate_options address o1 o2 w :
  maxAttempts (retryStrategy o1) = maxAttempts (retryStrategy o2) ->
  backoffDelay (retryStrategy o1) = backoffDelay (retryStrategy o2) ->
  validate address (Some o1) w = validate address (Some o2) w.
Proof.
  intros Hl Hd.
  cbv [validateEmailWithRetry bind ret dateNow throw].
  change (default DEFAULT_OPTIONS (Some o1)) with o1.
  change (default DEFAULT_OPTIONS (Some o2)) with o2.
  destruct (isEmail address); cbn [negb]; [| reflexivity].
  destruct (nth_error (JsString.split (JsString.isChar "@") address) 1) as [d |];
    [| reflexivity].
  destruct (isFQDN d); cbn [negb]; [| reflexivity].
  rewrite (retryLoop_options (checkMXRecords d) o1 o2 Hl Hd).
  destruct (retryLoop (checkMXRecords d) o2 0 w) as [[[mxExists mxRetries] | e] w1];
    [| reflexivity].
  destruct (negb mxExists && negb (isEnterpriseDomain d)); [reflexivity |].
  rewrite (retryLoop_options (checkSMTP address) o1 o2 Hl Hd).
  destruct (retryLoop (checkSMTP address) o2 0 w1) as [[[smtpValid smtpRetries] | e] w2];
    [| reflexivity].
  rewrite Hl, Hd. reflexivity.
Qed.

Lemma validateChunk_options onProgress o1 o2 chunk :
  maxAttempts (retryStrategy o1) = maxAttempts (retryStrategy o2) ->
  backoffDelay (retryStrategy o1) = backoffDelay (retryStrategy o2) ->
  forall processed w,
    validateChunk isEmail isFQDN onProgress o1 chunk processed w =
    validateChunk isEmail isFQDN onProgress o2 chunk processed w.
Proof.
  intros Hl Hd. induction chunk as [| address rest IH]; intros processed w.
  - reflexivity.
  - cbn [validateChunk]. unfold bind, validateOne. unfold bind, ret.
    rewrite (validate_options address o1 o2 w Hl Hd).
    destruct (validate address (Some o2) w) as [[r | e] w1]; [| reflexivity].
    rewrite IH. reflexivity.
Qed.

Lemma validateChunks_options onProgress o1 o2 chunks :
  maxAttempts (retryStrategy o1) = maxAttempts (retryStrategy o2) ->
  backoffDelay (retryStrategy o1) = backoffDelay (retryStrategy o2) ->
  forall processed w,
    validateChunks isEmail isFQDN onProgress o1 chunks processed w =
    validateChunks isEmail isFQDN onProgress o2 chunks processed w.
Proof.
  intros Hl Hd. induction chunks as [| chunk rest IH]; intros processed w.
  - reflexivity.
  - cbn [validateChunks]. unfold bind.
    rewrite (validateChunk_options onProgress o1 o2 chunk Hl Hd).
    destruct (validateChunk isEmail isFQDN onProgress o2 chunk processed w)
      as [[[rs processed'] | e] w1]; [| reflexivity].
    rewrite IH. reflexivity.
Qed.

(** C10. The result of [validateEmailWithRetry], and with it the result of
    [validateEmailBatch], depends on the options only through
    [retryStrategy.maxAttempts] and [retryStrategy.backoffDelay]: two runs
    from the same world (the same probe outcomes) whose options agree on
    these two fields return the same result and leave the same world,
    whatever [enableRetries], [validateSMTP], [strictMode] and
    [retryStrategy.timeout] are. *)
Theorem options_matter_only_through_retry_fields (o1 o2 : ValidationOptions) :
  maxAttempts (retryStrategy o1) = maxAttempts (retryStrategy o2) ->
  backoffDelay (retryStrategy o1) = backoffDelay (retryStrategy o2) ->
  (forall address w,
     validate address (Some o1) w = validate address (Some o2) w) /\
  (forall emails onProgress completion w,
     validateEmailBatch isEmail isFQDN emails onProgress (Some o1) completion w =
     validateEmailBatch isEmail isFQDN emails onProgress (Some o2) completion w).
Proof.
  intros Hl Hd. split.
  - intros address w. apply validate_options; assumption.
  - intros emails onProgress completion w.
    unfold validateEmailBatch, bind.
    change (default DEFAULT_OPTIONS (Some o1)) with o1.
    change (default DEFAULT_OPTIONS (Some o2)) with o2.
    rewrite (validateChunks_options onProgress o1 o2 _ Hl Hd).
    reflexivity.
Qed.

(** ** Chunks *)

Lemma slice_from_zero {T} (n : Z) (l : list T) :
  0 <= n ->
  JsArray.slice 0 n l = firstn (Z.to_nat (Z.min (Z.of_nat (List.length l)) n)) l.
Proof.
  intros Hn. unfold JsArray.slice.
  destruct (Z.ltb_spec n 0) as [Hneg | _]; [lia |].
  change (0 <? 0) with false. cbv beta iota.
  rewrite (Z.min_l 0) by lia. cbn [Z.to_nat skipn].
  f_equal. lia.
Qed.

Lemma slice_then_rest {T} (i n : Z) (l : list T) :
  0 <= i -> 0 < n ->
  (JsArray.slice i (i + n) l ++ skipn (Z.to_nat (i + n)) l)%list = skipn (Z.to_nat i) l.
Proof.
  intros Hi Hn. unfold JsArray.slice.
  destruct (Z.ltb_spec i 0) as [Hneg | _]; [lia |].
  destruct (Z.ltb_spec (i + n) 0) as [Hneg | _]; [lia |].
  set (len := Z.of_nat (List.length l)).
  destruct (Z_le_gt_dec len i) as [Hout | Hin].
  - rewrite Z.min_r by lia. rewrite Z.min_r by lia.
    rewrite !skipn_all2 by lia. rewrite firstn_nil. reflexivity.
  - rewrite (Z.min_l i len) by lia.
    destruct (Z_le_gt_dec (i + n) len) as [Hfit | Hover].
    + rewrite Z.min_l by lia.
      replace (Z.to_nat (i + n)) with (Z.to_nat (i + n - i) + Z.to_nat i)%nat by lia.
      rewrite <- skipn_skipn. apply firstn_skipn.
    + rewrite Z.min_r by lia.
      rewrite (skipn_all2 l (n := Z.to_nat (i + n))) by lia.
      rewrite app_nil_r. apply firstn_all2.
      rewrite length_skipn. lia.
Qed.

Lemma chunkFrom_concat {T} (array : list T) (size : positive) (i : Z) :
  0 <= i -> concat (chunkFrom array size i) = skipn (Z.to_nat i) array.
Proof.
  remember (Z.to_nat (Z.of_nat (List.length array) - i)) as n eqn:Hn.
  revert i Hn. induction n as [n IH] using lt_wf_ind. intros i Hn Hi.
  rewrite chunkFrom_equation_1.
  destruct (Z_lt_dec i (Z.of_nat (List.length array))) as [Hlt | Hge]; cbn.
  - assert (Hm : (Z.to_nat (Z.of_nat (List.length array) - (i + Z.pos size)) < n)%nat) by lia.
    rewrite (IH _ Hm (i + Z.pos size) eq_refl) by lia.
    apply slice_then_rest; lia.
  - rewrite skipn_all2 by lia. reflexivity.
Qed.

Lemma chunk_concat {T} (array : list T) (size : positive) :
  concat (chunk array size) = array.
Proof. unfold chunk. rewrite chunkFrom_concat by lia. reflexivity. Qed.

(** Reading the chunks in the order of a permutation of their indices gives
    a permutation of their concatenation. *)
Lemma flat_map_nth_seq {T} (l : list (list T)) :
  flat_map (fun i => nth i l []) (seq 0 (List.length l)) = concat l.
Proof.
  induction l as [| x l IH]; [reflexivity |].
  cbn [List.length seq flat_map nth concat]. f_equal.
  rewrite <- seq_shift, flat_map_concat_map, map_map, <- flat_map_concat_map.
  exact IH.
Qed.

Lemma completion_order_permutes {T} (l : list (list T)) (completion : list nat) :
  Permutation completion (seq 0 (List.length l)) ->
  Permutation (flat_map (fun i => nth i l []) completion) (concat l).
Proof.
  intros Hp. rewrite <- (flat_map_nth_seq l).
  apply Permutation_flat_map. exact Hp.
Qed.

(** ** The batch orchestrator *)

Section BatchFacts.

Variable onProgress : Z -> World -> World.
Variable options : ValidationOptions.

(** The format check accepts no address without [@]; [validator.isEmail]
    is such a check ([validator_isEmail_has_at] below). *)
Hypothesis isEmail_has_at : forall address, isEmail address = true -> domainOf address <> None.

Lemma validateChunk_returns chunk :
  forall processed w,
  exists rs w',
    validateChunk isEmail isFQDN onProgress options chunk processed w =
    (Returned (rs, processed + Z.of_nat (List.length chunk)), w') /\
    Forall2 (producedFor isEmail isFQDN options) chunk rs.
Proof using isEmail_has_at.
  induction chunk as [| address rest IH]; intros processed w.
  - exists [], w. split; [| constructor].
    cbn. unfold ret. rewrite Z.add_0_r. reflexivity.
  - destruct (validate_returns address (Some options) w (isEmail_has_at address))
      as (r & w1 & Hr).
    destruct (IH (processed + 1) (onProgress (processed + 1) w1)) as (rs & w' & Hrs & Hall).
    exists (r :: rs), w'. split.
    + cbn [validateChunk]. unfold bind, validateOne. unfold bind, ret.
      rewrite Hr, Hrs. do 2 f_equal. f_equal. cbn [List.length]. lia.
    + constructor; [exists w, w1; exact Hr | exact Hall].
Qed.

Lemma validateChunks_returns chunks :
  forall processed w,
  exists perChunk processed' w',
    validateChunks isEmail isFQDN onProgress options chunks processed w =
    (Returned (perChunk, processed'), w') /\
    Forall2 (Forall2 (producedFor isEmail isFQDN options)) chunks perChunk.
Proof using isEmail_has_at.
  induction chunks as [| chunk rest IH]; intros processed w.
  - exists [], processed, w. split; [reflexivity | constructor].
  - destruct (validateChunk_returns chunk processed w) as (rs & w1 & Hrs & Hall).
    destruct (IH (processed + Z.of_nat (List.length chunk)) w1)
      as (others & processed' & w' & Ho & Hall').
    exists (rs :: others), processed', w'. split.
    + cbn [validateChunks]. unfold bind, ret. rewrite Hrs, Ho. reflexivity.
    + constructor; assumption.
Qed.

End BatchFacts.

Lemma produced_emails options chunk rs :
  Forall2 (producedFor isEmail isFQDN options) chunk rs -> map email rs = chunk.
Proof.
  induction 1 as [| address r chunk rs (w & w' & Hr) _ IH]; [reflexivity |].
  cbn [map]. rewrite IH, (validate_email_field _ _ _ _ _ Hr). reflexivity.
Qed.

Lemma produced_chunk_emails options chunks perChunk :
  Forall2 (Forall2 (producedFor isEmail isFQDN options)) chunks perChunk ->
  map email (concat perChunk) = concat chunks.
Proof.
  induction 1 as [| chunk rs chunks perChunk Hrs _ IH]; [reflexivity |].
  cbn [concat]. rewrite map_app, IH, (produced_emails _ _ _ Hrs). reflexivity.
Qed.

Lemma produced_chunks options chunks perChunk :
  Forall2 (Forall2 (producedFor isEmail isFQDN options)) chunks perChunk ->
  map (map email) perChunk = chunks.
Proof.
  induction 1 as [| chunk rs chunks perChunk Hrs _ IH]; [reflexivity |].
  cbn [map]. rewrite IH, (produced_emails _ _ _ Hrs). reflexivity.
Qed.

Lemma map_flat_map_nth {A B} (f : A -> B) (l : list (list A)) (order : list nat) :
  map f (flat_map (fun i => nth i l []) order) =
  flat_map (fun i => nth i (map (map f) l) []) order.
Proof.
  induction order as [| i order IH]; [reflexivity |].
  cbn [flat_map]. rewrite map_app, IH. f_equal.
  symmetry. apply (map_nth (map f) l [] i).
Qed.

(** What the batch returns was returned by the pipeline, address by
    address, whether or not the batch as a whole succeeds. *)
Lemma validateChunk_produced onProgress options chunk :
  forall processed w rs processed' w',
    validateChunk isEmail isFQDN onProgress options chunk processed w =
    (Returned (rs, processed'), w') ->
    Forall2 (producedFor isEmail isFQDN options) chunk rs.
Proof.
  induction chunk as [| address rest IH]; intros processed w rs processed' w' Hrun.
  - cbn in Hrun. injection Hrun as <- _ _. constructor.
  - cbn [validateChunk] in Hrun. unfold bind, validateOne in Hrun. unfold bind, ret in Hrun.
    destruct (validate address (Some options) w) as [[r | e] w1] eqn:Hr; [| discriminate].
    destruct (validateChunk isEmail isFQDN onProgress options rest (processed + 1)
                (onProgress (processed + 1) w1)) as [[[rs' p'] | e] w2] eqn:Hrest;
      [| discriminate].
    injection Hrun as <- _ _.
    constructor; [exists w, w1; exact Hr | exact (IH _ _ _ _ _ Hrest)].
Qed.

Lemma validateChunks_produced onProgress options chunks :
  forall processed w perChunk processed' w',
    validateChunks isEmail isFQDN onProgress options chunks processed w =
    (Returned (perChunk, processed'), w') ->
    Forall2 (Forall2 (producedFor isEmail isFQDN options)) chunks perChunk.
Proof.
  induction chunks as [| chunk rest IH]; intros processed w perChunk processed' w' Hrun.
  - cbn in Hrun. injection Hrun as <- _ _. constructor.
  - cbn [validateChunks] in Hrun. unfold bind, ret in Hrun.
    destruct (validateChunk isEmail isFQDN onProgress options chunk processed w)
      as [[[rs p1] | e] w1] eqn:Hchunk; [| discriminate].
    destruct (validateChunks isEmail isFQDN onProgress options rest p1 w1)
      as [[[others p2] | e] w2] eqn:Hrest; [| discriminate].
    injection Hrun as <- _ _.
    constructor; [exact (validateChunk_produced _ _ _ _ _ _ _ _ Hchunk) | exact (IH _ _ _ _ _ Hrest)].
Qed.

Lemma validateChunk_detectorCalls onProgress options chunk :
  (forall n w, detectorCalls (onProgress n w) = detectorCalls w) ->
  forall processed w,
    detectorCalls (snd (validateChunk isEmail isFQDN onProgress options chunk processed w)) =
    detectorCalls w.
Proof.
  intros Hquiet. induction chunk as [| address rest IH]; intros processed w; [reflexivity |].
  cbn [validateChunk]. unfold bind, validateOne. unfold bind, ret.
  pose proof (validate_detectorCalls address (Some options) w) as Hv.
  destruct (validate address (Some options) w) as [[r | e] w1]; cbn [snd] in *; [| exact Hv].
  pose proof (IH (processed + 1) (onProgress (processed + 1) w1)) as Hrest.
  destruct (validateChunk isEmail isFQDN onProgress options rest (processed + 1)
              (onProgress (processed + 1) w1)) as [[[rs' p'] | e] w2]; cbn [snd] in *;
    rewrite Hrest, Hquiet; exact Hv.
Qed.

Lemma validateChunks_detectorCalls onProgress options chunks :
  (forall n w, detectorCalls (onProgress n w) = detectorCalls w) ->
  forall processed w,
    detectorCalls (snd (validateChunks isEmail isFQDN onProgress options chunks processed w)) =
    detectorCalls w.
Proof.
  intros Hquiet. induction chunks as [| chunk rest IH]; intros processed w; [reflexivity |].
  cbn [validateChunks]. unfold bind, ret.
  pose proof (validateChunk_detectorCalls onProgress options chunk Hquiet processed w) as Hc.
  destruct (validateChunk isEmail isFQDN onProgress options chunk processed w)
    as [[[rs p1] | e] w1]; cbn [snd] in *; [| exact Hc].
  pose proof (IH p1 w1) as Hrest.
  destruct (validateChunks isEmail isFQDN onProgress options rest p1 w1)
    as [[[others p2] | e] w2]; cbn [snd] in *; congruence.
Qed.

(** C6. For a non-empty list of addresses, [validateEmailBatch] returns as
    many results as there are addresses, and the [email] fields of the
    results are the addresses up to order: they are the chunks of the input
    read in the order [completion] in which the chunks complete, any
    permutation of the chunk indices. *)
Theorem batch_returns_one_result_per_email (emails : list string)
    (onProgress : Z -> World -> World) (options : option ValidationOptions)
    (completion : list nat) (w : World) :
  (forall address, isEmail address = true -> domainOf address <> None) ->
  emails <> [] ->
  Permutation completion (seq 0 (List.length (chunk emails CHUNK_SIZE))) ->
  exists results w',
    validateEmailBatch isEmail isFQDN emails onProgress options completion w =
    (Returned results, w') /\
    List.length results = List.length emails /\
    Permutation (map email results) emails /\
    map email results =
    flat_map (fun i => nth i (chunk emails CHUNK_SIZE) []) completion.
Proof.
  intros Hat Hne Hperm.
  destruct (validateChunks_returns onProgress (default DEFAULT_OPTIONS options) Hat
              (chunk emails CHUNK_SIZE) 0 w)
    as (perChunk & processed & w1 & Hrun & Hall).
  set (results := flat_map (fun i => nth i perChunk []) completion).
  assert (Hlen : List.length perChunk = List.length (chunk emails CHUNK_SIZE))
    by (symmetry; eapply Forall2_length; exact Hall).
  assert (Hres : Permutation (map email results) (concat (chunk emails CHUNK_SIZE))).
  { rewrite <- (produced_chunk_emails _ _ _ Hall).
    apply Permutation_map, completion_order_permutes.
    rewrite Hlen. exact Hperm. }
  rewrite chunk_concat in Hres.
  assert (Hcount : List.length results = List.length emails).
  { rewrite <- (length_map email results). apply Permutation_length, Hres. }
  assert (Hpos : (Z.of_nat (List.length results) =? 0) = false).
  { apply Z.eqb_neq. destruct emails; [congruence | cbn in Hcount; lia]. }
  assert (Horder : map email results =
                   flat_map (fun i => nth i (chunk emails CHUNK_SIZE) []) completion).
  { unfold results. rewrite map_flat_map_nth, (produced_chunks _ _ _ Hall). reflexivity. }
  eexists results, _. split; [| repeat split; assumption].
  unfold validateEmailBatch, bind. rewrite Hrun. fold results. rewrite Hpos.
  reflexivity.
Qed.

(** C9. The pipeline never calls [detectSpamTrapPattern]: a run adds no call
    of it to the trace, whether it returns or throws, and every result it
    returns has [spamTrap], [disposable] and [blacklisted] false.  The same
    holds of a batch: every result it returns has the three flags false, and
    it adds no call of the detector unless the progress observer does. *)
Theorem spam_trap_detector_is_never_invoked (address : string)
    (options : option ValidationOptions) (w : World) :
  detectorCalls (snd (validate address options w)) = detectorCalls w /\
  match fst (validate address options w) with
  | Returned r =>
      spamTrap (details r) = false /\
      disposable (details r) = false /\
      blacklisted (details r) = false
  | Threw _ => True
  end /\
  forall emails onProgress completion,
    match fst (validateEmailBatch isEmail isFQDN emails onProgress options completion w) with
    | Returned results => Forall unflagged results
    | Threw _ => True
    end /\
    ((forall n w0, detectorCalls (onProgress n w0) = detectorCalls w0) ->
     detectorCalls
       (snd (validateEmailBatch isEmail isFQDN emails onProgress options completion w)) =
     detectorCalls w).
Proof.
  split; [apply validate_detectorCalls |]. split.
  - destruct (validate address options w) as [[r | e] w'] eqn:Hrun; [| exact I].
    exact (validate_unflagged _ _ _ _ _ Hrun).
  - intros emails onProgress completion.
    unfold validateEmailBatch, bind.
    pose proof (validateChunks_detectorCalls onProgress (default DEFAULT_OPTIONS options)
                  (chunk emails CHUNK_SIZE)) as Hcalls.
    destruct (validateChunks isEmail isFQDN onProgress (default DEFAULT_OPTIONS options)
                (chunk emails CHUNK_SIZE) 0 w) as [[[perChunk processed] | e] w1] eqn:Hrun.
    + assert (Hall : Forall unflagged (concat perChunk)).
      { pose proof (validateChunks_produced _ _ _ _ _ _ _ _ Hrun) as Hprod.
        clear Hrun Hcalls. induction Hprod as [| chunk rs chunks perChunk Hrs _ IH]; [constructor |].
        cbn [concat]. apply Forall_app. split; [| exact IH].
        clear IH. induction Hrs as [| a r chunk rs (w0 & w0' & Hr) _ IH]; [constructor |].
        constructor; [exact (validate_unflagged _ _ _ _ _ Hr) | exact IH]. }
      split.
      * destruct (Z.of_nat (List.length (flat_map (fun i => nth i perChunk []) completion)) =? 0);
          [exact I |].
        cbn [fst emit]. apply List.Forall_forall. intros r Hin.
        apply in_flat_map in Hin as (i & _ & Hin).
        rewrite List.Forall_forall in Hall. apply Hall.
        apply in_concat. exists (nth i perChunk []). split; [| exact Hin].
        destruct (Nat.lt_ge_cases i (List.length perChunk)) as [Hlt | Hge].
        -- apply nth_In. exact Hlt.
        -- rewrite nth_overflow in Hin by exact Hge. destruct Hin.
      * intros Hquiet. specialize (Hcalls Hquiet 0 w). rewrite Hrun in Hcalls.
        cbn [snd] in Hcalls.
        destruct (Z.of_nat (List.length (flat_map (fun i => nth i perChunk []) completion)) =? 0);
          [exact Hcalls |].
        cbn [snd emit]. unfold detectorCalls in *.
        change (count isDetectorCall (logged (EvConsoleLog
                  (Z.of_nat (List.length (flat_map (fun i => nth i perChunk []) completion)))
                  (Z.of_nat (List.length (List.filter (isStatus Valid)
                     (flat_map (fun i => nth i perChunk []) completion))))
                  (Z.of_nat (List.length (List.filter (isStatus RetryLater)
                     (flat_map (fun i => nth i perChunk []) completion))))
                  (Z.of_nat (List.length (List.filter (isStatus DoNotContact)
                     (flat_map (fun i => nth i perChunk []) completion))))) w1)
                = count isDetectorCall w).
        rewrite count_logged. cbn [isDetectorCall]. lia.
    + split; [exact I |]. intros Hquiet. specialize (Hcalls Hquiet 0 w).
      rewrite Hrun in Hcalls. exact Hcalls.
Qed.

End PipelineFacts.


(** ** The parser *)

Lemma parseEmailFile_tokens file :
  parseEmailFile file =
  let tokens := candidateTokens (text file) in
  if Z.of_nat (List.length (JsArray.slice 0 MAX_EMAILS tokens)) =? 0
  then Threw (Error "No valid emails found in file")
  else Returned (JsArray.slice 0 MAX_EMAILS tokens).
Proof. reflexivity. Qed.

Lemma slice_max_emails_length (tokens : list string) :
  Z.of_nat (List.length (JsArray.slice 0 MAX_EMAILS tokens)) =
  Z.min (Z.of_nat (List.length tokens)) MAX_EMAILS.
Proof.
  rewrite slice_from_zero by (unfold MAX_EMAILS; lia).
  rewrite length_firstn. unfold MAX_EMAILS. lia.
Qed.

Lemma parseEmailFile_returns_prefix (file : File) :
  candidateTokens (text file) <> [] ->
  parseEmailFile file =
  Returned
    (firstn (Z.to_nat (Z.min (Z.of_nat (List.length (candidateTokens (text file)))) MAX_EMAILS))
       (candidateTokens (text file))).
Proof.
  intros Hne. rewrite parseEmailFile_tokens. cbv zeta.
  rewrite slice_max_emails_length.
  rewrite slice_from_zero by (unfold MAX_EMAILS; lia).
  destruct (Z.eqb_spec (Z.min (Z.of_nat (List.length (candidateTokens (text file)))) MAX_EMAILS) 0)
    as [Hz | _]; [| reflexivity].
  exfalso. apply Hne. destruct (candidateTokens (text file)); [reflexivity |].
  cbn [List.length] in Hz. unfold MAX_EMAILS in Hz. lia.
Qed.

(** C7, as amended. When at least one token survives the filter,
    [parseEmailFile] returns exactly the first [min n 40000] of the [n]
    tokens obtained by splitting on newline or comma, trimming, discarding
    the empty tokens and those without [@], and stripping the quote
    characters.  What exceeds 40000 is dropped without an error, and when
    nothing exceeds it the list is returned as it is, duplicates
    included. *)
Theorem parser_keeps_the_first_tokens (file : File) :
  candidateTokens (text file) <> [] ->
  let tokens := candidateTokens (text file) in
  let n := Z.of_nat (List.length tokens) in
  parseEmailFile file = Returned (firstn (Z.to_nat (Z.min n MAX_EMAILS)) tokens) /\
  (forall emails, parseEmailFile file = Returned emails ->
     Z.of_nat (List.length emails) = Z.min n MAX_EMAILS) /\
  (n <= MAX_EMAILS -> parseEmailFile file = Returned tokens).
Proof.
  intros Hne tokens n.
  pose proof (parseEmailFile_returns_prefix file Hne) as Hrun.
  fold tokens in Hrun. fold n in Hrun.
  split; [exact Hrun |]. split.
  - intros emails He. rewrite Hrun in He. injection He as <-.
    rewrite length_firstn. fold n. unfold MAX_EMAILS. lia.
  - intros Hle. rewrite Hrun. rewrite Z.min_l by exact Hle.
    subst n. rewrite Nat2Z.id, firstn_all. reflexivity.
Qed.

(** C8. [parseEmailFile] throws the error "No valid emails found in file"
    exactly when no token survives the filter, and otherwise returns the
    list: the surviving tokens, cut by [slice(0, 40000)], which is then not
    empty.  In the upload handler the error ends the run before any address
    is validated: the world is untouched and no result is stored. *)
Theorem empty_input_is_rejected (file : File) :
  (parseEmailFile file = Threw (Error "No valid emails found in file") <->
   candidateTokens (text file) = []) /\
  (candidateTokens (text file) <> [] ->
   parseEmailFile file = Returned (JsArray.slice 0 MAX_EMAILS (candidateTokens (text file))) /\
   JsArray.slice 0 MAX_EMAILS (candidateTokens (text file)) <> []) /\
  (forall isEmail isFQDN completion state w,
     validateFileSize file = true ->
     validateFileType file = true ->
     candidateTokens (text file) = [] ->
     onDrop isEmail isFQDN file completion state w =
     ({| results := []; processing := false;
         error := Some "No valid emails found in file" |}, w)).
Proof.
  assert (Hthrow : candidateTokens (text file) = [] ->
            parseEmailFile file = Threw (Error "No valid emails found in file")).
  { intros He. rewrite parseEmailFile_tokens, He. reflexivity. }
  assert (Hret : candidateTokens (text file) <> [] ->
            parseEmailFile file =
              Returned (JsArray.slice 0 MAX_EMAILS (candidateTokens (text file))) /\
            JsArray.slice 0 MAX_EMAILS (candidateTokens (text file)) <> []).
  { intros Hne.
    assert (Hkept : JsArray.slice 0 MAX_EMAILS (candidateTokens (text file)) <> []).
    { intros Hnil. apply (f_equal (fun l => Z.of_nat (@List.length string l))) in Hnil.
      rewrite slice_max_emails_length in Hnil.
      destruct (candidateTokens (text file)); [congruence |].
      cbn [List.length] in Hnil. unfold MAX_EMAILS in Hnil. lia. }
    split; [| exact Hkept].
    rewrite parseEmailFile_tokens. cbv zeta.
    destruct (Z.eqb_spec
                (Z.of_nat (List.length (JsArray.slice 0 MAX_EMAILS (candidateTokens (text file)))))
                0) as [Hz | _]; [| reflexivity].
    exfalso. apply Hkept.
    destruct (JsArray.slice 0 MAX_EMAILS (candidateTokens (text file))); [reflexivity |].
    cbn [List.length] in Hz. lia. }
  split; [| split].
  - split; [| exact Hthrow].
    intros Ht. destruct (candidateTokens (text file)) as [| t ts] eqn:Hc; [reflexivity |].
    destruct Hret as (Hr & _); [discriminate | congruence].
  - exact Hret.
  - intros isEmail isFQDN completion state w Hsize Htype He.
    unfold onDrop. rewrite Hsize, Htype, (Hthrow He). reflexivity.
Qed.

(** ** The transcribed checks *)

(** [validator.isEmail] accepts no address without [@]: with a single piece
    the user part is empty, and the empty string is not an atom. *)
Lemma validator_isEmail_has_at address :
  validator.isEmail address = true -> domainOf address <> None.
Proof.
  unfold validator.isEmail, domainOf.
  destruct (JsString.split (JsString.isChar "@") address) as [| x [| y rest]];
    [| | discriminate]; cbn [List.removelast JsString.join List.last];
    destruct (254 <? String.length address)%nat; try discriminate;
    destruct (negb (validator.byteLength "" <=? 64)%nat || _); try discriminate;
    destruct (negb (validator.isFQDN _)); try discriminate;
    cbn; discriminate.
Qed.

(** ** The statements, run on concrete inputs *)

Lemma smtp_failure_is_terminal_witness :
  exists r w',
    validateEmailWithRetry validator.isEmail validator.isFQDN
      "user@gmail.com" None (steadyWorld 0) = (Returned r, w') /\
    status r = DoNotContact /\
    reason r = Some "SMTP verification failed" /\
    retryCount (details r) = 3.
Proof.
  pose (w1 := snd (retryLoop (checkMXRecords "gmail.com") DEFAULT_OPTIONS 0 (steadyWorld 0))).
  pose (w2 := snd (retryLoop (checkSMTP "user@gmail.com") DEFAULT_OPTIONS 0 w1)).
  destruct (smtp_failure_is_terminal validator.isEmail validator.isFQDN
              "user@gmail.com" "gmail.com" None (steadyWorld 0) w1 w2 0 3)
    as (_ & _ & Hrun);
    [vm_compute; reflexivity | vm_compute; reflexivity | vm_compute; reflexivity
    | vm_compute; reflexivity | vm_compute; reflexivity | vm_compute; reflexivity |].
  eexists _, _. split; [exact Hrun |]. repeat split; reflexivity.
Defined.

Lemma corporate_address_is_valid_witness :
  exists r w',
    validateEmailWithRetry validator.isEmail validator.isFQDN
      "b@microsoft.com" None (steadyWorld 0) = (Returned r, w') /\
    status r = Valid /\ confidence r = High /\ corporate (details r) = true /\
    drawn w' = 0%nat /\ sleeps w' = 0%nat.
Proof.
  destruct (corporate_address_is_valid validator.isEmail validator.isFQDN
              "b@microsoft.com" "microsoft.com" None (steadyWorld 0))
    as (Hrun & Hdrawn & Hsleeps & _);
    [vm_compute; reflexivity | vm_compute; reflexivity | vm_compute; reflexivity
    | vm_compute; reflexivity |].
  eexists _, _. split; [exact Hrun |].
  split; [reflexivity |]. split; [reflexivity |]. split; [reflexivity |].
  split; [exact Hdrawn | exact Hsleeps].
Defined.

(** An address on a corporate domain that fails the format check is not
    Valid; and for one that passes, both probes are called. *)
Lemma corporate_address_counterexample :
  domainOf "john doe@microsoft.com" = Some "microsoft.com" /\
  isEnterpriseDomain "microsoft.com" = true /\
  (exists r w',
     validateEmailWithRetry validator.isEmail validator.isFQDN
       "john doe@microsoft.com" None (steadyWorld 1) = (Returned r, w') /\
     status r = DoNotContact /\ corporate (details r) = false) /\
  probeCalls
    (snd (validateEmailWithRetry validator.isEmail validator.isFQDN
            "b@microsoft.com" None (steadyWorld 1))) = 2%nat.
Proof.
  split; [vm_compute; reflexivity |]. split; [vm_compute; reflexivity |]. split.
  - eexists _, _. split; [vm_compute; reflexivity |]. split; reflexivity.
  - vm_compute. reflexivity.
Qed.

Lemma format_failure_is_terminal_witness :
  exists r,
    validateEmailWithRetry validator.isEmail validator.isFQDN
      "not-an-email" None (steadyWorld 1) = (Returned r, steadyWorld 1) /\
    status r = DoNotContact /\ confidence r = Low /\
    List.length (verificationSteps (details r)) = 1%nat.
Proof.
  destruct (format_failure_is_terminal validator.isEmail validator.isFQDN
              "not-an-email" None (steadyWorld 1))
    as (r & Hrun & Hs & Hc & _ & Hl & _); [vm_compute; reflexivity |].
  exists r. repeat split; assumption.
Defined.

(** The reason of a format failure is not the string "Invalid email
    format". *)
Lemma format_failure_counterexample :
  validator.isEmail "not-an-email" = false /\
  exists r w',
    validateEmailWithRetry validator.isEmail validator.isFQDN
      "not-an-email" None (steadyWorld 1) = (Returned r, w') /\
    status r = DoNotContact /\
    reason r <> Some "Invalid email format".
Proof.
  split; [vm_compute; reflexivity |].
  eexists _, _. split; [vm_compute; reflexivity |]. split; [reflexivity |].
  cbn. discriminate.
Qed.

(** The [catch] block of the loop only counts: a thrown attempt is not
    followed by the backoff sleep that follows a returned false.  With a
    first attempt that fails and a second that succeeds, the loop ends with
    the flag true and the counter at 1 either way; after the returned false
    it has slept once (2000 ms), after the thrown error it has not slept.
    Likewise for [checkSMTP] called on an address without [@], which the
    pipeline never does: three calls that throw take no sleep, three that
    return false take two. *)
Lemma catch_block_takes_no_backoff :
  let w := switchingWorld 1 0 1 in
  let byFalse := retryLoop unluckyProbe DEFAULT_OPTIONS 0 w in
  let byThrow := retryLoop faultyProbe DEFAULT_OPTIONS 0 w in
  let smtpFalse := retryLoop (checkSMTP "user@example.org") DEFAULT_OPTIONS 0 (steadyWorld 0) in
  let smtpThrow := retryLoop (checkSMTP "no-at-sign") DEFAULT_OPTIONS 0 (steadyWorld 0) in
  (fst byFalse = Returned (true, 1) /\ fst byThrow = Returned (true, 1) /\
   sleeps (snd byFalse) = 1%nat /\ sleeps (snd byThrow) = 0%nat /\
   now (snd byFalse) = 2000 /\ now (snd byThrow) = 0) /\
  (fst smtpFalse = Returned (false, 3) /\ fst smtpThrow = Returned (false, 3) /\
   probeCalls (snd smtpFalse) = 3%nat /\ probeCalls (snd smtpThrow) = 3%nat /\
   sleeps (snd smtpFalse) = 2%nat /\ sleeps (snd smtpThrow) = 0%nat).
Proof. vm_compute. repeat split; reflexivity. Qed.

(** Two chunks, the second completing first: its result comes first. *)
Lemma batch_returns_one_result_per_email_witness :
  exists results w',
    validateEmailBatch validator.isEmail validator.isFQDN twoChunks
      reportProgress None [1%nat; 0%nat] (steadyWorld 1) = (Returned results, w') /\
    List.length results = 2001%nat /\
    Permutation (map email results) twoChunks /\
    map email results = "last@gmail.com" :: repeat "first@gmail.com" 2000.
Proof.
  destruct (batch_returns_one_result_per_email validator.isEmail validator.isFQDN
              twoChunks reportProgress None [1%nat; 0%nat] (steadyWorld 1))
    as (results & w' & Hrun & Hlen & Hperm & Horder).
  - exact validator_isEmail_has_at.
  - discriminate.
  - replace (List.length (chunk twoChunks CHUNK_SIZE)) with 2%nat
      by (vm_compute; reflexivity).
    apply perm_swap.
  - exists results, w'. split; [exact Hrun |]. split; [exact Hlen |].
    split; [exact Hperm |]. rewrite Horder. vm_compute. reflexivity.
Defined.

Lemma parser_keeps_the_first_tokens_witness :
  parseEmailFile (csvFile "a@b.co, 'a@b.co'
c@d.org,,no-at") = Returned [ "a@b.co"; "a@b.co"; "c@d.org" ].
Proof.
  destruct (parser_keeps_the_first_tokens (csvFile "a@b.co, 'a@b.co'
c@d.org,,no-at")) as (_ & _ & Hall); [vm_compute; discriminate |].
  apply Hall. vm_compute. discriminate.
Defined.

(** On a text without any token the parser does not return the first zero
    tokens: it throws. *)
Lemma parser_counterexample :
  candidateTokens (text (csvFile "")) = [] /\
  parseEmailFile (csvFile "") = Threw (Error "No valid emails found in file") /\
  parseEmailFile (csvFile "") <>
  Returned (firstn (Z.to_nat (Z.min (Z.of_nat (List.length (candidateTokens ""))) MAX_EMAILS))
              (candidateTokens "")).
Proof.
  split; [reflexivity |]. split; [reflexivity |]. vm_compute. discriminate.
Qed.

Lemma empty_input_is_rejected_witness :
  onDrop validator.isEmail validator.isFQDN (csvFile " , no-at-sign
") [] idle (steadyWorld 1) =
  ({| results := []; processing := false;
      error := Some "No valid emails found in file" |}, steadyWorld 1) /\
  parseEmailFile (csvFile "no-at-sign, 'a@b.co'
c@d.org") = Returned [ "a@b.co"; "c@d.org" ].
Proof.
  split.
  - apply (proj2 (proj2 (empty_input_is_rejected (csvFile " , no-at-sign
")))); vm_compute; reflexivity.
  - destruct (proj1 (proj2 (empty_input_is_rejected (csvFile "no-at-sign, 'a@b.co'
c@d.org")))) as (Hrun & _); [vm_compute; discriminate |].
    rewrite Hrun. vm_compute. reflexivity.
Defined.

Lemma options_matter_only_through_retry_fields_witness :
  validateEmailWithRetry validator.isEmail validator.isFQDN
    "user@example.org" (Some DEFAULT_OPTIONS) (switchingWorld 2 0 1) =
  validateEmailWithRetry validator.isEmail validator.isFQDN
    "user@example.org" (Some otherOptions) (switchingWorld 2 0 1).
Proof.
  apply (proj1 (options_matter_only_through_retry_fields
                  validator.isEmail validator.isFQDN DEFAULT_OPTIONS otherOptions
                  eq_refl eq_refl)).
Defined.

(** An address the detector would match: the pipeline returns it unflagged
    and neither a single run nor a batch calls the detector. *)
Lemma spam_trap_detector_is_never_invoked_witness :
  fst (detectSpamTrapPattern "abuse@gmail.com" (steadyWorld 1)) = Returned true /\
  detectorCalls
    (snd (validateEmailWithRetry validator.isEmail validator.isFQDN
            "abuse@gmail.com" None (steadyWorld 1))) = 0%nat /\
  detectorCalls
    (snd (validateEmailBatch validator.isEmail validator.isFQDN
            [ "abuse@gmail.com" ] reportProgress None [0%nat] (steadyWorld 1))) = 0%nat.
Proof.
  split; [vm_compute; reflexivity |].
  destruct (spam_trap_detector_is_never_invoked validator.isEmail validator.isFQDN
              "abuse@gmail.com" None (steadyWorld 1)) as (Hrun & _ & Hbatch).
  split; [exact Hrun |].
  destruct (Hbatch [ "abuse@gmail.com" ] reportProgress [0%nat]) as (_ & Hcalls).
  apply Hcalls. intros n w0. unfold reportProgress, detectorCalls.
  change (snd (emit (EvOnProgress n) w0)) with (logged (EvOnProgress n) w0).
  rewrite count_logged. cbn [isDetectorCall]. lia.
Defined.
(** * Further properties of the code *)

(** ** What a retry loop costs *)

Lemma stageProbe_drawn stage w :
  (drawn w <= drawn (snd (stageProbe stage w)) <= S (drawn w))%nat.
Proof.
  destruct stage as [domain | email]; cbn [stageProbe].
  - destruct (has validDomains (JsString.toLowerCase domain) || isEnterpriseDomain domain) eqn:Hk.
    + rewrite (checkMXRecords_known _ _ Hk). cbn. lia.
    + rewrite (checkMXRecords_unknown _ _ Hk). cbn. lia.
  - destruct (domainOf email) as [domain |] eqn:Hd.
    + destruct (isEnterpriseDomain domain) eqn:Hc.
      * rewrite (checkSMTP_corporate _ _ _ Hd Hc). cbn. lia.
      * rewrite (checkSMTP_ordinary _ _ _ Hd Hc). cbn. lia.
    + destruct (checkSMTP_undefined email w Hd) as [e He]. rewrite He. cbn. lia.
Qed.

(** The cost of one call of a stage's probe, in the four measures. *)
Lemma stageProbe_step stage w c w1 :
  stageProbe stage w = (c, w1) ->
  probeCalls w1 = S (probeCalls w) /\ sleeps w1 = sleeps w /\
  (drawn w <= drawn w1 <= S (drawn w))%nat /\ now w1 = now w.
Proof.
  intros Hp. assert (Hw : w1 = snd (stageProbe stage w)) by (rewrite Hp; reflexivity).
  subst w1. unfold probeCalls, sleeps.
  rewrite !stageProbe_count by reflexivity. rewrite stageProbe_now.
  repeat split; try apply stageProbe_drawn; destruct stage; cbn [isProbeCall isSleep]; lia.
Qed.

Lemma stageLoop_cost stage options retries w :
  let w' := snd (retryLoop (stageProbe stage) options retries w) in
  Z.of_nat (probeCalls w') <= Z.of_nat (probeCalls w) + Z.max 0 (limit options - retries) /\
  Z.of_nat (sleeps w') <= Z.of_nat (sleeps w) + Z.max 0 (limit options - retries - 1) /\
  (drawn w <= drawn w')%nat /\
  Z.of_nat (drawn w') <= Z.of_nat (drawn w) + Z.max 0 (limit options - retries) /\
  now w <= now w' <=
    now w + Z.max 0 (limit options - retries - 1) * Z.max 0 (delay options).
Proof.
  cbv zeta. pattern retries, w, (retryLoop (stageProbe stage) options retries w).
  apply retryLoop_induction; clear retries w.
  - intros r w Hge. cbn [snd]. repeat split; nia.
  - intros r w w1 Hlt Hp. cbn [snd].
    destruct (stageProbe_step _ _ _ _ Hp) as (Hc & Hs & Hd & Hn).
    repeat split; nia.
  - intros r w w1 Hlt Hp w2 IH.
    destruct (stageProbe_step _ _ _ _ Hp) as (Hc & Hs & Hd & Hn).
    assert (Hc2 : probeCalls w2 = probeCalls w1)
      by (unfold w2, probeCalls; rewrite count_setTimeout; cbn; lia).
    assert (Hs2 : sleeps w2 = S (sleeps w1))
      by (unfold w2, sleeps; rewrite count_setTimeout; cbn; lia).
    assert (Hd2 : drawn w2 = drawn w1) by reflexivity.
    assert (Hn2 : now w2 = now w1 + Z.max 0 (delay options)) by reflexivity.
    destruct IH as (IHc & IHs & IHd & IHd' & IHn & IHn').
    rewrite Hc2, Hs2, Hd2, Hn2 in *.
    rewrite (Z.max_r 0 (limit options - (r + 1))) in * by lia.
    rewrite (Z.max_r 0 (limit options - (r + 1) - 1)) in * by lia.
    rewrite (Z.max_r 0 (limit options - r)) by lia.
    rewrite (Z.max_r 0 (limit options - r - 1)) by lia.
    set (m := Z.max 0 (delay options)) in *.
    assert (Hm : 0 <= m) by (unfold m; lia).
    repeat split; nia.
  - intros r w w1 Hlt Hge Hp. cbn [snd].
    destruct (stageProbe_step _ _ _ _ Hp) as (Hc & Hs & Hd & Hn).
    repeat split; nia.
  - intros r w w1 e Hlt Hp IH.
    destruct (stageProbe_step _ _ _ _ Hp) as (Hc & Hs & Hd & Hn).
    destruct IH as (IHc & IHs & IHd & IHd' & IHn & IHn').
    set (m := Z.max 0 (delay options)) in *.
    assert (Hm : 0 <= m) by (unfold m; lia).
    repeat split; nia.
Qed.

(** When every one of the [maxAttempts] attempts returns false the loop
    gives up: the counter stands at [maxAttempts], and the world is the one
    the last call leaves, with no sleep after it. *)
Lemma retryLoop_all_false probe options (n : nat) :
  forall retries w,
    limit options = retries + Z.of_nat (S n) ->
    (forall i, (i <= n)%nat ->
       fst (probe (attemptWorld probe options i w)) = Returned false) ->
    retryLoop probe options retries w =
    (Returned (false, limit options), snd (probe (attemptWorld probe options n w))).
Proof.
  induction n as [| n IH]; intros retries w Hlim Hfail.
  - assert (H0 : fst (probe w) = Returned false) by (apply (Hfail 0%nat); lia).
    destruct (probe w) as [c w1] eqn:Hp. cbn in H0. subst c.
    rewrite (retryLoop_false_last probe options retries w w1); [| lia | lia | exact Hp].
    cbn. rewrite Hp. do 3 f_equal. lia.
  - assert (H0 : fst (probe w) = Returned false) by (apply (Hfail 0%nat); lia).
    destruct (probe w) as [c w1] eqn:Hp. cbn in H0. subst c.
    rewrite (retryLoop_false_backoff probe options retries w w1); [| lia | exact Hp].
    replace (snd (setTimeout (delay options) w1))
      with (afterFailedAttempt probe options w)
      by (unfold afterFailedAttempt; rewrite Hp; reflexivity).
    rewrite (IH (retries + 1) (afterFailedAttempt probe options w)).
    + rewrite attemptWorld_shift. reflexivity.
    + lia.
    + intros i Hi. rewrite attemptWorld_shift. apply Hfail. lia.
Qed.

(** X5. In the retry loop of either probe stage, when all of the
    [maxAttempts] attempts return false the loop gives up after exactly
    [maxAttempts] calls of the probe and [maxAttempts - 1] backoff sleeps
    (none after the last attempt), with the flag false and the counter at
    [maxAttempts]. *)
Theorem retry_gives_up_after_max_attempts (stage : Stage)
    (options : ValidationOptions) (w : World) :
  0 < maxAttempts (retryStrategy options) ->
  (forall i, Z.of_nat i < maxAttempts (retryStrategy options) ->
     fst (stageProbe stage (attemptWorld (stageProbe stage) options i w)) = Returned false) ->
  exists w',
    retryLoop (stageProbe stage) options 0 w =
    (Returned (false, maxAttempts (retryStrategy options)), w') /\
    Z.of_nat (probeCalls w') = Z.of_nat (probeCalls w) + maxAttempts (retryStrategy options) /\
    Z.of_nat (sleeps w') = Z.of_nat (sleeps w) + (maxAttempts (retryStrategy options) - 1) /\
    now w' =
      now w + (maxAttempts (retryStrategy options) - 1) *
              Z.max 0 (backoffDelay (retryStrategy options)).
Proof.
  intros Hpos Hfail.
  set (n := Z.to_nat (maxAttempts (retryStrategy options) - 1)).
  exists (snd (stageProbe stage (attemptWorld (stageProbe stage) options n w))).
  split.
  - apply (retryLoop_all_false (stageProbe stage) options n 0 w).
    + unfold limit. lia.
    + intros i Hi. apply Hfail. lia.
  - destruct (attemptWorld_counts stage options n w) as (Hc & Hs & Hn).
    destruct (stageProbe stage (attemptWorld (stageProbe stage) options n w))
      as [c w1] eqn:Hp.
    destruct (stageProbe_step _ _ _ _ Hp) as (Hc1 & Hs1 & _ & Hn1).
    assert (Hnz : Z.of_nat n = maxAttempts (retryStrategy options) - 1) by (unfold n; lia).
    cbn [snd]. unfold delay in Hn. rewrite Hc1, Hs1, Hn1, Hc, Hs, Hn, Hnz.
    clearbody n. repeat split; lia.
Qed.

Lemma retry_gives_up_after_max_attempts_witness :
  exists w',
    retryLoop (stageProbe (MX "example.org")) DEFAULT_OPTIONS 0 (steadyWorld 0) =
    (Returned (false, 3), w') /\
    Z.of_nat (probeCalls w') = 3 /\ Z.of_nat (sleeps w') = 2 /\ now w' = 4000.
Proof.
  apply (retry_gives_up_after_max_attempts (MX "example.org") DEFAULT_OPTIONS (steadyWorld 0)).
  - reflexivity.
  - intros [| [| [| i]]] Hi; try (vm_compute; reflexivity).
    exfalso. cbn in Hi. lia.
Defined.


(** Case analysis along the pipeline down to its return statements, with
    the outcome of each loop; the Retry Later branch is closed on the way. *)
Ltac walk_pipeline isEmail isFQDN address options w :=
  cbv [validateEmailWithRetry bind ret dateNow throw];
  change (nth_error (JsString.split (JsString.isChar "@") address) 1)
    with (domainOf address);
  let d := fresh "d" in
  let mx := fresh "mxExists" in let mxr := fresh "mxRetries" in
  let sm := fresh "smtpValid" in let smr := fresh "smtpRetries" in
  let w1 := fresh "w1" in let w2 := fresh "w2" in
  destruct (isEmail address) eqn:Hfmt; cbn [negb];
  [ destruct (domainOf address) as [d |] eqn:Hd;
    [ destruct (isFQDN d) eqn:Hfq; cbn [negb];
      [ destruct (retryLoop_outcome (checkMXRecords d) (default DEFAULT_OPTIONS options) 0 w)
          as (mx & mxr & w1 & Hmx & Hmxf & Hmxt);
        rewrite Hmx;
        destruct (isEnterpriseDomain d) eqn:Hcorp;
        destruct mx; cbn [negb andb];
        try (destruct (retryLoop_outcome (checkSMTP address) (default DEFAULT_OPTIONS options) 0 w1)
               as (sm & smr & w2 & Hsm & Hsmf & Hsmt);
             rewrite Hsm;
             destruct sm; cbn [negb andb];
             try (destruct (smr <? maxAttempts (retryStrategy (default DEFAULT_OPTIONS options)))
                    eqn:Hcmp;
                  [ exfalso; specialize (Hsmf eq_refl); apply Z.ltb_lt in Hcmp;
                    unfold limit in Hsmf; lia | ]))
      | ]
    | ]
  | ].

Section MorePipelineFacts.

Variable isEmail : string -> bool.
Variable isFQDN : string -> bool.

Local Abbreviation validate := (validateEmailWithRetry isEmail isFQDN).

(** X1. Whatever the address, the options and the world, a result the
    pipeline returns is well formed: it carries the address; its verdict is
    Valid or Do Not Contact, never Retry Later, and it has no [retryAfter];
    it is Valid exactly when the SMTP flag is set and exactly when it has no
    reason; each stage flag implies the flags of the stages before it;
    confidence is Low exactly when the domain flag is not set, and High
    otherwise; and only Valid results are marked corporate.  The pipeline
    throws only when the format check accepted an address without [@]. *)
Theorem result_is_well_formed (address : string)
    (options : option ValidationOptions) (w : World) :
  match fst (validate address options w) with
  | Returned r =>
      email r = address /\
      status r <> RetryLater /\
      retryAfter r = None /\
      (status r = Valid <-> smtp (details r) = true) /\
      (status r = Valid <-> reason r = None) /\
      (smtp (details r) = true -> mxRecords (details r) = true) /\
      (mxRecords (details r) = true -> domain (details r) = true) /\
      (domain (details r) = true -> format (details r) = true) /\
      (confidence r = Low <-> domain (details r) = false) /\
      (confidence r = High <-> domain (details r) = true) /\
      (corporate (details r) = true -> status r = Valid)
  | Threw _ => isEmail address = true /\ domainOf address = None
  end.
Proof.
  walk_pipeline isEmail isFQDN address options w; cbn;
    repeat split; intros; try discriminate; try reflexivity; try assumption.
Qed.

(** X2. The retry count of a result lies between 0 and [maxAttempts]: it
    is 0 when a check rejected the address, below [maxAttempts] in a Valid
    result, and [maxAttempts] itself (0 when that is negative) when a probe
    stage gave up.  [verificationSteps] holds one entry per passed check,
    plus the enterprise note, and the single entry "Format check failed"
    when the format check rejected the address. *)
Theorem retry_count_and_steps (address : string)
    (options : option ValidationOptions) (w : World) :
  match fst (validate address options w) with
  | Returned r =>
      0 <= retryCount (details r) <=
        Z.max 0 (maxAttempts (retryStrategy (default DEFAULT_OPTIONS options))) /\
      (domain (details r) = false -> retryCount (details r) = 0) /\
      (status r = Valid ->
       retryCount (details r) <=
         Z.max 0 (maxAttempts (retryStrategy (default DEFAULT_OPTIONS options)) - 1)) /\
      (status r = DoNotContact -> domain (details r) = true ->
       retryCount (details r) =
         Z.max 0 (maxAttempts (retryStrategy (default DEFAULT_OPTIONS options)))) /\
      (format (details r) = true ->
       List.length (verificationSteps (details r)) = passedChecks (details r)) /\
      (format (details r) = false ->
       verificationSteps (details r) = [ "Format check failed" ])
  | Threw _ => True
  end.
Proof.
  walk_pipeline isEmail isFQDN address options w; cbn; try exact I;
    try specialize (Hmxf eq_refl); try specialize (Hmxt eq_refl);
    try specialize (Hsmf eq_refl); try specialize (Hsmt eq_refl);
    try (pose proof (smtpLoop_corporate address d (default DEFAULT_OPTIONS options) w1 Hd Hcorp)
           as Hs;
         rewrite Hsm in Hs;
         destruct (0 <? limit (default DEFAULT_OPTIONS options)); inversion Hs; subst);
    try (pose proof (mxLoop_corporate d (default DEFAULT_OPTIONS options) w Hcorp) as Hm;
         rewrite Hmx in Hm;
         destruct (0 <? limit (default DEFAULT_OPTIONS options)); inversion Hm; subst);
    unfold limit in *;
    repeat split; intros; try lia; try discriminate; reflexivity.
Qed.

(** The MX loop never enters [checkSMTP]. *)
Lemma mxLoop_smtpCalls d options retries w :
  smtpCalls (snd (retryLoop (checkMXRecords d) options retries w)) = smtpCalls w.
Proof.
  apply (retryLoop_preserves (fun a b => smtpCalls b = smtpCalls a)).
  - reflexivity.
  - intros a b c Hab Hbc. congruence.
  - intros w0. unfold smtpCalls.
    change (checkMXRecords d w0) with (stageProbe (MX d) w0).
    rewrite stageProbe_count by reflexivity. cbn. lia.
  - intros w0. unfold smtpCalls. rewrite count_setTimeout. cbn. lia.
Qed.

(** X3. A non-corporate address that passes both checks and whose MX loop
    ends without a successful probe gets the terminal verdict Do Not Contact
    with confidence High and the reason "No MX records found"; the counter
    has reached [maxAttempts], and the transport stage is skipped:
    [checkSMTP] is not called. *)
Theorem mx_failure_is_terminal (address d : string)
    (options : option ValidationOptions) (w w1 : World) (mxRetries : Z) :
  isEmail address = true ->
  domainOf address = Some d ->
  isFQDN d = true ->
  isEnterpriseDomain d = false ->
  retryLoop (checkMXRecords d) (default DEFAULT_OPTIONS options) 0 w =
    (Returned (false, mxRetries), w1) ->
  validate address options w =
  (Returned
     {| email := address;
        status := DoNotContact;
        confidence := High;
        reason := Some "No MX records found";
        timestamp := now w1;
        retryAfter := None;
        details :=
          {| format := true; domain := true; disposable := false;
             mxRecords := false; smtp := false; spamTrap := false;
             corporate := false; blacklisted := false;
             retryCount := mxRetries;
             lastRetryTimestamp := None;
             verificationSteps := [ "Format check passed"; "Domain format valid" ] |} |},
   w1) /\
  maxAttempts (retryStrategy (default DEFAULT_OPTIONS options)) <= mxRetries /\
  smtpCalls w1 = smtpCalls w.
Proof.
  intros Hfmt Hd Hfq Hc Hmx. split; [| split].
  - cbv [validateEmailWithRetry bind ret dateNow throw].
    change (nth_error (JsString.split (JsString.isChar "@") address) 1)
      with (domainOf address).
    rewrite Hfmt, Hd, Hfq, Hc. cbn [negb]. rewrite Hmx. reflexivity.
  - destruct (retryLoop_outcome (checkMXRecords d) (default DEFAULT_OPTIONS options) 0 w)
      as (ok & r' & w' & Heq & Hf & _).
    rewrite Hmx in Heq. injection Heq as <- <- <-.
    specialize (Hf eq_refl). unfold limit in Hf. lia.
  - pose proof (mxLoop_smtpCalls d (default DEFAULT_OPTIONS options) 0 w) as Hs.
    rewrite Hmx in Hs. exact Hs.
Qed.

(** X4. An address that passes the format check but whose second piece
    around [@] is not a fully qualified domain name gets the terminal
    verdict Do Not Contact with confidence Low and the reason "Invalid
    domain format"; the format flag is set, one step is listed, and the
    world is left as it was: no probe is called. *)
Theorem domain_failure_is_terminal (address d : string)
    (options : option ValidationOptions) (w : World) :
  isEmail address = true ->
  domainOf address = Some d ->
  isFQDN d = false ->
  validate address options w =
  (Returned
     {| email := address;
        status := DoNotContact;
        confidence := Low;
        reason := Some "Invalid domain format";
        timestamp := now w;
        retryAfter := None;
        details :=
          {| format := true; domain := false; disposable := false;
             mxRecords := false; smtp := false; spamTrap := false;
             corporate := false; blacklisted := false; retryCount := 0;
             lastRetryTimestamp := None;
             verificationSteps := [ "Format check passed" ] |} |},
   w).
Proof.
  intros Hfmt Hd Hfq.
  cbv [validateEmailWithRetry bind ret dateNow throw].
  change (nth_error (JsString.split (JsString.isChar "@") address) 1)
    with (domainOf address).
  rewrite Hfmt, Hd, Hfq. reflexivity.
Qed.

(** X6. One run of the pipeline calls the probes at most [2 * maxAttempts]
    times, draws at most as many values from [Math.random], and takes at
    most [2 * (maxAttempts - 1)] backoff sleeps, so that it ends within
    [2 * (maxAttempts - 1) * backoffDelay] milliseconds of sleeping; the
    timestamp of the result is the clock at the end of the run. *)
Theorem pipeline_cost_is_bounded (address : string)
    (options : option ValidationOptions) (w : World) :
  let opts := default DEFAULT_OPTIONS options in
  let w' := snd (validate address options w) in
  let attempts := Z.max 0 (maxAttempts (retryStrategy opts)) in
  let pauses := Z.max 0 (maxAttempts (retryStrategy opts) - 1) in
  Z.of_nat (probeCalls w') <= Z.of_nat (probeCalls w) + 2 * attempts /\
  Z.of_nat (sleeps w') <= Z.of_nat (sleeps w) + 2 * pauses /\
  Z.of_nat (drawn w') <= Z.of_nat (drawn w) + 2 * attempts /\
  now w <= now w' <=
    now w + 2 * pauses * Z.max 0 (backoffDelay (retryStrategy opts)) /\
  match fst (validate address options w) with
  | Returned r => timestamp r = now w'
  | Threw _ => True
  end.
Proof.
  cbv zeta.
  walk_pipeline isEmail isFQDN address options w; cbn [fst snd timestamp];
    try (pose proof (stageLoop_cost (MX d) (default DEFAULT_OPTIONS options) 0 w) as Cmx;
         cbv zeta in Cmx; cbn [stageProbe] in Cmx; rewrite Hmx in Cmx; cbn [snd] in Cmx;
         destruct Cmx as (C1 & C2 & C3 & C4 & C5 & C6));
    try (pose proof (stageLoop_cost (SMTP address) (default DEFAULT_OPTIONS options) 0 w1) as Csm;
         cbv zeta in Csm; cbn [stageProbe] in Csm; rewrite Hsm in Csm; cbn [snd] in Csm;
         destruct Csm as (S1 & S2 & S3 & S4 & S5 & S6));
    unfold limit, delay in *;
    rewrite ?Z.sub_0_r in *;
    set (m := Z.max 0 (backoffDelay (retryStrategy (default DEFAULT_OPTIONS options)))) in *;
    set (a := Z.max 0 (maxAttempts (retryStrategy (default DEFAULT_OPTIONS options)))) in *;
    set (p := Z.max 0 (maxAttempts (retryStrategy (default DEFAULT_OPTIONS options)) - 1)) in *;
    assert (Ha : 0 <= a) by (subst a; lia);
    assert (Hp : 0 <= p) by (subst p; lia);
    assert (Hpm : 0 <= p * m) by (subst p m; apply Z.mul_nonneg_nonneg; lia);
    clearbody a p m;
    repeat split; try reflexivity; lia.
Qed.

End MorePipelineFacts.

(** ** The remaining paths, on concrete addresses *)

Lemma mx_failure_is_terminal_witness :
  exists r w',
    validateEmailWithRetry validator.isEmail validator.isFQDN
      "user@example.org" None (steadyWorld 0) = (Returned r, w') /\
    status r = DoNotContact /\
    reason r = Some "No MX records found" /\
    retryCount (details r) = 3 /\
    smtpCalls w' = 0%nat.
Proof.
  pose (w1 := snd (retryLoop (checkMXRecords "example.org") DEFAULT_OPTIONS 0 (steadyWorld 0))).
  destruct (mx_failure_is_terminal validator.isEmail validator.isFQDN
              "user@example.org" "example.org" None (steadyWorld 0) w1 3)
    as (Hrun & _ & Hcalls);
    [vm_compute; reflexivity | vm_compute; reflexivity | vm_compute; reflexivity
    | vm_compute; reflexivity | vm_compute; reflexivity |].
  eexists _, _. split; [exact Hrun |].
  split; [reflexivity |]. split; [reflexivity |]. split; [reflexivity | exact Hcalls].
Defined.

Lemma domain_failure_is_terminal_witness :
  exists r,
    validateEmailWithRetry validator.isEmail validator.isFQDN
      quotedAddress None (steadyWorld 1) = (Returned r, steadyWorld 1) /\
    status r = DoNotContact /\ confidence r = Low /\
    reason r = Some "Invalid domain format" /\
    format (details r) = true.
Proof.
  eexists. split.
  - apply (domain_failure_is_terminal validator.isEmail validator.isFQDN
             quotedAddress (String.append "b" (String "034"%char "")) None (steadyWorld 1));
      vm_compute; reflexivity.
  - repeat split; reflexivity.
Defined.

(** ** Progress reports and statistics of a batch *)

Lemma progressReports_logged e w :
  progressReports (logged e w) =
  (progressReports w ++ match e with EvOnProgress n => [n] | _ => [] end)%list.
Proof.
  unfold progressReports, logged. cbn [emit snd trace].
  rewrite flat_map_app. cbn [flat_map]. rewrite app_nil_r. reflexivity.
Qed.

Lemma stageProbe_progressReports stage w :
  progressReports (snd (stageProbe stage w)) = progressReports w.
Proof.
  assert (Hdraw : forall w0, progressReports (snd (mathRandom w0)) = progressReports w0).
  { intros w0. unfold progressReports. cbn [mathRandom snd trace].
    rewrite flat_map_app. cbn [flat_map]. rewrite app_nil_r. reflexivity. }
  destruct stage as [domain | email]; cbn [stageProbe].
  - destruct (has validDomains (JsString.toLowerCase domain) || isEnterpriseDomain domain) eqn:Hk.
    + rewrite (checkMXRecords_known _ _ Hk). cbn [snd].
      rewrite progressReports_logged. apply app_nil_r.
    + rewrite (checkMXRecords_unknown _ _ Hk). cbn [snd].
      rewrite Hdraw, progressReports_logged. apply app_nil_r.
  - destruct (domainOf email) as [domain |] eqn:Hd.
    + destruct (isEnterpriseDomain domain) eqn:Hc.
      * rewrite (checkSMTP_corporate _ _ _ Hd Hc). cbn [snd].
        rewrite progressReports_logged. apply app_nil_r.
      * rewrite (checkSMTP_ordinary _ _ _ Hd Hc). cbn [snd].
        rewrite Hdraw, progressReports_logged. apply app_nil_r.
    + destruct (checkSMTP_undefined email w Hd) as [e He]. rewrite He. cbn [snd].
      rewrite progressReports_logged. apply app_nil_r.
Qed.

Lemma stageLoop_progressReports stage options retries w :
  progressReports (snd (retryLoop (stageProbe stage) options retries w)) = progressReports w.
Proof.
  apply (retryLoop_preserves (fun a b => progressReports b = progressReports a)).
  - reflexivity.
  - intros a b c Hab Hbc. congruence.
  - apply stageProbe_progressReports.
  - intros w0. unfold progressReports. cbn [setTimeout snd trace].
    rewrite flat_map_app. cbn [flat_map]. rewrite app_nil_r. reflexivity.
Qed.

Lemma countFrom_app p a b :
  countFrom p (a + b) = (countFrom p a ++ countFrom (p + Z.of_nat a) b)%list.
Proof.
  revert p. induction a as [| a IH]; intros p.
  - cbn. rewrite Z.add_0_r. reflexivity.
  - cbn [Nat.add countFrom app]. rewrite IH. do 3 f_equal. lia.
Qed.

(** Results read off the chunks are results of the chunks. *)
Lemma in_completion_results {T} (perChunk : list (list T)) (completion : list nat) (r : T) :
  In r (flat_map (fun i => nth i perChunk []) completion) -> In r (concat perChunk).
Proof.
  intros Hin. apply in_flat_map in Hin as (i & _ & Hin).
  apply in_concat. exists (nth i perChunk []). split; [| exact Hin].
  destruct (Nat.lt_ge_cases i (List.length perChunk)) as [Hlt | Hge].
  - apply nth_In. exact Hlt.
  - rewrite nth_overflow in Hin by exact Hge. destruct Hin.
Qed.

(** Lists without a Retry Later verdict split into the Valid and the Do Not
    Contact results. *)
Lemma verdicts_partition (results : list EmailValidationResult) :
  Forall (fun r => status r <> RetryLater) results ->
  List.filter (isStatus RetryLater) results = [] /\
  (List.length (List.filter (isStatus Valid) results) +
   List.length (List.filter (isStatus DoNotContact) results))%nat = List.length results.
Proof.
  induction 1 as [| r results Hr _ (IHr & IHc)]; [split; reflexivity |].
  assert (Hcases : (isStatus Valid r = true /\ isStatus DoNotContact r = false) \/
                   (isStatus Valid r = false /\ isStatus DoNotContact r = true))
    by (unfold isStatus; destruct (status r); [left | congruence | right]; split; reflexivity).
  assert (Hretry : isStatus RetryLater r = false)
    by (unfold isStatus; destruct (status r); congruence).
  cbn [List.filter]. rewrite Hretry.
  destruct Hcases as [(-> & ->) | (-> & ->)]; cbn [List.length]; split; try assumption; lia.
Qed.

Section MoreBatchFacts.

Variable isEmail : string -> bool.
Variable isFQDN : string -> bool.

Local Abbreviation validate := (validateEmailWithRetry isEmail isFQDN).

Lemma validate_progressReports address options w :
  progressReports (snd (validate address options w)) = progressReports w.
Proof.
  walk_pipeline isEmail isFQDN address options w; cbn [snd]; try reflexivity.
  all: pose proof (stageLoop_progressReports (MX d) (default DEFAULT_OPTIONS options) 0 w) as H1;
    cbn [stageProbe] in H1; rewrite Hmx in H1; cbn [snd] in H1; try exact H1.
  all: pose proof (stageLoop_progressReports (SMTP address) (default DEFAULT_OPTIONS options) 0 w1)
      as H2;
    cbn [stageProbe] in H2; rewrite Hsm in H2; cbn [snd] in H2; congruence.
Qed.

(** What the summaries of a result list read from a result. *)
Lemma validate_summary address options w r w' :
  validate address options w = (Returned r, w') ->
  status r <> RetryLater /\
  mentionsTemporary r = false /\
  (corporate (details r) = true -> isStatus Valid r = true).
Proof.
  walk_pipeline isEmail isFQDN address options w; intros Hrun;
    first
      [ discriminate Hrun
      | injection Hrun as <- _; cbn [status details corporate];
        (split; [discriminate |]);
        (split; [unfold mentionsTemporary; cbn [reason]; vm_compute; reflexivity |]);
        intros Hc; first [discriminate Hc | reflexivity] ].
Qed.

Section WithValidator.

(** The format check accepts no address without [@]. *)
Hypothesis isEmail_has_at : forall address, isEmail address = true -> domainOf address <> None.

Variable options : ValidationOptions.

Lemma validateChunk_progress chunk :
  forall processed w,
    progressReports
      (snd (validateChunk isEmail isFQDN reportProgress options chunk processed w)) =
    (progressReports w ++ countFrom processed (List.length chunk))%list.
Proof using isEmail_has_at.
  induction chunk as [| address rest IH]; intros processed w.
  - cbn. rewrite app_nil_r. reflexivity.
  - cbn [validateChunk]. unfold bind, validateOne. unfold bind, ret.
    destruct (validate_returns isEmail isFQDN address (Some options) w
                (isEmail_has_at address)) as (r & w1 & Hr).
    pose proof (validate_progressReports address (Some options) w) as Hquiet.
    rewrite Hr in *. cbn [snd] in Hquiet.
    specialize (IH (processed + 1) (reportProgress (processed + 1) w1)).
    destruct (validateChunk isEmail isFQDN reportProgress options rest (processed + 1)
                (reportProgress (processed + 1) w1)) as [[[rs p'] | e] w2];
      cbn [snd] in *; rewrite IH;
      change (reportProgress (processed + 1) w1)
        with (logged (EvOnProgress (processed + 1)) w1);
      rewrite progressReports_logged, Hquiet, <- app_assoc; reflexivity.
Qed.

Lemma validateChunks_progress chunks :
  forall processed w,
    progressReports
      (snd (validateChunks isEmail isFQDN reportProgress options chunks processed w)) =
    (progressReports w ++ countFrom processed (List.length (concat chunks)))%list.
Proof using isEmail_has_at.
  induction chunks as [| chunk rest IH]; intros processed w.
  - cbn. rewrite app_nil_r. reflexivity.
  - cbn [validateChunks concat]. unfold bind, ret.
    destruct (validateChunk_returns isEmail isFQDN reportProgress options isEmail_has_at
                chunk processed w) as (rs & w1 & Hrs & _).
    pose proof (validateChunk_progress chunk processed w) as Hchunk.
    rewrite Hrs in *. cbn [snd] in Hchunk.
    specialize (IH (processed + Z.of_nat (List.length chunk)) w1).
    destruct (validateChunks isEmail isFQDN reportProgress options rest
                (processed + Z.of_nat (List.length chunk)) w1) as [[[others p'] | e] w2];
      cbn [snd] in *; rewrite IH, Hchunk, length_app, countFrom_app, app_assoc; reflexivity.
Qed.

End WithValidator.

(** The batch, unfolded: the chunks are validated one after the other, then
    the results are read in completion order. *)
Lemma validateEmailBatch_unfold emails onProgress options completion w :
  (forall address, isEmail address = true -> domainOf address <> None) ->
  exists perChunk processed w1,
    validateChunks isEmail isFQDN onProgress (default DEFAULT_OPTIONS options)
      (chunk emails CHUNK_SIZE) 0 w = (Returned (perChunk, processed), w1) /\
    Forall2 (Forall2 (producedFor isEmail isFQDN (default DEFAULT_OPTIONS options)))
      (chunk emails CHUNK_SIZE) perChunk /\
    validateEmailBatch isEmail isFQDN emails onProgress options completion w =
    let results := flat_map (fun i => nth i perChunk []) completion in
    if Z.of_nat (List.length results) =? 0
    then (Threw (Error "No results generated from validation"), w1)
    else (Returned results,
          logged (EvConsoleLog (Z.of_nat (List.length results))
                    (Z.of_nat (List.length (List.filter (isStatus Valid) results)))
                    (Z.of_nat (List.length (List.filter (isStatus RetryLater) results)))
                    (Z.of_nat (List.length (List.filter (isStatus DoNotContact) results))))
            w1).
Proof.
  intros Hat.
  destruct (validateChunks_returns isEmail isFQDN onProgress (default DEFAULT_OPTIONS options)
              Hat (chunk emails CHUNK_SIZE) 0 w) as (perChunk & processed & w1 & Hrun & Hall).
  exists perChunk, processed, w1. split; [exact Hrun |]. split; [exact Hall |].
  unfold validateEmailBatch, bind. rewrite Hrun. cbv zeta.
  destruct (Z.of_nat (List.length (flat_map (fun i => nth i perChunk []) completion)) =? 0);
    reflexivity.
Qed.

(** X7. The progress observer of a batch is called once per address, with
    1, 2, ..., n in this order, whatever the verdicts, the retries and the
    order in which the chunks complete. *)
Theorem progress_counts_every_address (emails : list string)
    (options : option ValidationOptions) (completion : list nat) (w : World) :
  (forall address, isEmail address = true -> domainOf address <> None) ->
  progressReports
    (snd (validateEmailBatch isEmail isFQDN emails reportProgress options completion w)) =
  (progressReports w ++ upTo (List.length emails))%list.
Proof.
  intros Hat.
  destruct (validateEmailBatch_unfold emails reportProgress options completion w Hat)
    as (perChunk & processed & w1 & Hrun & _ & Hbatch).
  pose proof (validateChunks_progress Hat (default DEFAULT_OPTIONS options)
                (chunk emails CHUNK_SIZE) 0 w) as Hprog.
  rewrite Hrun in Hprog. cbn [snd] in Hprog. rewrite chunk_concat in Hprog.
  rewrite Hbatch. cbv zeta.
  destruct (Z.of_nat (List.length (flat_map (fun i => nth i perChunk []) completion)) =? 0);
    cbn [snd]; [exact Hprog |].
  rewrite progressReports_logged, app_nil_r. exact Hprog.
Qed.

(** Every result of a batch was returned by the pipeline. *)
Lemma batch_results_summary options perChunk chunks completion :
  Forall2 (Forall2 (producedFor isEmail isFQDN options)) chunks perChunk ->
  Forall (fun r => status r <> RetryLater /\ mentionsTemporary r = false /\
                   (corporate (details r) = true -> isStatus Valid r = true))
    (flat_map (fun i => nth i perChunk []) completion).
Proof.
  intros Hall. apply List.Forall_forall. intros r Hin.
  apply in_completion_results in Hin.
  clear completion. induction Hall as [| chunk rs chunks perChunk Hrs _ IH]; [destruct Hin |].
  cbn [concat] in Hin. apply in_app_or in Hin as [Hin | Hin]; [| exact (IH Hin)].
  clear IH. induction Hrs as [| a r0 chunk rs (w0 & w0' & Hr) _ IH]; [destruct Hin |].
  destruct Hin as [<- | Hin]; [exact (validate_summary _ _ _ _ _ Hr) | exact (IH Hin)].
Qed.

(** The batch returns, for a non-empty list and a completion order that is
    a permutation of the chunk indices. *)
Lemma validateEmailBatch_returns emails onProgress options completion w :
  (forall address, isEmail address = true -> domainOf address <> None) ->
  emails <> [] ->
  Permutation completion (seq 0 (List.length (chunk emails CHUNK_SIZE))) ->
  exists results w1,
    validateEmailBatch isEmail isFQDN emails onProgress options completion w =
    (Returned results,
     logged (EvConsoleLog (Z.of_nat (List.length results))
               (Z.of_nat (List.length (List.filter (isStatus Valid) results)))
               (Z.of_nat (List.length (List.filter (isStatus RetryLater) results)))
               (Z.of_nat (List.length (List.filter (isStatus DoNotContact) results))))
       w1) /\
    List.length results = List.length emails /\
    Permutation (map email results) emails /\
    Forall (fun r => status r <> RetryLater /\ mentionsTemporary r = false /\
                     (corporate (details r) = true -> isStatus Valid r = true)) results.
Proof.
  intros Hat Hne Hperm.
  destruct (validateEmailBatch_unfold emails onProgress options completion w Hat)
    as (perChunk & processed & w1 & Hrun & Hall & Hbatch).
  cbv zeta in Hbatch.
  set (results := flat_map (fun i => nth i perChunk []) completion) in *.
  assert (Hlen : List.length perChunk = List.length (chunk emails CHUNK_SIZE))
    by (symmetry; eapply Forall2_length; exact Hall).
  assert (Hres : Permutation (map email results) (concat (chunk emails CHUNK_SIZE))).
  { rewrite <- (produced_chunk_emails _ _ _ _ _ Hall).
    apply Permutation_map, completion_order_permutes.
    rewrite Hlen. exact Hperm. }
  rewrite chunk_concat in Hres.
  assert (Hcount : List.length results = List.length emails).
  { rewrite <- (length_map email results). apply Permutation_length, Hres. }
  assert (Hpos : (Z.of_nat (List.length results) =? 0) = false).
  { apply Z.eqb_neq. destruct emails; [congruence | cbn in Hcount; lia]. }
  rewrite Hpos in Hbatch.
  exists results, w1. split; [exact Hbatch |]. split; [exact Hcount |].
  split; [exact Hres |]. exact (batch_results_summary _ _ _ _ Hall).
Qed.

(** X8. The statistics a batch logs when it returns add up: the total is
    the number of addresses, the Retry Later count is 0, and the Valid and
    Do Not Contact counts sum to the total. *)
Theorem logged_statistics_add_up (emails : list string)
    (onProgress : Z -> World -> World) (options : option ValidationOptions)
    (completion : list nat) (w : World) :
  (forall address, isEmail address = true -> domainOf address <> None) ->
  emails <> [] ->
  Permutation completion (seq 0 (List.length (chunk emails CHUNK_SIZE))) ->
  exists results w1 valid invalid,
    validateEmailBatch isEmail isFQDN emails onProgress options completion w =
    (Returned results,
     logged (EvConsoleLog (Z.of_nat (List.length emails)) valid 0 invalid) w1) /\
    valid + invalid = Z.of_nat (List.length emails) /\
    valid = Z.of_nat (List.length (List.filter (isStatus Valid) results)) /\
    invalid = Z.of_nat (List.length (List.filter (isStatus DoNotContact) results)).
Proof.
  intros Hat Hne Hperm.
  destruct (validateEmailBatch_returns emails onProgress options completion w Hat Hne Hperm)
    as (results & w1 & Hrun & Hlen & _ & Hsum).
  assert (Hnoretry : Forall (fun r => status r <> RetryLater) results)
    by (eapply List.Forall_impl; [| exact Hsum]; intros r (H & _); exact H).
  destruct (verdicts_partition results Hnoretry) as (Hretry & Hparts).
  rewrite Hretry, Hlen in Hrun. cbn [List.length] in Hrun.
  eexists results, w1, _, _. split; [exact Hrun |].
  split; [lia |]. split; reflexivity.
Qed.

(** X9. The statistics [onDrop] stores for the results of a batch: no
    address is counted as Retry Later or as a temporary failure, the Valid
    and invalid counts sum to the number of addresses, and the corporate
    addresses are among the Valid ones. *)
Theorem stored_statistics_add_up (emails : list string)
    (onProgress : Z -> World -> World) (options : option ValidationOptions)
    (completion : list nat) (w : World) (elapsed : Z) :
  (forall address, isEmail address = true -> domainOf address <> None) ->
  emails <> [] ->
  Permutation completion (seq 0 (List.length (chunk emails CHUNK_SIZE))) ->
  exists results w',
    validateEmailBatch isEmail isFQDN emails onProgress options completion w =
    (Returned results, w') /\
    let stats := onDropStats emails results elapsed in
    retryEmails stats = 0 /\
    temporaryFailuresCount stats = 0 /\
    validEmails stats + invalidEmails stats = totalEmails stats /\
    0 <= corporateEmailsCount stats <= validEmails stats.
Proof.
  intros Hat Hne Hperm.
  destruct (validateEmailBatch_returns emails onProgress options completion w Hat Hne Hperm)
    as (results & w1 & Hrun & Hlen & _ & Hsum).
  eexists results, _. split; [exact Hrun |]. cbv zeta. cbn.
  assert (Hnoretry : Forall (fun r => status r <> RetryLater) results)
    by (eapply List.Forall_impl; [| exact Hsum]; intros r (H & _); exact H).
  destruct (verdicts_partition results Hnoretry) as (Hretry & Hparts).
  rewrite Hretry.
  assert (Htemp : List.filter mentionsTemporary results = []).
  { clear - Hsum. induction Hsum as [| r results (_ & Ht & _) _ IH]; [reflexivity |].
    cbn [List.filter]. rewrite Ht. exact IH. }
  assert (Hcorp : (List.length (List.filter (fun r => corporate (details r)) results) <=
                   List.length (List.filter (isStatus Valid) results))%nat).
  { clear - Hsum. induction Hsum as [| r results (_ & _ & Hc) _ IH]; [reflexivity |].
    cbn [List.filter]. destruct (corporate (details r)).
    - rewrite (Hc eq_refl). cbn [List.length]. lia.
    - destruct (isStatus Valid r); cbn [List.length]; lia. }
  rewrite Htemp. cbn [List.length]. repeat split; lia.
Qed.

(** ** The upload handler *)

Lemma parseEmailFile_returned file emails :
  parseEmailFile file = Returned emails ->
  emails <> [] /\ Z.of_nat (List.length emails) <= MAX_EMAILS.
Proof.
  rewrite parseEmailFile_tokens. cbv zeta.
  pose proof (slice_max_emails_length (candidateTokens (text file))) as Hlen.
  destruct (Z.eqb_spec
              (Z.of_nat (List.length (JsArray.slice 0 MAX_EMAILS (candidateTokens (text file))))) 0)
    as [Hz | Hnz]; [discriminate |].
  intros Hrun. injection Hrun as <-. split; [| lia].
  intros Hnil. rewrite Hnil in Hnz. apply Hnz. reflexivity.
Qed.

(** X10. A file over 10 MB (10485760 bytes; a file of exactly that size
    passes), or of a type other than text/csv and text/plain, is refused
    before it is read: the matching message is stored, the size being
    checked first, the results on display stay, and nothing is validated. *)
Theorem rejected_file_is_not_processed (file : File) (completion : list nat)
    (state : AppState) (w : World) :
  (validateFileSize file = true <-> size file <= 10485760) /\
  (10485760 < size file ->
   onDrop isEmail isFQDN file completion state w =
   ({| results := results state; processing := processing state;
       error := Some "File size exceeds 10MB limit" |}, w)) /\
  (size file <= 10485760 -> type file <> "text/csv" -> type file <> "text/plain" ->
   onDrop isEmail isFQDN file completion state w =
   ({| results := results state; processing := processing state;
       error := Some "Only CSV and TXT files are supported" |}, w)).
Proof.
  assert (Hsize : validateFileSize file = true <-> size file <= 10485760).
  { unfold validateFileSize, MAX_FILE_SIZE. rewrite Z.leb_le. reflexivity. }
  split; [exact Hsize |]. split.
  - intros Hbig. unfold onDrop.
    destruct (validateFileSize file) eqn:Hs; [| reflexivity].
    pose proof (proj1 Hsize eq_refl). lia.
  - intros Hok Hcsv Htxt. unfold onDrop.
    rewrite (proj2 Hsize Hok). cbn [negb].
    unfold validateFileType.
    rewrite (proj2 (String.eqb_neq _ _) Hcsv), (proj2 (String.eqb_neq _ _) Htxt).
    reflexivity.
Qed.

(** X11. For a file that passes both file checks and from which the parser
    returns a list, [onDrop] stores one result per parsed address, between
    1 and 40000 of them, with the parsed addresses as their [email] fields
    up to order, none of them Retry Later, and no error: the error "No
    results generated from validation" cannot come out of an upload. *)
Theorem accepted_file_is_validated (file : File) (emails : list string)
    (completion : list nat) (state : AppState) (w : World) :
  (forall address, isEmail address = true -> domainOf address <> None) ->
  validateFileSize file = true ->
  validateFileType file = true ->
  parseEmailFile file = Returned emails ->
  Permutation completion (seq 0 (List.length (chunk emails CHUNK_SIZE))) ->
  exists validationResults w',
    onDrop isEmail isFQDN file completion state w =
    ({| results := validationResults; processing := false; error := None |}, w') /\
    List.length validationResults = List.length emails /\
    1 <= Z.of_nat (List.length validationResults) <= 40000 /\
    Permutation (map email validationResults) emails /\
    Forall (fun r => status r <> RetryLater) validationResults.
Proof.
  intros Hat Hsize Htype Hparse Hperm.
  destruct (parseEmailFile_returned file emails Hparse) as (Hne & Hmax).
  destruct (validateEmailBatch_returns emails reportProgress None completion w Hat Hne Hperm)
    as (validationResults & w1 & Hrun & Hlen & Hemails & Hsum).
  eexists validationResults, _. split.
  - unfold onDrop. rewrite Hsize, Htype, Hparse, Hrun. reflexivity.
  - split; [exact Hlen |]. split; [| split; [exact Hemails |]].
    + rewrite Hlen. unfold MAX_EMAILS in Hmax. destruct emails; [congruence |].
      cbn [List.length] in *. lia.
    + eapply List.Forall_impl; [| exact Hsum]. intros r (H & _). exact H.
Qed.

End MoreBatchFacts.

(** ** Chunks *)

Lemma slice_length {T} (i n : Z) (l : list T) :
  0 <= i -> 0 < n ->
  Z.of_nat (List.length (JsArray.slice i (i + n) l)) =
  Z.max 0 (Z.min (i + n) (Z.of_nat (List.length l)) - i).
Proof.
  intros Hi Hn. unfold JsArray.slice.
  destruct (Z.ltb_spec i 0) as [Hneg | _]; [lia |].
  destruct (Z.ltb_spec (i + n) 0) as [Hneg | _]; [lia |].
  rewrite length_firstn, length_skipn. lia.
Qed.

Lemma chunkFrom_shape {T} (array : list T) (size : positive) (i : Z) :
  0 <= i ->
  fullButLast (Z.pos size) (chunkFrom array size i) /\
  Z.of_nat (List.length (chunkFrom array size i)) =
  (if Z.of_nat (List.length array) - i <=? 0 then 0
   else (Z.of_nat (List.length array) - i + Z.pos size - 1) / Z.pos size).
Proof.
  remember (Z.to_nat (Z.of_nat (List.length array) - i)) as n eqn:Hn.
  revert i Hn. induction n as [n IH] using lt_wf_ind. intros i Hn Hi.
  rewrite chunkFrom_equation_1.
  destruct (Z_lt_dec i (Z.of_nat (List.length array))) as [Hlt | Hge]; cbn.
  - assert (Hm : (Z.to_nat (Z.of_nat (List.length array) - (i + Z.pos size)) < n)%nat) by lia.
    destruct (IH _ Hm (i + Z.pos size) eq_refl ltac:(lia)) as (IHshape & IHcount).
    pose proof (slice_length i (Z.pos size) array Hi ltac:(lia)) as Hslice.
    destruct (Z.leb_spec (Z.of_nat (List.length array) - i) 0) as [Hout | Hin0]; [lia |].
    destruct (Z_lt_dec (i + Z.pos size) (Z.of_nat (List.length array))) as [Hmore | Hlast].
    + destruct (Z.leb_spec (Z.of_nat (List.length array) - (i + Z.pos size)) 0) as [Hout | Hin1];
        [lia |].
      split.
      * destruct (chunkFrom array size (i + Z.pos size)) as [| c rest] eqn:Hrest.
        -- cbn [List.length] in IHcount.
           assert (0 < (Z.of_nat (List.length array) - (i + Z.pos size) + Z.pos size - 1)
                       / Z.pos size)
             by (apply Z.div_str_pos; lia).
           lia.
        -- split; [lia | exact IHshape].
      * rewrite Nat2Z.inj_succ, IHcount.
        replace (Z.of_nat (List.length array) - i + Z.pos size - 1)
          with ((Z.of_nat (List.length array) - (i + Z.pos size) + Z.pos size - 1)
                + 1 * Z.pos size) by lia.
        rewrite Z.div_add by lia. lia.
    + assert (Hnil : chunkFrom array size (i + Z.pos size) = []).
      { rewrite chunkFrom_equation_1.
        destruct (Z_lt_dec (i + Z.pos size) (Z.of_nat (List.length array))) as [Hmore | Hno];
          [lia | reflexivity]. }
      rewrite Hnil. cbn [fullButLast List.length]. split; [lia |].
      apply Z.div_unique with (r := Z.of_nat (List.length array) - i - 1); lia.
  - destruct (Z.leb_spec (Z.of_nat (List.length array) - i) 0) as [Hout | Hin]; [| lia].
    split; [exact I | reflexivity].
Qed.

(** X12. [chunk] cuts an array into consecutive pieces: put together again
    they give the array back; every piece but the last holds exactly [size]
    elements and the last between 1 and [size], so no piece is empty; and
    there are [ceil (length / size)] pieces, none for the empty array. *)
Theorem chunk_partitions_the_array {T} (array : list T) (size : positive) :
  concat (chunk array size) = array /\
  fullButLast (Z.pos size) (chunk array size) /\
  Z.of_nat (List.length (chunk array size)) =
    (Z.of_nat (List.length array) + Z.pos size - 1) / Z.pos size /\
  (chunk array size = [] <-> array = []).
Proof.
  destruct (chunkFrom_shape array size 0 ltac:(lia)) as (Hshape & Hcount).
  fold (chunk array size) in Hshape, Hcount. rewrite Z.sub_0_r in Hcount.
  assert (Hnum : Z.of_nat (List.length (chunk array size)) =
                 (Z.of_nat (List.length array) + Z.pos size - 1) / Z.pos size).
  { rewrite Hcount.
    destruct (Z.leb_spec (Z.of_nat (List.length array)) 0) as [Hz | Hpos]; [| reflexivity].
    symmetry. apply Z.div_small. lia. }
  split; [apply chunk_concat |]. split; [exact Hshape |]. split; [exact Hnum |].
  split.
  - intros Hnil. pose proof (chunk_concat array size) as Hc. rewrite Hnil in Hc.
    symmetry. exact Hc.
  - intros ->. reflexivity.
Qed.

(** ** What the parser returns *)

Lemma split_pieces_have_no_separator sep s :
  Forall (fun piece => allChars (fun c => negb (sep c)) piece = true) (JsString.split sep s).
Proof.
  induction s as [| c s IH]; cbn [JsString.split].
  - constructor; [reflexivity | constructor].
  - destruct (sep c) eqn:Hc.
    + constructor; [reflexivity | exact IH].
    + destruct (JsString.split sep s) as [| cur rest].
      * constructor; [cbn; rewrite Hc; reflexivity | constructor].
      * inversion IH as [| ? ? Hcur Hrest]; subst.
        constructor; [cbn; rewrite Hc, Hcur; reflexivity | exact Hrest].
Qed.

Lemma allChars_trimStart p s :
  allChars p s = true -> allChars p (JsString.trimStart s) = true.
Proof.
  induction s as [| c s IH]; [reflexivity |]. cbn [JsString.trimStart allChars].
  intros Hs. apply andb_prop in Hs as (Hc & Hs).
  destruct (JsString.isWhiteSpace c); [exact (IH Hs) |].
  cbn [allChars]. rewrite Hc, Hs. reflexivity.
Qed.

Lemma allChars_trimEnd p s :
  allChars p s = true -> allChars p (JsString.trimEnd s) = true.
Proof.
  induction s as [| c s IH]; [reflexivity |]. cbn [JsString.trimEnd allChars].
  intros Hs. apply andb_prop in Hs as (Hc & Hs). specialize (IH Hs).
  destruct (JsString.trimEnd s) as [| d t].
  - destruct (JsString.isWhiteSpace c); [reflexivity |]. cbn. rewrite Hc. reflexivity.
  - cbn [allChars] in *. rewrite Hc. exact IH.
Qed.

Lemma allChars_remove p cls s :
  allChars p s = true -> allChars p (JsString.remove cls s) = true.
Proof.
  induction s as [| c s IH]; [reflexivity |]. cbn [JsString.remove allChars].
  intros Hs. apply andb_prop in Hs as (Hc & Hs).
  destruct (cls c); [exact (IH Hs) |]. cbn [allChars]. rewrite Hc. exact (IH Hs).
Qed.

Lemma remove_leaves_none cls s :
  allChars (fun c => negb (cls c)) (JsString.remove cls s) = true.
Proof.
  induction s as [| c s IH]; [reflexivity |]. cbn [JsString.remove].
  destruct (cls c) eqn:Hc; [exact IH |]. cbn [allChars]. rewrite Hc. exact IH.
Qed.

Lemma remove_nothing cls s :
  allChars (fun c => negb (cls c)) s = true -> JsString.remove cls s = s.
Proof.
  induction s as [| c s IH]; [reflexivity |]. cbn [JsString.remove allChars].
  intros Hs. apply andb_prop in Hs as (Hc & Hs).
  apply negb_true_iff in Hc. rewrite Hc, (IH Hs). reflexivity.
Qed.

Lemma includes_at_cons c s :
  JsString.includes (String c s) "@" = Ascii.eqb "@" c || JsString.includes s "@".
Proof.
  cbn [JsString.includes JsString.startsWith].
  destruct s; cbn [JsString.startsWith]; rewrite andb_true_r; reflexivity.
Qed.

Lemma includes_at_remove s :
  JsString.includes s "@" = true ->
  JsString.includes (JsString.remove isQuote s) "@" = true.
Proof.
  induction s as [| c s IH]; [discriminate |].
  rewrite includes_at_cons. cbn [JsString.remove]. intros Hs.
  destruct (Ascii.eqb_spec "@"%char c) as [<- | Hneq].
  - change (isQuote "@") with false. cbv iota. rewrite includes_at_cons. reflexivity.
  - cbn [orb] in Hs. destruct (isQuote c); [exact (IH Hs) |].
    rewrite includes_at_cons, (IH Hs). apply orb_true_r.
Qed.

Lemma Forall_firstn {T} (P : T -> Prop) (n : nat) (l : list T) :
  Forall P l -> Forall P (firstn n l).
Proof.
  intros Hl. revert n. induction Hl as [| x l Hx _ IH]; intros [| n]; cbn; constructor;
    [exact Hx | apply IH].
Qed.

Lemma candidateTokens_are_candidates text :
  Forall (fun token =>
            JsString.includes token "@" = true /\
            allChars (fun c => negb (isNewlineOrComma c)) token = true /\
            allChars (fun c => negb (isQuote c)) token = true)
    (candidateTokens text).
Proof.
  unfold candidateTokens.
  pose proof (split_pieces_have_no_separator isNewlineOrComma text) as Hpieces.
  induction Hpieces as [| piece pieces Hpiece _ IH]; [constructor |].
  cbn [map List.filter].
  destruct (negb (String.eqb (JsString.trim piece) "") &&
            JsString.includes (JsString.trim piece) "@") eqn:Hkeep; [| exact IH].
  cbn [map]. constructor; [| exact IH].
  apply andb_prop in Hkeep as (_ & Hat).
  split; [exact (includes_at_remove _ Hat) |]. split; [| apply remove_leaves_none].
  apply allChars_remove. unfold JsString.trim.
  apply allChars_trimEnd, allChars_trimStart, Hpiece.
Qed.

(** X13. Every address [parseEmailFile] returns holds an [@] and holds no
    comma, no newline and no quote character; it returns between 1 and
    40000 of them. *)
Theorem parsed_addresses_are_candidates (file : File) (emails : list string) :
  parseEmailFile file = Returned emails ->
  1 <= Z.of_nat (List.length emails) <= 40000 /\
  Forall (fun address =>
            JsString.includes address "@" = true /\
            allChars (fun c => negb (isNewlineOrComma c)) address = true /\
            allChars (fun c => negb (isQuote c)) address = true)
    emails.
Proof.
  intros Hrun. destruct (parseEmailFile_returned file emails Hrun) as (Hne & Hmax).
  split.
  - unfold MAX_EMAILS in Hmax. destruct emails; [congruence | cbn [List.length] in *; lia].
  - rewrite parseEmailFile_tokens in Hrun. cbv zeta in Hrun.
    destruct (Z.of_nat (List.length (JsArray.slice 0 MAX_EMAILS (candidateTokens (text file)))) =? 0);
      [discriminate |].
    injection Hrun as <-.
    rewrite slice_from_zero by (unfold MAX_EMAILS; lia).
    apply Forall_firstn, candidateTokens_are_candidates.
Qed.

(** ** Copying the valid addresses and parsing them again *)

Lemma split_single sep a :
  allChars (fun c => negb (sep c)) a = true -> JsString.split sep a = [a].
Proof.
  induction a as [| c a IH]; [reflexivity |]. cbn [allChars JsString.split].
  intros Ha. apply andb_prop in Ha as (Hc & Ha). apply negb_true_iff in Hc.
  rewrite Hc, (IH Ha). reflexivity.
Qed.

Lemma split_append sep a c rest :
  allChars (fun c => negb (sep c)) a = true -> sep c = true ->
  JsString.split sep (String.append a (String c rest)) = a :: JsString.split sep rest.
Proof.
  intros Ha Hsep. induction a as [| d a IH].
  - change (String.append "" (String c rest)) with (String c rest).
    cbn [JsString.split]. rewrite Hsep. reflexivity.
  - change (String.append (String d a) (String c rest))
      with (String d (String.append a (String c rest))).
    cbn [JsString.split]. cbn [allChars] in Ha. apply andb_prop in Ha as (Hd & Ha). apply negb_true_iff in Hd.
    rewrite Hd, (IH Ha). reflexivity.
Qed.

Lemma split_join_lines (l : list string) :
  l <> [] ->
  Forall (fun a => allChars (fun c => negb (isNewlineOrComma c)) a = true) l ->
  JsString.split isNewlineOrComma (JsString.join (String "010"%char "") l) = l.
Proof.
  intros Hne Hl. induction Hl as [| a l Ha Hl IH]; [congruence |].
  destruct l as [| b l].
  - cbn [JsString.join]. apply split_single, Ha.
  - change (JsString.join (String "010"%char "") (a :: b :: l))
      with (String.append a (String "010"%char (JsString.join (String "010"%char "") (b :: l)))).
    rewrite split_append by (exact Ha || reflexivity).
    rewrite IH by discriminate. reflexivity.
Qed.

Lemma candidateTokens_of_clean_lines (l : list string) :
  l <> [] -> Forall clean l ->
  candidateTokens (JsString.join (String "010"%char "") l) = l.
Proof.
  intros Hne Hl. unfold candidateTokens. rewrite split_join_lines.
  - clear Hne. induction Hl as [| a l (Hat & _ & Hquote & Htrim) _ IH]; [reflexivity |].
    cbn [map List.filter]. rewrite Htrim.
    assert (Hnonempty : String.eqb a "" = false).
    { destruct a; [discriminate Hat | reflexivity]. }
    rewrite Hnonempty, Hat. cbn [negb andb map].
    rewrite (remove_nothing _ _ Hquote). f_equal. exact IH.
  - exact Hne.
  - eapply List.Forall_impl; [| exact Hl]. intros a (_ & Hsep & _). exact Hsep.
Qed.

(** X14. What [copyValidEmails] puts on the clipboard parses back to the
    valid addresses, in their order: when the addresses with the verdict
    Valid are clean (an [@], no comma, newline or quote, no white space at
    the ends) and there is at least one, [parseEmailFile] on a file with
    that text returns them, up to the first 40000. *)
Theorem copied_addresses_parse_back (results : list EmailValidationResult) (file : File) :
  let valid := map email (List.filter (isStatus Valid) results) in
  valid <> [] ->
  Forall clean valid ->
  text file = copyValidEmails results ->
  parseEmailFile file = Returned (firstn (Z.to_nat MAX_EMAILS) valid).
Proof.
  intros valid Hne Hclean Htext.
  rewrite parseEmailFile_tokens, Htext. unfold copyValidEmails. fold valid.
  rewrite (candidateTokens_of_clean_lines valid Hne Hclean). cbv zeta.
  rewrite slice_from_zero by (unfold MAX_EMAILS; lia).
  assert (Hcut : firstn (Z.to_nat (Z.min (Z.of_nat (List.length valid)) MAX_EMAILS)) valid =
                 firstn (Z.to_nat MAX_EMAILS) valid).
  { destruct (Z.le_gt_cases (Z.of_nat (List.length valid)) MAX_EMAILS) as [Hle | Hgt].
    - rewrite Z.min_l by exact Hle. rewrite Nat2Z.id.
      rewrite !List.firstn_all2; [reflexivity | lia | lia].
    - rewrite Z.min_r by lia. reflexivity. }
  rewrite Hcut.
  destruct (Z.eqb_spec (Z.of_nat (List.length (firstn (Z.to_nat MAX_EMAILS) valid))) 0)
    as [Hz | _]; [| reflexivity].
  exfalso. apply Hne. destruct valid as [| a l]; [reflexivity |].
  unfold MAX_EMAILS in Hz. change (Z.to_nat 40000) with (S (Z.to_nat 39999)) in Hz.
  cbn [firstn List.length] in Hz. lia.
Qed.

(** ** The reputation classifier and the pattern detector *)

Lemma append_nil_l (s : string) : String.append "" s = s.
Proof. reflexivity. Qed.

Lemma append_cons (c : ascii) (a b : string) :
  String.append (String c a) b = String c (String.append a b).
Proof. reflexivity. Qed.

Lemma append_nil_r (s : string) : String.append s "" = s.
Proof.
  induction s as [| c s IH]; [reflexivity |]. rewrite append_cons, IH. reflexivity.
Qed.

Lemma append_assoc (a b c : string) :
  String.append (String.append a b) c = String.append a (String.append b c).
Proof.
  induction a as [| d a IH]; [reflexivity |]. rewrite !append_cons, IH. reflexivity.
Qed.

Lemma startsWith_nil s : JsString.startsWith s "" = true.
Proof. destruct s; reflexivity. Qed.

Lemma startsWith_spec (p s : string) :
  JsString.startsWith s p = true <-> exists rest, s = String.append p rest.
Proof.
  revert s. induction p as [| c p IH]; intros s.
  - rewrite startsWith_nil. split; [intros _; exists s; reflexivity | reflexivity].
  - destruct s as [| d s]; cbn [JsString.startsWith].
    + split; [discriminate | intros (rest & Hrest); discriminate Hrest].
    + rewrite andb_true_iff, IH. split.
      * intros (Hc & rest & ->). apply Ascii.eqb_eq in Hc as ->.
        exists rest. reflexivity.
      * intros (rest & Hrest). rewrite append_cons in Hrest.
        injection Hrest as -> ->. split; [apply Ascii.eqb_refl | exists rest; reflexivity].
Qed.

Lemma includes_spec (sub s : string) :
  JsString.includes s sub = true <->
  exists pre post, s = String.append pre (String.append sub post).
Proof.
  induction s as [| c s IH].
  - cbn [JsString.includes]. rewrite orb_false_r, startsWith_spec. split.
    + intros (rest & Hrest). exists "", rest. exact Hrest.
    + intros (pre & post & Hs). destruct pre as [| d pre]; [| discriminate Hs].
      exists post. exact Hs.
  - cbn [JsString.includes]. rewrite orb_true_iff, startsWith_spec, IH. split.
    + intros [(rest & Hrest) | (pre & post & Hs)].
      * exists "", rest. exact Hrest.
      * exists (String c pre), post. rewrite append_cons, Hs. reflexivity.
    + intros (pre & post & Hs). destruct pre as [| d pre].
      * left. exists post. exact Hs.
      * right. rewrite append_cons in Hs. injection Hs as _ Hs.
        exists pre, post. exact Hs.
Qed.

Lemma reverseOnto_spec (s acc : string) :
  JsString.reverseOnto acc s = String.append (JsString.reverse s) acc.
Proof.
  unfold JsString.reverse. revert acc.
  induction s as [| c s IH]; intros acc; cbn [JsString.reverseOnto]; [reflexivity |].
  rewrite (IH (String c acc)), (IH (String c "")), append_assoc. reflexivity.
Qed.

Lemma reverse_cons (c : ascii) (s : string) :
  JsString.reverse (String c s) = String.append (JsString.reverse s) (String c "").
Proof. unfold JsString.reverse at 1. cbn [JsString.reverseOnto]. apply reverseOnto_spec. Qed.

Lemma reverse_append (a b : string) :
  JsString.reverse (String.append a b) =
  String.append (JsString.reverse b) (JsString.reverse a).
Proof.
  induction a as [| c a IH].
  - rewrite append_nil_l. change (JsString.reverse "") with EmptyString.
    rewrite append_nil_r. reflexivity.
  - rewrite append_cons, !reverse_cons, IH, append_assoc. reflexivity.
Qed.

Lemma reverse_involutive (s : string) : JsString.reverse (JsString.reverse s) = s.
Proof.
  induction s as [| c s IH]; [reflexivity |].
  rewrite reverse_cons, reverse_append, IH. reflexivity.
Qed.

Lemma endsWith_spec (suffix s : string) :
  JsString.endsWith s suffix = true <-> exists pre, s = String.append pre suffix.
Proof.
  unfold JsString.endsWith. rewrite startsWith_spec. split.
  - intros (rest & Hrest). exists (JsString.reverse rest).
    rewrite <- (reverse_involutive s), Hrest, reverse_append, reverse_involutive.
    reflexivity.
  - intros (pre & ->). exists (JsString.reverse pre). apply reverse_append.
Qed.

Lemma lowerChar_idempotent (c : ascii) :
  JsString.lowerChar (JsString.lowerChar c) = JsString.lowerChar c.
Proof. destruct c as [[] [] [] [] [] [] [] []]; vm_compute; reflexivity. Qed.

Lemma toLowerCase_idempotent (s : string) :
  JsString.toLowerCase (JsString.toLowerCase s) = JsString.toLowerCase s.
Proof.
  induction s as [| c s IH]; [reflexivity |].
  cbn [JsString.toLowerCase]. rewrite lowerChar_idempotent, IH. reflexivity.
Qed.

(** X15. [isEnterpriseDomain] accepts a domain exactly when, put in lower
    case, it is one of the twenty listed company domains (the whole
    domain, not a subdomain of one) or ends with a dot followed by one of
    the eleven trusted suffixes; the letter case of the domain is of no
    account. *)
Theorem enterprise_domains_characterised (domain : string) :
  (isEnterpriseDomain domain = true <->
   JsString.toLowerCase domain ∈ ENTERPRISE_DOMAINS \/
   exists tld sub,
     In tld TRUSTED_TLDS /\
     JsString.toLowerCase domain = String.append sub (String.append "." tld)) /\
  isEnterpriseDomain (JsString.toLowerCase domain) = isEnterpriseDomain domain.
Proof.
  split.
  - unfold isEnterpriseDomain, has.
    rewrite orb_true_iff, bool_decide_eq_true, existsb_exists.
    apply or_iff_compat_l. split.
    + intros (tld & Hin & Hends). apply endsWith_spec in Hends as (sub & Hsub).
      exists tld, sub. split; [exact Hin | exact Hsub].
    + intros (tld & sub & Hin & Hsub). exists tld. split; [exact Hin |].
      apply endsWith_spec. exists sub. exact Hsub.
  - unfold isEnterpriseDomain. rewrite toLowerCase_idempotent. reflexivity.
Qed.

Lemma afterAlnumRun_spec (s : string) (n : nat) :
  exists run rest,
    s = String.append run rest /\
    allChars JsString.isAlnum run = true /\
    afterAlnumRun s n = ((n + String.length run)%nat, rest) /\
    (forall c rest', rest = String c rest' -> JsString.isAlnum c = false).
Proof.
  revert n. induction s as [| c s IH]; intros n.
  - exists "", "". cbn [afterAlnumRun String.length allChars].
    rewrite Nat.add_0_r. repeat split. intros c rest' Hrest. discriminate Hrest.
  - cbn [afterAlnumRun]. destruct (JsString.isAlnum c) eqn:Hc.
    + destruct (IH (S n)) as (run & rest & -> & Hrun & Hafter & Hstop).
      exists (String c run), rest. cbn [allChars String.length].
      rewrite Hc, Hrun, Hafter, Nat.add_succ_r. repeat split. exact Hstop.
    + exists "", (String c s). cbn [String.length allChars].
      rewrite Nat.add_0_r. repeat split.
      intros d rest' Hrest. injection Hrest as <- _. exact Hc.
Qed.

Lemma afterAlnumRun_local (local rest : string) (n : nat) :
  allChars JsString.isAlnum local = true ->
  afterAlnumRun (String.append local (String "@" rest)) n =
  ((n + String.length local)%nat, String "@" rest).
Proof.
  revert n. induction local as [| c local IH]; intros n Hlocal.
  - rewrite append_nil_l. cbn [afterAlnumRun String.length].
    change (JsString.isAlnum "@") with false. cbv iota. rewrite Nat.add_0_r. reflexivity.
  - cbn [allChars] in Hlocal. apply andb_prop in Hlocal as (Hc & Hlocal).
    rewrite append_cons. cbn [afterAlnumRun String.length].
    rewrite Hc, (IH (S n) Hlocal), Nat.add_succ_r. reflexivity.
Qed.

Lemma longRandomPattern_spec (email : string) :
  longRandomPattern email = true <->
  exists local rest,
    email = String.append local (String "@" rest) /\
    allChars JsString.isAlnum local = true /\
    (20 <= String.length local)%nat.
Proof.
  unfold longRandomPattern. split.
  - destruct (afterAlnumRun_spec email 0) as (run & rest & Hemail & Hrun & -> & _).
    rewrite andb_true_iff, Nat.leb_le, startsWith_spec, Nat.add_0_l.
    intros (Hlen & tail & ->). exists run, tail.
    split; [exact Hemail |]. split; [exact Hrun | exact Hlen].
  - intros (local & rest & -> & Hlocal & Hlen).
    rewrite (afterAlnumRun_local local rest 0 Hlocal), Nat.add_0_l.
    rewrite andb_true_iff, Nat.leb_le, startsWith_spec.
    split; [exact Hlen | exists rest; reflexivity].
Qed.

(** X16. [detectSpamTrapPattern] answers true exactly for an address that,
    letter case apart, starts with abuse@, postmaster@, spam@ or noreply@,
    or starts with twenty or more letters and digits followed by [@], or
    holds spam, trap or honeypot anywhere, the domain included. *)
Theorem detector_patterns_characterised (email : string) (w : World) :
  fst (detectSpamTrapPattern email w) = Returned true <->
  (exists role rest,
      In role ["abuse"; "postmaster"; "spam"; "noreply"] /\
      JsString.toLowerCase email = String.append role (String "@" rest)) \/
  (exists local rest,
      email = String.append local (String "@" rest) /\
      allChars JsString.isAlnum local = true /\
      (20 <= String.length local)%nat) \/
  (exists word pre post,
      In word ["spam"; "trap"; "honeypot"] /\
      JsString.toLowerCase email = String.append pre (String.append word post)).
Proof.
  assert (Hrun : fst (detectSpamTrapPattern email w) =
                 Returned (roleAccountPattern email || longRandomPattern email ||
                           trapWordPattern email)) by reflexivity.
  rewrite Hrun. clear Hrun.
  assert (Hret : forall b : bool, @Returned bool b = Returned true <-> b = true).
  { intros b. split; [intros Hb; injection Hb as ->; reflexivity | intros ->; reflexivity]. }
  rewrite Hret, !orb_true_iff.
  assert (Hrole : roleAccountPattern email = true <->
                  exists role rest,
                    In role ["abuse"; "postmaster"; "spam"; "noreply"] /\
                    JsString.toLowerCase email = String.append role (String "@" rest)).
  { unfold roleAccountPattern. rewrite existsb_exists. split.
    - intros (role & Hin & Hstart). apply startsWith_spec in Hstart as (rest & Hrest).
      exists role, rest. split; [exact Hin |].
      rewrite Hrest, append_assoc. reflexivity.
    - intros (role & rest & Hin & Hlower). exists role. split; [exact Hin |].
      apply startsWith_spec. exists rest. rewrite Hlower, append_assoc. reflexivity. }
  assert (Hword : trapWordPattern email = true <->
                  exists word pre post,
                    In word ["spam"; "trap"; "honeypot"] /\
                    JsString.toLowerCase email =
                    String.append pre (String.append word post)).
  { unfold trapWordPattern. rewrite existsb_exists. split.
    - intros (word & Hin & Hinc). apply includes_spec in Hinc as (pre & post & Hs).
      exists word, pre, post. split; [exact Hin | exact Hs].
    - intros (word & pre & post & Hin & Hs). exists word. split; [exact Hin |].
      apply includes_spec. exists pre, post. exact Hs. }
  rewrite Hrole, Hword, longRandomPattern_spec. tauto.
Qed.

(** ** The domain the probes look at *)

Lemma split_is_not_empty sep s : JsString.split sep s <> [].
Proof.
  destruct s as [| c s]; cbn [JsString.split]; [discriminate |].
  destruct (sep c); [discriminate |]. destruct (JsString.split sep s); discriminate.
Qed.

Lemma domainOf_undefined (email : string) :
  domainOf email = None <-> JsString.includes email "@" = false.
Proof.
  unfold domainOf. induction email as [| c email IH]; [split; reflexivity |].
  rewrite includes_at_cons. cbn [JsString.split]. unfold JsString.isChar at 1.
  destruct (Ascii.eqb "@" c).
  - pose proof (split_is_not_empty (JsString.isChar "@") email) as Hne.
    destruct (JsString.split (JsString.isChar "@") email) as [| piece pieces];
      [congruence |].
    cbn [nth_error orb]. split; discriminate.
  - cbn [orb]. rewrite <- IH.
    pose proof (split_is_not_empty (JsString.isChar "@") email) as Hne.
    destruct (JsString.split (JsString.isChar "@") email) as [| piece pieces];
      [congruence |].
    cbn [nth_error]. reflexivity.
Qed.

(** X17. [checkSMTP] throws a TypeError exactly for an address without an
    [@] (there is then no second piece to put in lower case), and draws no
    random number before it does; on every other address it returns.
    [checkMXRecords] returns on every domain. *)
Theorem smtp_probe_throws_without_at (email : string) (w : World) :
  (JsString.includes email "@" = false <->
   exists message, fst (checkSMTP email w) = Threw (TypeError message)) /\
  (JsString.includes email "@" = true <->
   exists answer, fst (checkSMTP email w) = Returned answer) /\
  (JsString.includes email "@" = false -> drawn (snd (checkSMTP email w)) = drawn w) /\
  (forall domain, exists answer, fst (checkMXRecords domain w) = Returned answer).
Proof.
  assert (Hcases :
            (JsString.includes email "@" = false /\
             (exists message, fst (checkSMTP email w) = Threw (TypeError message)) /\
             drawn (snd (checkSMTP email w)) = drawn w) \/
            (JsString.includes email "@" = true /\
             exists answer, fst (checkSMTP email w) = Returned answer)).
  { destruct (domainOf email) as [domain |] eqn:Hd.
    - right. split.
      + destruct (JsString.includes email "@") eqn:Hat; [reflexivity |].
        apply domainOf_undefined in Hat. congruence.
      + destruct (isEnterpriseDomain domain) eqn:Hc.
        * rewrite (checkSMTP_corporate _ _ _ Hd Hc). eexists. reflexivity.
        * rewrite (checkSMTP_ordinary _ _ _ Hd Hc). eexists. reflexivity.
    - left. split; [apply domainOf_undefined, Hd |].
      unfold domainOf in Hd. cbv [checkSMTP bind emit throw fst snd]. rewrite Hd.
      split; [eexists; reflexivity | reflexivity]. }
  split; [split | split; [split | split]].
  - intros Hno. destruct Hcases as [(_ & Hthrow & _) | (Hat & _)]; [exact Hthrow | congruence].
  - intros (message & Hthrow).
    destruct Hcases as [(Hat & _) | (_ & answer & Hret)]; [exact Hat | congruence].
  - intros Hyes. destruct Hcases as [(Hat & _) | (_ & Hret)]; [congruence | exact Hret].
  - intros (answer & Hret).
    destruct Hcases as [(_ & (message & Hthrow) & _) | (Hat & _)]; [congruence | exact Hat].
  - intros Hno. destruct Hcases as [(_ & _ & Hdrawn) | (Hat & _)]; [exact Hdrawn | congruence].
  - intros domain.
    destruct (has validDomains (JsString.toLowerCase domain) || isEnterpriseDomain domain)
      eqn:Hk.
    + rewrite (checkMXRecords_known _ _ Hk). eexists. reflexivity.
    + rewrite (checkMXRecords_unknown _ _ Hk). eexists. reflexivity.
Qed.

(** X18. The domain the pipeline and [checkSMTP] take from an address is the
    text between its first and its second [@]: the whole rest when there is
    one [@], and nothing of what follows a second one. *)
Theorem domain_is_the_second_piece (local d tail : string) :
  allChars (fun c => negb (JsString.isChar "@" c)) local = true ->
  allChars (fun c => negb (JsString.isChar "@" c)) d = true ->
  domainOf (String.append local (String "@" d)) = Some d /\
  domainOf (String.append local (String "@" (String.append d (String "@" tail)))) = Some d.
Proof.
  intros Hlocal Hd. unfold domainOf. split.
  - rewrite split_append by (exact Hlocal || reflexivity).
    rewrite (split_single _ _ Hd). reflexivity.
  - rewrite split_append by (exact Hlocal || reflexivity).
    rewrite split_append by (exact Hd || reflexivity). reflexivity.
Qed.

Lemma domain_is_the_second_piece_witness :
  domainOf "user@example.org" = Some "example.org" /\
  domainOf "user@example.org@mit.edu" = Some "example.org".
Proof.
  apply (domain_is_the_second_piece "user" "example.org" "mit.edu"); reflexivity.
Defined.

(** ** The properties above, on concrete inputs *)

Lemma progress_counts_every_address_witness :
  progressReports
    (snd (validateEmailBatch validator.isEmail validator.isFQDN
            [ "a@gmail.com"; "no-at-sign"; "b@gmail.com" ]
            reportProgress None [0%nat] (steadyWorld 1))) = [1; 2; 3].
Proof.
  exact (progress_counts_every_address validator.isEmail validator.isFQDN
           [ "a@gmail.com"; "no-at-sign"; "b@gmail.com" ] None [0%nat] (steadyWorld 1)
           validator_isEmail_has_at).
Defined.

Lemma logged_statistics_add_up_witness :
  exists results w1 valid invalid,
    validateEmailBatch validator.isEmail validator.isFQDN
      [ "a@gmail.com"; "no-at-sign"; "b@gmail.com" ]
      reportProgress None [0%nat] (steadyWorld 1) =
    (Returned results, logged (EvConsoleLog 3 valid 0 invalid) w1) /\
    valid + invalid = 3 /\
    valid = Z.of_nat (List.length (List.filter (isStatus Valid) results)) /\
    invalid = Z.of_nat (List.length (List.filter (isStatus DoNotContact) results)).
Proof.
  apply (logged_statistics_add_up validator.isEmail validator.isFQDN
           [ "a@gmail.com"; "no-at-sign"; "b@gmail.com" ]
           reportProgress None [0%nat] (steadyWorld 1) validator_isEmail_has_at).
  - discriminate.
  - apply Permutation_refl.
Defined.

Lemma stored_statistics_add_up_witness :
  exists results w',
    validateEmailBatch validator.isEmail validator.isFQDN
      [ "a@gmail.com"; "no-at-sign"; "b@gmail.com" ]
      reportProgress None [0%nat] (steadyWorld 1) = (Returned results, w') /\
    retryEmails (onDropStats [ "a@gmail.com"; "no-at-sign"; "b@gmail.com" ] results 25) = 0 /\
    temporaryFailuresCount
      (onDropStats [ "a@gmail.com"; "no-at-sign"; "b@gmail.com" ] results 25) = 0 /\
    validEmails (onDropStats [ "a@gmail.com"; "no-at-sign"; "b@gmail.com" ] results 25) +
    invalidEmails (onDropStats [ "a@gmail.com"; "no-at-sign"; "b@gmail.com" ] results 25) =
    totalEmails (onDropStats [ "a@gmail.com"; "no-at-sign"; "b@gmail.com" ] results 25) /\
    0 <= corporateEmailsCount
           (onDropStats [ "a@gmail.com"; "no-at-sign"; "b@gmail.com" ] results 25) <=
      validEmails (onDropStats [ "a@gmail.com"; "no-at-sign"; "b@gmail.com" ] results 25).
Proof.
  apply (stored_statistics_add_up validator.isEmail validator.isFQDN
           [ "a@gmail.com"; "no-at-sign"; "b@gmail.com" ]
           reportProgress None [0%nat] (steadyWorld 1) 25 validator_isEmail_has_at).
  - discriminate.
  - apply Permutation_refl.
Defined.

Lemma rejected_file_is_not_processed_witness :
  onDrop validator.isEmail validator.isFQDN
    {| size := 10485761; type := "text/csv"; text := "a@gmail.com" |}
    [0%nat] idle (steadyWorld 1) =
  ({| results := []; processing := false;
      error := Some "File size exceeds 10MB limit" |}, steadyWorld 1) /\
  onDrop validator.isEmail validator.isFQDN
    {| size := 10485760; type := "application/pdf"; text := "a@gmail.com" |}
    [0%nat] idle (steadyWorld 1) =
  ({| results := []; processing := false;
      error := Some "Only CSV and TXT files are supported" |}, steadyWorld 1).
Proof.
  split.
  - apply (proj1 (proj2 (rejected_file_is_not_processed validator.isEmail validator.isFQDN
                           {| size := 10485761; type := "text/csv"; text := "a@gmail.com" |}
                           [0%nat] idle (steadyWorld 1)))).
    cbn [size]. lia.
  - apply (proj2 (proj2 (rejected_file_is_not_processed validator.isEmail validator.isFQDN
                           {| size := 10485760; type := "application/pdf";
                              text := "a@gmail.com" |}
                           [0%nat] idle (steadyWorld 1)))).
    + cbn [size]. lia.
    + discriminate.
    + discriminate.
Defined.

Lemma accepted_file_is_validated_witness :
  exists validationResults w',
    onDrop validator.isEmail validator.isFQDN
      (csvFile "a@gmail.com, no-at-sign
'b@gmail.com'") [0%nat] idle (steadyWorld 1) =
    ({| results := validationResults; processing := false; error := None |}, w') /\
    List.length validationResults = 2%nat /\
    1 <= Z.of_nat (List.length validationResults) <= 40000 /\
    Permutation (map email validationResults) [ "a@gmail.com"; "b@gmail.com" ] /\
    Forall (fun r => status r <> RetryLater) validationResults.
Proof.
  apply (accepted_file_is_validated validator.isEmail validator.isFQDN
           (csvFile "a@gmail.com, no-at-sign
'b@gmail.com'") [ "a@gmail.com"; "b@gmail.com" ] [0%nat] idle (steadyWorld 1)
           validator_isEmail_has_at).
  - reflexivity.
  - reflexivity.
  - vm_compute. reflexivity.
  - apply Permutation_refl.
Defined.

Lemma parsed_addresses_are_candidates_witness :
  1 <= Z.of_nat (List.length [ "a@gmail.com"; "b c@gmail.com" ]) <= 40000 /\
  Forall (fun address =>
            JsString.includes address "@" = true /\
            allChars (fun c => negb (isNewlineOrComma c)) address = true /\
            allChars (fun c => negb (isQuote c)) address = true)
    [ "a@gmail.com"; "b c@gmail.com" ].
Proof.
  apply (parsed_addresses_are_candidates (csvFile "a@gmail.com, no-at-sign
'b c@gmail.com'")).
  vm_compute. reflexivity.
Defined.

Lemma copied_addresses_parse_back_witness :
  parseEmailFile
    {| size := 23; type := "text/plain"; text := copyValidEmails checkedSample |} =
  Returned [ "a@gmail.com"; "b@gmail.com" ].
Proof.
  apply (copied_addresses_parse_back checkedSample
           {| size := 23; type := "text/plain"; text := copyValidEmails checkedSample |}).
  - vm_compute. discriminate.
  - replace (map email (List.filter (isStatus Valid) checkedSample))
      with [ "a@gmail.com"; "b@gmail.com" ] by (vm_compute; reflexivity).
    repeat (apply List.Forall_cons; [vm_compute; repeat split |]). apply List.Forall_nil.
  - reflexivity.
Defined.

(** ** Edges of the probe stages and of the batch *)

Section EdgesOfTheStages.

Variable isEmail : string -> bool.
Variable isFQDN : string -> bool.

Local Abbreviation validate := (validateEmailWithRetry isEmail isFQDN).

(** X19. An address that passes both checks and whose domain is one of the
    eight well-known mail domains, in any letter case, never fails the MX
    stage when at least one attempt is allowed: whatever [Math.random]
    gives, its result has the MX flag set, and it is Valid or Do Not
    Contact for the reason "SMTP verification failed". *)
Theorem known_mail_domain_passes_mx (address d : string)
    (options : option ValidationOptions) (w : World) :
  isEmail address = true ->
  domainOf address = Some d ->
  isFQDN d = true ->
  has validDomains (JsString.toLowerCase d) = true ->
  0 < maxAttempts (retryStrategy (default DEFAULT_OPTIONS options)) ->
  exists r w',
    validate address options w = (Returned r, w') /\
    mxRecords (details r) = true /\
    (status r = Valid \/ reason r = Some "SMTP verification failed").
Proof.
  intros Hfmt Hd Hfq Hknown Hpos.
  assert (Hmx : retryLoop (checkMXRecords d) (default DEFAULT_OPTIONS options) 0 w =
                (Returned (true, 0), logged (EvCheckMXRecords d) w)).
  { apply retryLoop_success; [exact Hpos |].
    apply checkMXRecords_known. rewrite Hknown. reflexivity. }
  cbv [validateEmailWithRetry bind ret dateNow throw].
  change (nth_error (JsString.split (JsString.isChar "@") address) 1)
    with (domainOf address).
  rewrite Hfmt, Hd, Hfq. cbn [negb]. rewrite Hmx.
  destruct (retryLoop_outcome (checkSMTP address) (default DEFAULT_OPTIONS options) 0
              (logged (EvCheckMXRecords d) w)) as (ok & smtpRetries & w2 & Hsm & Hsmf & _).
  destruct (isEnterpriseDomain d); cbn [negb andb]; rewrite Hsm;
    destruct ok; cbn [negb andb];
    try (destruct (smtpRetries <? maxAttempts (retryStrategy (default DEFAULT_OPTIONS options)))
           eqn:Hcmp;
         [ exfalso; specialize (Hsmf eq_refl); apply Z.ltb_lt in Hcmp;
           unfold limit in Hsmf; lia | ]);
    eexists _, _; (split; [reflexivity |]); (split; [reflexivity |]);
    first [left; reflexivity | right; reflexivity].
Qed.

(** X20. With [maxAttempts] at 0 or below no probe is ever called: an
    address off the corporate lists that passes both checks is then Do Not
    Contact for the reason "No MX records found", with a retry count of 0
    and the world left as it was. *)
Theorem zero_attempts_reject_ordinary_addresses (address d : string)
    (options : option ValidationOptions) (w : World) :
  isEmail address = true ->
  domainOf address = Some d ->
  isFQDN d = true ->
  isEnterpriseDomain d = false ->
  maxAttempts (retryStrategy (default DEFAULT_OPTIONS options)) <= 0 ->
  exists r,
    validate address options w = (Returned r, w) /\
    status r = DoNotContact /\
    confidence r = High /\
    reason r = Some "No MX records found" /\
    retryCount (details r) = 0.
Proof.
  intros Hfmt Hd Hfq Hcorp Hzero.
  assert (Hmx : retryLoop (checkMXRecords d) (default DEFAULT_OPTIONS options) 0 w =
                (Returned (false, 0), w)) by (apply retryLoop_exit; exact Hzero).
  cbv [validateEmailWithRetry bind ret dateNow throw].
  change (nth_error (JsString.split (JsString.isChar "@") address) 1)
    with (domainOf address).
  rewrite Hfmt, Hd, Hfq, Hcorp. cbn [negb]. rewrite Hmx. cbn [negb andb].
  eexists. split; [reflexivity |]. repeat split.
Qed.

Lemma validateEmailBatch_returned_nonempty emails onProgress options completion w results w' :
  validateEmailBatch isEmail isFQDN emails onProgress options completion w =
    (Returned results, w') ->
  results <> [].
Proof.
  unfold validateEmailBatch, bind.
  destruct (validateChunks isEmail isFQDN onProgress (default DEFAULT_OPTIONS options)
              (chunk emails CHUNK_SIZE) 0 w) as [[[perChunk processed] | e] w1];
    [| discriminate].
  cbv zeta.
  destruct (Z.eqb_spec
              (Z.of_nat (List.length (flat_map (fun i => nth i perChunk []) completion))) 0)
    as [Hz | Hnz]; [discriminate |].
  intros Hrun. injection Hrun as <- _. intros Hnil. rewrite Hnil in Hnz. apply Hnz. reflexivity.
Qed.

(** X21. [validateEmailBatch] never returns an empty list: called on no
    address at all it throws the error "No results generated from
    validation", having called nothing, and a list it returns has an
    entry. *)
Theorem batch_never_returns_empty (emails : list string)
    (onProgress : Z -> World -> World) (options : option ValidationOptions)
    (completion : list nat) (w : World) :
  (forall results w',
      validateEmailBatch isEmail isFQDN emails onProgress options completion w =
        (Returned results, w') ->
      results <> []) /\
  validateEmailBatch isEmail isFQDN [] onProgress options completion w =
    (Threw (Error "No results generated from validation"), w).
Proof.
  split.
  - intros results w'. apply validateEmailBatch_returned_nonempty.
  - unfold validateEmailBatch, bind.
    change (chunk [] CHUNK_SIZE) with (@nil (list string)).
    cbn [validateChunks ret]. cbv zeta.
    assert (Hnone : flat_map (fun i => nth i (@nil (list EmailValidationResult)) []) completion
                    = []).
    { induction completion as [| i completion IH]; [reflexivity |].
      cbn [flat_map]. rewrite IH. destruct i; reflexivity. }
    rewrite Hnone. reflexivity.
Qed.

(** X22. However an upload that passes the two file checks ends, the
    processing flag is cleared and the page shows either results or an
    error, never both and never neither: no error and at least one result,
    or an error message and no result. *)
Theorem upload_ends_with_results_or_error (file : File) (completion : list nat)
    (state : AppState) (w : World) :
  validateFileSize file = true ->
  validateFileType file = true ->
  let state' := fst (onDrop isEmail isFQDN file completion state w) in
  processing state' = false /\
  ((error state' = None /\ results state' <> []) \/
   (exists text, error state' = Some text) /\ results state' = []).
Proof.
  intros Hsize Htype. cbv zeta. unfold onDrop. rewrite Hsize, Htype. cbn [negb].
  destruct (parseEmailFile file) as [emails | e].
  - destruct (validateEmailBatch isEmail isFQDN emails reportProgress None completion w)
      as [[validationResults | e] w'] eqn:Hrun; cbn [fst processing error results].
    + split; [reflexivity |]. left. split; [reflexivity |].
      exact (validateEmailBatch_returned_nonempty _ _ _ _ _ _ _ Hrun).
    + split; [reflexivity |]. right. split; [eexists; reflexivity | reflexivity].
  - cbn [fst processing error results].
    split; [reflexivity |]. right. split; [eexists; reflexivity | reflexivity].
Qed.

End EdgesOfTheStages.

Lemma known_mail_domain_passes_mx_witness :
  exists r w',
    validateEmailWithRetry validator.isEmail validator.isFQDN
      "user@GMail.com" None (steadyWorld 0) = (Returned r, w') /\
    mxRecords (details r) = true /\
    (status r = Valid \/ reason r = Some "SMTP verification failed").
Proof.
  apply (known_mail_domain_passes_mx validator.isEmail validator.isFQDN
           "user@GMail.com" "GMail.com" None (steadyWorld 0));
    vm_compute; reflexivity.
Defined.

Lemma zero_attempts_reject_ordinary_addresses_witness :
  exists r,
    validateEmailWithRetry validator.isEmail validator.isFQDN "user@gmail.com"
      (Some {| enableRetries := true;
               retryStrategy := {| maxAttempts := 0; backoffDelay := 2000; timeout := 30000 |};
               validateSMTP := true;
               strictMode := false |})
      (steadyWorld 1) = (Returned r, steadyWorld 1) /\
    status r = DoNotContact /\
    confidence r = High /\
    reason r = Some "No MX records found" /\
    retryCount (details r) = 0.
Proof.
  apply (zero_attempts_reject_ordinary_addresses validator.isEmail validator.isFQDN
           "user@gmail.com" "gmail.com");
    vm_compute; first [reflexivity | discriminate].
Defined.

Lemma upload_ends_with_results_or_error_witness :
  processing
    (fst (onDrop validator.isEmail validator.isFQDN (csvFile "a@gmail.com, no-at-sign")
            [0%nat] idle (steadyWorld 1))) = false /\
  ((error
      (fst (onDrop validator.isEmail validator.isFQDN (csvFile "a@gmail.com, no-at-sign")
              [0%nat] idle (steadyWorld 1))) = None /\
    results
      (fst (onDrop validator.isEmail validator.isFQDN (csvFile "a@gmail.com, no-at-sign")
              [0%nat] idle (steadyWorld 1))) <> []) \/
   (exists text,
       error
         (fst (onDrop validator.isEmail validator.isFQDN (csvFile "a@gmail.com, no-at-sign")
                 [0%nat] idle (steadyWorld 1))) = Some text) /\
   results
     (fst (onDrop validator.isEmail validator.isFQDN (csvFile "a@gmail.com, no-at-sign")
             [0%nat] idle (steadyWorld 1))) = []).
Proof.
  apply (upload_ends_with_results_or_error validator.isEmail validator.isFQDN
           (csvFile "a@gmail.com, no-at-sign") [0%nat] idle (steadyWorld 1));
    reflexivity.
Defined.

(** ** Errors raised by a probe *)



